(** * ACS Laptop Debug Analyzer: signal acquisition and analysis core

    A shallow embedding of the analysis pipeline of [logic_analyzer.py]:
    the numpy array primitives the code relies on, the protocol decoders
    ([ProtocolDecoder.decode_i2c], [ProtocolDecoder.decode_spi]), the
    statistics engine ([MeasurementEngine.calculate_statistics]), the
    simulated clock channel of [HardwareInterface], and the capture,
    cursor and spectrum steps of [LaptopDebugAnalyzer]; further on, the
    keyboard and channel handlers of the window, the measurement table,
    the JSON export, and the whole signal simulator behind
    [HardwareInterface.read_samples].

    Conventions.
    - Python floats are idealised as exact rationals ([Q]); equality on
      them is [Qeq] ([==]).  Integer arrays (indices, edges) are [Z].
    - A Python call that may raise is a value of [result]: [Ok v] or
      [Raise e].  [try ... except] is [try_except].
    - Python dictionaries are [gmap]s; widgets are reduced to the value
      they display. *)

From Stdlib Require Import ZArith QArith Qabs Qround List Bool Lia Lqa String Ascii.
From stdpp Require Import gmap strings list fin_maps pretty.

Open Scope Q_scope.

(** ** Exceptions and the error monad *)

Inductive exn : Type :=
| UnboundLocalError (name : string)
| ValueError (msg : string)
| IndexError.

Inductive result (A : Type) : Type :=
| Ok (a : A)
| Raise (e : exn).
Arguments Ok {A} a.
Arguments Raise {A} e.

Definition rbind {A B} (r : result A) (k : A -> result B) : result B :=
  match r with
  | Ok a => k a
  | Raise e => Raise e
  end.

#[global] Instance result_bind : MBind result := fun A B k r => rbind r k.
#[global] Instance result_ret : MRet result := fun A a => Ok a.

(** [try: body except: handler] *)
Definition try_except {A} (body : result A) (handler : A) : A :=
  match body with
  | Ok a => a
  | Raise _ => handler
  end.

(** ** Rational helpers *)

Definition Qltb (x y : Q) : bool := negb (Qle_bool y x).

(** [x > threshold] on floats. *)
Definition Qgtb (x y : Q) : bool := Qltb y x.

Definition Qminb (x y : Q) : Q := if Qle_bool x y then x else y.
Definition Qmaxb (x y : Q) : Q := if Qle_bool x y then y else x.

(** Sums keep their running total in lowest terms, which leaves the
    value unchanged and keeps evaluation on long buffers tractable. *)
Definition Qsum (l : list Q) : Q := fold_right (fun x acc => Qred (x + acc)) 0 l.
Definition Zsum (l : list Z) : Z := fold_right Z.add 0%Z l.

(** ** numpy primitives *)

Module np.

(** [arr > threshold] *)
Definition gt (arr : list Q) (threshold : Q) : list bool :=
  map (fun x => Qgtb x threshold) arr.

(** [arr < threshold] *)
Definition lt (arr : list Q) (threshold : Q) : list bool :=
  map (fun x => Qltb x threshold) arr.

(** [arr.astype(int)] on a boolean array *)
Definition astype_int (arr : list bool) : list Z :=
  map (fun b : bool => if b then 1%Z else 0%Z) arr.

(** [np.diff(arr)]: [out[i] = arr[i+1] - arr[i]] *)
Fixpoint diff (arr : list Z) : list Z :=
  match arr with
  | [] => []
  | x :: rest =>
      match rest with
      | [] => []
      | y :: _ => (y - x)%Z :: diff rest
      end
  end.

(** [np.where(mask)[0]]: the indices at which the mask holds,
    counted from [base]. *)
Fixpoint where_from (base : Z) (mask : list bool) : list Z :=
  match mask with
  | [] => []
  | b :: rest =>
      if b then base :: where_from (base + 1)%Z rest
      else where_from (base + 1)%Z rest
  end.

Definition where_ (mask : list bool) : list Z := where_from 0%Z mask.

(** [arr == v] on an integer array *)
Definition eq (arr : list Z) (v : Z) : list bool :=
  map (fun x => Z.eqb x v) arr.

(** [a & b] on boolean arrays, with numpy's broadcasting: equal
    shapes combine pointwise, a one-element operand is stretched, any
    other pair of shapes raises. *)
Definition and_ (a b : list bool) : result (list bool) :=
  if (length a =? length b)%nat then Ok (zip_with andb a b)
  else match a, b with
       | [x], _ => Ok (map (andb x) b)
       | _, [y] => Ok (map (fun x => andb x y) a)
       | _, _ => Raise (ValueError "operands could not be broadcast together")
       end.

(** [arr[start:]] for [start >= 0] *)
Definition slice_from {A} (arr : list A) (start : Z) : list A :=
  skipn (Z.to_nat start) arr.

(** [arr[idx]] with Python's index rules: negative indices count from
    the end, anything outside raises [IndexError]. *)
Definition getitem {A} (arr : list A) (idx : Z) : result A :=
  let n := Z.of_nat (length arr) in
  let i := if (idx <? 0)%Z then (idx + n)%Z else idx in
  if (i <? 0)%Z then Raise IndexError
  else match nth_error arr (Z.to_nat i) with
       | Some x => Ok x
       | None => Raise IndexError
       end.

Definition mean (arr : list Q) : Q :=
  Qred (Qsum arr / inject_Z (Z.of_nat (length arr))).

(** [np.mean] of an integer array *)
Definition mean_int (arr : list Z) : Q :=
  Qred (inject_Z (Zsum arr) / inject_Z (Z.of_nat (length arr))).

Definition min (arr : list Q) : Q :=
  match arr with
  | [] => 0
  | x :: rest => fold_left Qminb rest x
  end.

Definition max (arr : list Q) : Q :=
  match arr with
  | [] => 0
  | x :: rest => fold_left Qmaxb rest x
  end.

Definition square (arr : list Q) : list Q := map (fun x => Qred (x * x)) arr.

Fixpoint insert_sorted (x : Q) (l : list Q) : list Q :=
  match l with
  | [] => [x]
  | y :: rest => if Qle_bool x y then x :: l else y :: insert_sorted x rest
  end.

Definition sort (arr : list Q) : list Q := fold_right insert_sorted [] arr.

(** [np.median]: the middle element of the sorted array, or the mean
    of the two middle elements. *)
Definition median (arr : list Q) : Q :=
  let s := sort arr in
  let n := length arr in
  if Nat.even n
  then (nth (n / 2 - 1) s 0 + nth (n / 2) s 0) / 2
  else nth (n / 2) s 0.

(** [np.clip(x, lo, hi)] *)
Definition clip (x lo hi : Q) : Q := Qminb (Qmaxb x lo) hi.

(** [np.linspace(start, stop, num)] *)
Definition linspace (start stop : Q) (num : nat) : list Q :=
  map (fun k : nat =>
         start + inject_Z (Z.of_nat k) * ((stop - start) / inject_Z (Z.of_nat (num - 1))))
      (seq 0 num).

(** [np.argmax]: index of the first occurrence of the maximum. *)
Fixpoint argmax_from (best : Q) (best_idx : nat) (i : nat) (arr : list Q) : nat :=
  match arr with
  | [] => best_idx
  | x :: rest =>
      if Qltb best x then argmax_from x i (S i) rest
      else argmax_from best best_idx (S i) rest
  end.

Definition argmax (arr : list Q) : result nat :=
  match arr with
  | [] => Raise (ValueError "attempt to get argmax of an empty sequence")
  | x :: rest => Ok (argmax_from x 0%nat 1%nat rest)
  end.

(** [np.argmin]: index of the first occurrence of the minimum. *)
Fixpoint argmin_from (best : Q) (best_idx : nat) (i : nat) (arr : list Q) : nat :=
  match arr with
  | [] => best_idx
  | x :: rest =>
      if Qltb x best then argmin_from x i (S i) rest
      else argmin_from best best_idx (S i) rest
  end.

Definition argmin (arr : list Q) : result nat :=
  match arr with
  | [] => Raise (ValueError "attempt to get argmin of an empty sequence")
  | x :: rest => Ok (argmin_from x 0%nat 1%nat rest)
  end.

End np.


(** ** Python built-ins *)

(** [for x in items: s = body(s, x)], stopping at the first exception. *)
Fixpoint for_each {A S : Type} (items : list A) (s : S)
    (body : S -> A -> result S) : result S :=
  match items with
  | [] => Ok s
  | x :: rest =>
      match body s x with
      | Ok s' => for_each rest s' body
      | Raise e => Raise e
      end
  end.

(** [range(start, stop, step)] for a positive step. *)
Definition py_range (start stop step : Z) : list Z :=
  map (fun k : nat => (start + Z.of_nat k * step)%Z)
      (seq 0 (Z.to_nat ((stop - start + step - 1) / step))).

(** [len(arr)] *)
Definition len {A} (arr : list A) : Z := Z.of_nat (length arr).

(** [str(n)] for an integer. *)
Definition py_str (n : Z) : string := pretty n.

(** [''.join(parts)] *)
Definition py_join (parts : list string) : string :=
  fold_right String.append EmptyString parts.

(** [int(s, 2)] on a string of binary digits; the empty string and any
    other character raise [ValueError].  (Signs, blanks, underscores and
    the [0b] prefix that Python also accepts never occur in the strings
    built by the decoder and are not modelled.) *)
Fixpoint int_base2_from (acc : Z) (s : string) : result Z :=
  match s with
  | EmptyString => Ok acc
  | String c rest =>
      if Ascii.eqb c "0"%char then int_base2_from (2 * acc)%Z rest
      else if Ascii.eqb c "1"%char then int_base2_from (2 * acc + 1)%Z rest
      else Raise (ValueError "invalid literal for int() with base 2")
  end.

Definition int_base2 (s : string) : result Z :=
  match s with
  | EmptyString => Raise (ValueError "invalid literal for int() with base 2")
  | _ => int_base2_from 0%Z s
  end.

(** ** Protocol decoders *)

Module ProtocolDecoder.

Record i2c_transaction : Type := {
  i2c_start : Z;
  i2c_stop : Z;
  i2c_address : option Z;
  i2c_data : list Z;
  i2c_type : string
}.

(** The start-condition scan of [decode_i2c]:
    [np.where((scl_edges == 0) & (sda_edges == -1))[0]]. *)
Definition start_indices (scl_edges sda_edges : list Z) : result (list Z) :=
  mask ← np.and_ (np.eq scl_edges 0%Z) (np.eq sda_edges (-1)%Z);
  Ok (np.where_ mask).

(** The stop-condition scan from one start index:
    [np.where((scl[start_idx:] == 1) & (sda_edges[start_idx:] == 1))[0]]. *)
Definition stop_indices (scl : list bool) (sda_edges : list Z) (start_idx : Z)
    : result (list Z) :=
  mask ← np.and_ (np.eq (np.astype_int (np.slice_from scl start_idx)) 1%Z)
                 (np.eq (np.slice_from sda_edges start_idx) 1%Z);
  Ok (np.where_ mask).

(** Body of the loop over [start_indices]. *)
Definition i2c_step (scl : list bool) (sda_edges : list Z)
    (transactions : list i2c_transaction) (start_idx : Z)
    : result (list i2c_transaction) :=
  stop_idx ← stop_indices scl sda_edges start_idx;
  match stop_idx with
  | first :: _ =>
      let stop_idx := (start_idx + first)%Z in
      Ok (transactions ++ [{| i2c_start := start_idx;
                              i2c_stop := stop_idx;
                              i2c_address := None;
                              i2c_data := [];
                              i2c_type := "I2C" |}])
  | [] => Ok transactions
  end.

(** [decode_i2c(data_ch1, data_ch2, threshold)]: SCL on ch1, SDA on ch2. *)
Definition decode_i2c (data_ch1 data_ch2 : list Q) (threshold : Q)
    : result (list i2c_transaction) :=
  let scl := np.gt data_ch1 threshold in
  let sda := np.gt data_ch2 threshold in
  let scl_edges := np.diff (np.astype_int scl) in
  let sda_edges := np.diff (np.astype_int sda) in
  starts ← start_indices scl_edges sda_edges;
  for_each starts [] (i2c_step scl sda_edges).

Record spi_transaction : Type := {
  spi_mosi : Z;
  spi_miso : Z;
  spi_position : Z;
  spi_type : string
}.

(** [1 if chan[idx] > threshold else 0] *)
Definition sample_bit (chan : list Q) (idx : Z) (threshold : Q) : result Z :=
  v ← np.getitem chan idx;
  Ok (if Qgtb v threshold then 1%Z else 0%Z).

(** Body of [for j in range(8)]: one bit of each line is appended. *)
Definition spi_read_bit (mosi miso : list Q) (rising_edges : list Z) (i : Z)
    (threshold : Q) (bits : list Z * list Z) (j : Z) : result (list Z * list Z) :=
  idx ← np.getitem rising_edges (i + j)%Z;
  m ← sample_bit mosi idx threshold;
  s ← sample_bit miso idx threshold;
  Ok (fst bits ++ [m], snd bits ++ [s]).

(** [int(''.join(map(str, bits)), 2)] *)
Definition bits_to_byte (bits : list Z) : result Z :=
  int_base2 (py_join (map py_str bits)).

(** Body of [for i in range(0, len(rising_edges), 8)]. *)
Definition spi_step (mosi miso : list Q) (rising_edges : list Z) (threshold : Q)
    (transactions : list spi_transaction) (i : Z) : result (list spi_transaction) :=
  if (i + 8 <=? len rising_edges)%Z then
    bits ← for_each (py_range 0 8 1) ([], [])
                    (spi_read_bit mosi miso rising_edges i threshold);
    mosi_byte ← bits_to_byte (fst bits);
    miso_byte ← bits_to_byte (snd bits);
    Ok (transactions ++ [{| spi_mosi := mosi_byte;
                            spi_miso := miso_byte;
                            spi_position := i;
                            spi_type := "SPI" |}])
  else Ok transactions.

(** The rising clock edges: [np.where(np.diff((sclk > threshold).astype(int)) == 1)[0]]. *)
Definition sclk_rising_edges (sclk : list Q) (threshold : Q) : list Z :=
  let sclk_edges := np.diff (np.astype_int (np.gt sclk threshold)) in
  np.where_ (np.eq sclk_edges 1%Z).

(** [decode_spi(mosi, miso, sclk, cs, threshold)].  [cs_active] is
    computed and never consulted. *)
Definition decode_spi (mosi miso sclk cs : list Q) (threshold : Q)
    : result (list spi_transaction) :=
  let cs_active := np.lt cs threshold in
  let rising_edges := sclk_rising_edges sclk threshold in
  for_each (py_range 0 (len rising_edges) 8) []
           (spi_step mosi miso rising_edges threshold).

End ProtocolDecoder.


(** ** Measurement statistics *)

Module MeasurementEngine.

Section WithSqrt.

(** [np.sqrt] has no rational counterpart and is taken as given. *)
Variable np_sqrt : Q -> Q.

(** [np.std]: population standard deviation. *)
Definition np_std (arr : list Q) : Q :=
  let m := np.mean arr in
  np_sqrt (np.mean (map (fun x => Qred (Qabs (x - m) * Qabs (x - m))) arr)).

(** The always-present entries of the record. *)
Definition basic_stats (data : list Q) : gmap string Q :=
  <["median" := np.median data]>
  (<["vpp" := np.max data - np.min data]>
  (<["std_dev" := np_std data]>
  (<["rms" := np_sqrt (np.mean (np.square data))]>
  (<["mean" := np.mean data]>
  (<["max" := np.max data]>
  (<["min" := np.min data]> ∅)))))).

(** [for i in range(min(len(rising_edges), len(falling_edges)))]:
    the widths of the pairs whose rising edge comes first. *)
Fixpoint pulse_widths (rising_edges falling_edges : list Z) : list Z :=
  match rising_edges, falling_edges with
  | r :: rs, f :: fs =>
      if (r <? f)%Z then (f - r)%Z :: pulse_widths rs fs
      else pulse_widths rs fs
  | _, _ => []
  end.

(** [np.where(edges == 1)[0]] for the thresholded buffer. *)
Definition rising_edges_of (data : list Q) (threshold : Q) : list Z :=
  let digital := np.gt data threshold in
  let edges := np.diff (np.astype_int digital) in
  np.where_ (np.eq edges 1%Z).

Definition falling_edges_of (data : list Q) (threshold : Q) : list Z :=
  let digital := np.gt data threshold in
  let edges := np.diff (np.astype_int digital) in
  np.where_ (np.eq edges (-1)%Z).

(** The body of [if len(data) > 10]: frequency, period and duty cycle. *)
Definition frequency_analysis (data : list Q) (threshold : Q)
    (stats : gmap string Q) : gmap string Q :=
  let rising_edges := rising_edges_of data threshold in
  if (1 <? len rising_edges)%Z then
    let periods := np.diff rising_edges in
    if (0 <? len periods)%Z then
      let avg_period := np.mean_int periods in
      if Qgtb avg_period 0 then
        let stats := <["frequency" := 1 / avg_period]> stats in
        let stats := <["period" := avg_period]> stats in
        let falling_edges := falling_edges_of data threshold in
        if (0 <? len falling_edges)%Z then
          let widths := pulse_widths rising_edges falling_edges in
          match widths with
          | [] => stats
          | _ :: _ =>
              let avg_pulse := np.mean_int widths in
              <["duty_cycle" := (avg_pulse / avg_period) * 100]> stats
          end
        else stats
      else stats
    else stats
  else stats.

(** The rise/fall block: the constant 10 for every rising edge at least
    10 samples away from both ends of the buffer. *)
Definition rise_times_of (data : list Q) (rising_edges : list Z) : list Z :=
  flat_map (fun edge : Z =>
              if ((edge - 10 >=? 0) && (edge + 10 <? len data))%Z
              then [10%Z] else [])
           rising_edges.

Definition rise_fall_times (data : list Q) (rising_edges : list Z)
    (stats : gmap string Q) : gmap string Q :=
  if (0 <? len rising_edges)%Z then
    match rise_times_of data rising_edges with
    | [] => stats
    | rise_times =>
        <["fall_time" := np.mean_int rise_times * (9 # 10)]>
        (<["rise_time" := np.mean_int rise_times]> stats)
    end
  else stats.

(** [calculate_statistics(data, threshold)].  The local [rising_edges]
    is bound only inside [if len(data) > 10]; the rise/fall block after
    it reads the variable unconditionally. *)
Definition calculate_statistics (data : list Q) (threshold : Q)
    : result (gmap string Q) :=
  if (len data =? 0)%Z then Ok ∅
  else
    let stats := basic_stats data in
    let '(stats, rising_edges) :=
      if (10 <? len data)%Z
      then (frequency_analysis data threshold stats,
            Some (rising_edges_of data threshold))
      else (stats, None) in
    match rising_edges with
    | None => Raise (UnboundLocalError "rising_edges")
    | Some rising_edges => Ok (rise_fall_times data rising_edges stats)
    end.

End WithSqrt.

End MeasurementEngine.

(** ** Simulated signal source *)

Module HardwareInterface.

(** [(np.sin(2 * np.pi * freq * t) > 0).astype(float) * 3.3]: the sine
    is positive exactly when the fractional part of [freq * t] lies
    strictly between 0 and 1/2.  This closed form serves channel 0 on
    its window of 1000 samples, where the float sine has the sign of
    the exact one at every sample: [freq * t] is a multiple of 1/2 only
    at the first sample, where the sine is 0, and at the last, where
    its float value is negative. *)
Definition clock_level (freq t : Q) : Q :=
  let x := freq * t in
  let phase := x - inject_Z (Qfloor x) in
  if Qltb 0 phase && Qltb phase (1 # 2) then 33 # 10 else 0.

(** The [ch == 0] branch of [generate_simulated_samples]: the digital
    clock at [1000 * (ch + 1)] Hz over the 1 ms window, plus noise,
    clipped to the rails.  [noise] stands for
    [np.random.randn(len(data)) * 0.05], one draw per sample. *)
Definition generate_simulated_clock (num_samples : nat) (noise : list Q) : list Q :=
  let time_data := np.linspace 0 (1 # 1000) num_samples in
  let ch := 0%Z in
  let freq := inject_Z (1000 * (ch + 1)) in
  let data := map (clock_level freq) time_data in
  zip_with (fun d e => np.clip (d + e) 0 (36 # 10)) data noise.

End HardwareInterface.


(** ** The analyzer: capture scheduling, cursors, spectrum *)

Module LaptopDebugAnalyzer.

(** One entry of [capture_data] / of the dictionary returned by
    [HardwareInterface.read_samples]. *)
Record capture : Type := {
  cap_time : list Q;
  cap_data : list Q;
  cap_timestamp : Q
}.

(** The cursor panel: every label is reduced to the number it shows
    (before rounding to the printed precision); [None] is the initial
    text ["--"]. *)
Record cursor_readout : Type := {
  cursor1_time : option Q;
  cursor1_voltage : option Q;
  cursor2_time : option Q;
  cursor2_voltage : option Q;
  delta_time : option Q;
  delta_voltage : option Q;
  frequency_label : option Q
}.

(** [freq_values[0]] (fundamental, kHz) and [freq_values[1]] (dB). *)
Record spectrum_readout : Type := {
  fundamental_khz : option Q;
  fundamental_db : option Q
}.

(** The part of the window's state the acquisition core reads and
    writes.  [timers] holds the [QTimer] objects created so far, in
    creation order, with their active flag; [capture_timer] and
    [auto_save_timer] refer into it ([None]: attribute not bound). *)
Record analyzer : Type := {
  is_capturing : bool;
  capture_data : gmap nat capture;
  capture_timer : option nat;
  auto_save_timer : option nat;
  timers : list bool;
  cursor_v1 : Q;
  cursor_v2 : Q;
  cursor_labels : cursor_readout;
  freq_values : spectrum_readout
}.

(** What the widgets and the configuration answer during a call. *)
Record ui_inputs : Type := {
  channel_checked : list bool;       (* channel_configs[ch]['group'].isChecked() *)
  sample_rate_MS : option Q;         (* the combo text, when it reads "<r> MS/s" *)
  high_rate_reply_yes : bool;        (* answer to the "High Sample Rate" question *)
  config_auto_save : bool;           (* config.get('auto_save', False) *)
  config_buffer_size : Z;            (* config['buffer_size'] *)
  current_tab : Z                    (* main_tabs.currentIndex() *)
}.

Definition no_readout : cursor_readout :=
  {| cursor1_time := None; cursor1_voltage := None;
     cursor2_time := None; cursor2_voltage := None;
     delta_time := None; delta_voltage := None; frequency_label := None |}.

(** The state built by [__init__] and [setup_ui]. *)
Definition initial : analyzer :=
  {| is_capturing := false;
     capture_data := ∅;
     capture_timer := None;
     auto_save_timer := None;
     timers := [];
     cursor_v1 := 0;
     cursor_v2 := 1 # 1000;
     cursor_labels := no_readout;
     freq_values := {| fundamental_khz := None; fundamental_db := None |} |}.

(** [timer.stop()] *)
Definition timer_stop (t : nat) (ts : list bool) : list bool := <[t := false]> ts.

(** Rebinding an attribute that held the only reference to a [QTimer]
    destroys that timer, which stops it. *)
Definition release_timer (old : option nat) (ts : list bool) : list bool :=
  match old with
  | Some t => timer_stop t ts
  | None => ts
  end.

(** [validate_capture_settings()] *)
Definition validate_capture_settings (ui : ui_inputs) : bool :=
  let enabled_channels := length (filter (fun b : bool => b = true) (channel_checked ui)) in
  if (enabled_channels =? 0)%nat then false
  else
    match sample_rate_MS ui with
    | Some r =>
        let rate := r * 1000000 in
        if Qgtb rate 100000000 then high_rate_reply_yes ui else true
    | None => true
    end.

(** [start_capture()]: no test of [is_capturing]; the buffers are
    cleared, the cursors are put back by [clear_plots], and a fresh
    timer is created and started. *)
Definition start_capture (ui : ui_inputs) (st : analyzer) : analyzer :=
  if negb (validate_capture_settings ui) then st
  else
    let ts := release_timer (capture_timer st) (timers st) in
    let new_timer := length ts in
    let ts := ts ++ [true] in
    let '(ts, auto) :=
      if config_auto_save ui
      then let ts := release_timer (auto_save_timer st) ts in
           (ts ++ [true], Some (length ts))
      else (ts, auto_save_timer st) in
    {| is_capturing := true;
       capture_data := ∅;
       capture_timer := Some new_timer;
       auto_save_timer := auto;
       timers := ts;
       cursor_v1 := 0;
       cursor_v2 := 1 # 1000;
       cursor_labels := cursor_labels st;
       freq_values := freq_values st |}.

(** [stop_capture()] *)
Definition stop_capture (st : analyzer) : analyzer :=
  let ts := match capture_timer st with
            | Some t => timer_stop t (timers st)
            | None => timers st
            end in
  let ts := match auto_save_timer st with
            | Some t => timer_stop t ts
            | None => ts
            end in
  {| is_capturing := false;
     capture_data := capture_data st;
     capture_timer := capture_timer st;
     auto_save_timer := auto_save_timer st;
     timers := ts;
     cursor_v1 := cursor_v1 st;
     cursor_v2 := cursor_v2 st;
     cursor_labels := cursor_labels st;
     freq_values := freq_values st |}.

(** Is the tick source bound and firing? *)
Definition tick_source_active (st : analyzer) : bool :=
  match capture_timer st with
  | Some t => default false (timers st !! t)
  | None => false
  end.

(** The three components the scheduler is made of. *)
Definition scheduler_state (st : analyzer) : bool * gmap nat capture * bool :=
  (is_capturing st, capture_data st, tick_source_active st).

(** The store of [update_capture]: for each entry of the batch whose
    channel exists and is checked, [capture_data[ch]] is replaced by the
    entry.  Nothing is appended and no bound is consulted. *)
Definition store_batch (ui : ui_inputs) (channel_data : list (nat * capture))
    (captured : gmap nat capture) : gmap nat capture :=
  fold_left
    (fun (acc : gmap nat capture) (item : nat * capture) =>
       let '(ch, data_dict) := item in
       if (ch <? length (channel_checked ui))%nat
       then if default false (channel_checked ui !! ch)
            then <[ch := {| cap_time := cap_time data_dict;
                            cap_data := cap_data data_dict;
                            cap_timestamp := cap_timestamp data_dict |}]> acc
            else acc
       else acc)
    channel_data captured.

(** [update_cursor_measurements()], inside its [try]. *)
Definition cursor_measurements (st : analyzer) : result cursor_readout :=
  match capture_data st !! 0%nat with
  | None => Ok (cursor_labels st)
  | Some cap =>
      let data := cap_data cap in
      let time := cap_time cap in
      let cursor1_x := cursor_v1 st in
      let cursor2_x := cursor_v2 st in
      idx1 ← np.argmin (map (fun t => Qabs (t - cursor1_x)) time);
      idx2 ← np.argmin (map (fun t => Qabs (t - cursor2_x)) time);
      if ((idx1 <? length data) && (idx2 <? length data))%nat then
        v1 ← np.getitem data (Z.of_nat idx1);
        v2 ← np.getitem data (Z.of_nat idx2);
        t1 ← np.getitem time (Z.of_nat idx1);
        t2 ← np.getitem time (Z.of_nat idx2);
        let dt := Qabs (t2 - t1) * 1000 in
        let dv := Qabs (v2 - v1) in
        Ok {| cursor1_time := Some (t1 * 1000);
              cursor1_voltage := Some v1;
              cursor2_time := Some (t2 * 1000);
              cursor2_voltage := Some v2;
              delta_time := Some dt;
              delta_voltage := Some dv;
              frequency_label :=
                if Qgtb dt 0 then Some (1 / (dt * (1 # 1000)))
                else frequency_label (cursor_labels st) |}
      else Ok (cursor_labels st)
  end.

Definition with_cursor_labels (st : analyzer) (labels : cursor_readout) : analyzer :=
  {| is_capturing := is_capturing st;
     capture_data := capture_data st;
     capture_timer := capture_timer st;
     auto_save_timer := auto_save_timer st;
     timers := timers st;
     cursor_v1 := cursor_v1 st;
     cursor_v2 := cursor_v2 st;
     cursor_labels := labels;
     freq_values := freq_values st |}.

(** [update_cursor_measurements()]: every exception is swallowed. *)
Definition update_cursor_measurements (st : analyzer) : analyzer :=
  try_except (labels ← cursor_measurements st; Ok (with_cursor_labels st labels)) st.

Definition with_capture_data (st : analyzer) (captured : gmap nat capture) : analyzer :=
  {| is_capturing := is_capturing st;
     capture_data := captured;
     capture_timer := capture_timer st;
     auto_save_timer := auto_save_timer st;
     timers := timers st;
     cursor_v1 := cursor_v1 st;
     cursor_v2 := cursor_v2 st;
     cursor_labels := cursor_labels st;
     freq_values := freq_values st |}.

Definition with_freq_values (st : analyzer) (values : spectrum_readout) : analyzer :=
  {| is_capturing := is_capturing st;
     capture_data := capture_data st;
     capture_timer := capture_timer st;
     auto_save_timer := auto_save_timer st;
     timers := timers st;
     cursor_v1 := cursor_v1 st;
     cursor_v2 := cursor_v2 st;
     cursor_labels := cursor_labels st;
     freq_values := values |}.

(** The cursor lines are movable: the user drags them to new positions. *)
Definition with_cursors (st : analyzer) (x1 x2 : Q) : analyzer :=
  {| is_capturing := is_capturing st;
     capture_data := capture_data st;
     capture_timer := capture_timer st;
     auto_save_timer := auto_save_timer st;
     timers := timers st;
     cursor_v1 := x1;
     cursor_v2 := x2;
     cursor_labels := cursor_labels st;
     freq_values := freq_values st |}.

Section Spectrum.

(** The transcendental numpy routines are taken as given, entry by
    entry: [np.hanning(M)[n]], [np.fft.fft(x)[k]] as (re, im),
    [np.abs] of a complex number, and [np.log10]. *)
Variable np_hanning_at : nat -> nat -> Q.
Variable np_fft_bin : list Q -> nat -> Q * Q.
Variable np_abs : Q * Q -> Q.
Variable np_log10 : Q -> Q.

Definition np_hanning (M : nat) : list Q := map (np_hanning_at M) (seq 0 M).

Definition np_fft (x : list Q) : result (list (Q * Q)) :=
  match x with
  | [] => Raise (ValueError "Invalid number of FFT data points (0) specified.")
  | _ :: _ => Ok (map (np_fft_bin x) (seq 0 (length x)))
  end.

(** [np.fft.fftfreq(n, d)]: [k / (d*n)] for [k <= (n-1)//2], then the
    negative frequencies. *)
Definition np_fftfreq (n : nat) (d : Q) : list Q :=
  map (fun k : nat =>
         if (k <=? (n - 1) / 2)%nat
         then inject_Z (Z.of_nat k) / (d * inject_Z (Z.of_nat n))
         else inject_Z (Z.of_nat k - Z.of_nat n) / (d * inject_Z (Z.of_nat n)))
      (seq 0 n).

Record spectrum : Type := {
  fft_magnitude : list Q;
  frequencies : list Q;
  fft_db : list Q
}.

(** The transform of [update_fft]: remove the mean, window, transform,
    keep the first half of the bins, convert to dB. *)
Definition compute_spectrum (data : list Q) : result spectrum :=
  let m := np.mean data in
  let data := map (fun x => x - m) data in
  let window := np_hanning (length data) in
  let data_windowed := zip_with Qmult data window in
  fft_result ← np_fft data_windowed;
  let half := (length fft_result / 2)%nat in
  let magnitude := map np_abs (take half fft_result) in
  Ok {| fft_magnitude := magnitude;
        frequencies := take half (np_fftfreq (length data) (1 / 24000000));
        fft_db := map (fun x => 20 * np_log10 (x + (1 # 10000000000))) magnitude |}.

(** [update_fft()], inside its [try]. *)
Definition fft_measurements (st : analyzer) : result spectrum_readout :=
  match capture_data st !! 0%nat with
  | None => Ok (freq_values st)
  | Some cap =>
      sp ← compute_spectrum (cap_data cap);
      if (10 <? length (fft_magnitude sp))%nat then
        rel ← np.argmax (drop 10 (fft_magnitude sp));
        let fundamental_idx := (rel + 10)%nat in
        fundamental_freq ← np.getitem (frequencies sp) (Z.of_nat fundamental_idx);
        fundamental_mag ← np.getitem (fft_db sp) (Z.of_nat fundamental_idx);
        Ok {| fundamental_khz := Some (fundamental_freq / 1000);
              fundamental_db := Some fundamental_mag |}
      else Ok (freq_values st)
  end.

(** [update_fft()]: every exception is swallowed. *)
Definition update_fft (st : analyzer) : analyzer :=
  try_except (values ← fft_measurements st; Ok (with_freq_values st values)) st.

(** [update_capture()]: one tick.  [channel_data] is what
    [hardware.read_samples(1000)] returned, in dictionary order.  The
    plot and table updates interleaved with the store only touch
    widgets and are left out. *)
Definition update_capture (ui : ui_inputs) (channel_data : list (nat * capture))
    (st : analyzer) : analyzer :=
  if negb (is_capturing st) then st
  else
    let st := with_capture_data st (store_batch ui channel_data (capture_data st)) in
    let st := update_cursor_measurements st in
    if (current_tab ui =? 4)%Z then update_fft st else st.

End Spectrum.

End LaptopDebugAnalyzer.

(** ** The eviction policy as the specification words it *)

(** Appending to a buffer bounded to [bound] samples, oldest discarded
    first: the most recent [bound] samples of everything appended. *)
Definition fifo_append {A} (bound : nat) (buffer batch : list A) : list A :=
  let all := buffer ++ batch in
  drop (length all - bound) all.

(** ** Reference notions for the decoders *)

(** The number of rising edges of a thresholded signal: the positions
    where a low sample is followed by a high one. *)
Fixpoint rising_edge_count (digital : list bool) : nat :=
  match digital with
  | [] => 0
  | a :: rest =>
      match rest with
      | [] => 0
      | b :: _ => (if negb a && b then 1 else 0) + rising_edge_count rest
      end
  end.

(** The value of a bit string read most significant bit first. *)
Definition msb_first_value (bits : list Z) : Z :=
  fold_left (fun acc b => (2 * acc + b)%Z) bits 0%Z.

(** The [k]-th entry of an index array, and the threshold bit of a
    channel at a sample index. *)
Definition edge_at (edges : list Z) (k : Z) : Z := nth (Z.to_nat k) edges 0%Z.

Definition threshold_bit (chan : list Q) (threshold : Q) (idx : Z) : Z :=
  if Qgtb (nth (Z.to_nat idx) chan 0) threshold then 1%Z else 0%Z.

(** The bits of one channel at the eight rising edges starting at
    position [i] of the edge array. *)
Definition group_bits (chan : list Q) (threshold : Q) (edges : list Z) (i : Z) : list Z :=
  map (fun j : Z => threshold_bit chan threshold (edge_at edges (i + j)))
      [0; 1; 2; 3; 4; 5; 6; 7]%Z.

(** The transaction expected for the group starting at position [i]. *)
Definition group_transaction (mosi miso : list Q) (threshold : Q) (edges : list Z)
    (i : Z) : ProtocolDecoder.spi_transaction :=
  {| ProtocolDecoder.spi_mosi := msb_first_value (group_bits mosi threshold edges i);
     ProtocolDecoder.spi_miso := msb_first_value (group_bits miso threshold edges i);
     ProtocolDecoder.spi_position := i;
     ProtocolDecoder.spi_type := "SPI" |}.

(** What one pass of the bit loop and one pass of the group loop
    compute when nothing raises. *)
Definition group_bit_step (mosi miso : list Q) (threshold : Q) (edges : list Z)
    (i : Z) (bits : list Z * list Z) (j : Z) : list Z * list Z :=
  (fst bits ++ [threshold_bit mosi threshold (edge_at edges (i + j))],
   snd bits ++ [threshold_bit miso threshold (edge_at edges (i + j))]).

Definition spi_step_value (mosi miso : list Q) (threshold : Q) (edges : list Z)
    (transactions : list ProtocolDecoder.spi_transaction) (i : Z)
    : list ProtocolDecoder.spi_transaction :=
  if (i + 8 <=? len edges)%Z
  then transactions ++ [group_transaction mosi miso threshold edges i]
  else transactions.

(** One transaction per complete group of eight edges, in order. *)
Definition expected_transactions (mosi miso : list Q) (threshold : Q) (edges : list Z)
    : list ProtocolDecoder.spi_transaction :=
  map (fun k : nat => group_transaction mosi miso threshold edges (8 * Z.of_nat k))
      (seq 0 (Z.to_nat (len edges / 8))).

(** ** Sample buffers used to exercise the statements *)

Module Samples.

Definition high : Q := 33 # 10.
Definition threshold : Q := 18 # 10.

(** Seventeen clock pulses: a rising edge at every even index. *)
Definition sclk17 : list Q := concat (repeat [0; high] 17).

(** Eight clock pulses and two data lines: MOSI carries 10100110,
    MISO stays high. *)
Definition sclk8 : list Q := concat (repeat [0; high] 8) ++ [0].
Definition mosi8 : list Q :=
  [high; 0; 0; 0; high; 0; 0; 0; 0; 0; high; 0; high; 0; 0; 0; 0].
Definition miso8 : list Q := repeat high 17.

(** A six-digit square root standing in for [np.sqrt] where a concrete
    function is needed. *)
Definition sqrt6 (q : Q) : Q :=
  Z.sqrt (Qnum q * Zpos (Qden q) * 10 ^ 12) # (Qden q * 10 ^ 6).

(** The simulated clock channel with every noise draw equal to zero. *)
Definition quiet_clock : list Q :=
  HardwareInterface.generate_simulated_clock 1000 (repeat 0 1000).

(** Two-sample lines: SCL stays low while SDA falls. *)
Definition scl_low : list Q := [0; 0].
Definition sda_falling : list Q := [high; 0].

(** One batch of channel 0 as the simulator delivers it. *)
Definition clock_capture : LaptopDebugAnalyzer.capture :=
  {| LaptopDebugAnalyzer.cap_time := np.linspace 0 (1 # 1000) 1000;
     LaptopDebugAnalyzer.cap_data := quiet_clock;
     LaptopDebugAnalyzer.cap_timestamp := 0 |}.

(** All eight channels checked, 24 MS/s, waveform tab in front, and a
    configured buffer size of 1500 samples. *)
Definition ui : LaptopDebugAnalyzer.ui_inputs :=
  {| LaptopDebugAnalyzer.channel_checked := repeat true 8;
     LaptopDebugAnalyzer.sample_rate_MS := Some 24;
     LaptopDebugAnalyzer.high_rate_reply_yes := false;
     LaptopDebugAnalyzer.config_auto_save := true;
     LaptopDebugAnalyzer.config_buffer_size := 1500;
     LaptopDebugAnalyzer.current_tab := 0 |}.

(** A three-sample capture on channel 0 with both cursors on its first
    sample. *)
Definition three_samples : LaptopDebugAnalyzer.capture :=
  {| LaptopDebugAnalyzer.cap_time := [0; 1 # 1000; 2 # 1000];
     LaptopDebugAnalyzer.cap_data := [0; high; 0];
     LaptopDebugAnalyzer.cap_timestamp := 0 |}.

Definition cursors_together : LaptopDebugAnalyzer.analyzer :=
  LaptopDebugAnalyzer.with_cursors
    (LaptopDebugAnalyzer.with_capture_data LaptopDebugAnalyzer.initial
       {[ 0%nat := three_samples ]}) 0 0.

(** The same settings with every channel box unchecked. *)
Definition ui_no_channels : LaptopDebugAnalyzer.ui_inputs :=
  {| LaptopDebugAnalyzer.channel_checked := repeat false 8;
     LaptopDebugAnalyzer.sample_rate_MS := Some 24;
     LaptopDebugAnalyzer.high_rate_reply_yes := false;
     LaptopDebugAnalyzer.config_auto_save := true;
     LaptopDebugAnalyzer.config_buffer_size := 1500;
     LaptopDebugAnalyzer.current_tab := 0 |}.

(** Concrete stand-ins for the transcendental routines of the spectrum
    step: a flat window, the samples themselves as bins, the 1-norm as
    modulus, and the identity as logarithm. *)
Definition flat_window (M n : nat) : Q := 1.
Definition sample_bins (x : list Q) (k : nat) : Q * Q := (nth k x 0, 0).
Definition norm1 (z : Q * Q) : Q := Qabs (fst z) + Qabs (snd z).
Definition linear_log (x : Q) : Q := x.

(** One tick of the analyzer with these stand-ins. *)
Definition tick (channel_data : list (nat * LaptopDebugAnalyzer.capture))
    (st : LaptopDebugAnalyzer.analyzer) : LaptopDebugAnalyzer.analyzer :=
  LaptopDebugAnalyzer.update_capture flat_window sample_bins norm1 linear_log
    ui channel_data st.

(** Running, after one tick that captured channel 0. *)
Definition running : LaptopDebugAnalyzer.analyzer :=
  tick [(0%nat, clock_capture)]
       (LaptopDebugAnalyzer.start_capture ui LaptopDebugAnalyzer.initial).

Definition spi8_transaction : ProtocolDecoder.spi_transaction :=
  {| ProtocolDecoder.spi_mosi := 166;
     ProtocolDecoder.spi_miso := 255;
     ProtocolDecoder.spi_position := 0;
     ProtocolDecoder.spi_type := "SPI" |}.

End Samples.

(** ** Further handlers of the analyzer window *)

Module Handlers.

Import LaptopDebugAnalyzer.

(** [clear_plots()]: besides emptying the plot widgets, the two
    vertical cursors are put back to 0 and 1 ms. *)
Definition clear_plots (st : analyzer) : analyzer := with_cursors st 0 (1 # 1000).

(** [new_session()]: [reply_yes] is the answer to the confirmation box. *)
Definition new_session (reply_yes : bool) (st : analyzer) : analyzer :=
  if reply_yes then clear_plots (with_capture_data st ∅) else st.

(** [single_capture()]: returns at once when capturing; otherwise starts
    and arms a one-shot timer whose expiry is a later [stop_capture]. *)
Definition single_capture (ui : ui_inputs) (st : analyzer) : analyzer :=
  if is_capturing st then st else start_capture ui st.

(** The keys of [keyPressEvent] that reach the acquisition; every other
    key only changes the view. *)
Inductive key : Type := Key_F5 | Key_F6 | Key_F7 | Key_Space | Key_view.

Definition keyPressEvent (ui : ui_inputs) (k : key) (st : analyzer) : analyzer :=
  match k with
  | Key_F5 => start_capture ui st
  | Key_F6 => stop_capture st
  | Key_F7 => single_capture ui st
  | Key_Space => if is_capturing st then stop_capture st else start_capture ui st
  | Key_view => st
  end.

(** The window part of [toggle_channel(channel, enabled)]: a disabled
    channel loses its capture buffer, and the plots are cleared. *)
Definition toggle_channel_window (channel : nat) (enabled : bool) (st : analyzer)
    : analyzer :=
  let st := if negb enabled
            then match capture_data st !! channel with
                 | Some _ => with_capture_data st (delete channel (capture_data st))
                 | None => st
                 end
            else st in
  clear_plots st.

(** Every timer attribute refers to a timer that was created. *)
Definition timers_bound (st : analyzer) : Prop :=
  (forall t, capture_timer st = Some t -> t < length (timers st))%nat /\
  (forall t, auto_save_timer st = Some t -> t < length (timers st))%nat.

(** The capturing flag agrees with the tick source, and the timer
    attributes are valid. *)
Definition consistent (st : analyzer) : Prop :=
  timers_bound st /\ is_capturing st = tick_source_active st.

(** The fields the scheduler invariant speaks about. *)
Definition timer_fields (st : analyzer) : bool * option nat * option nat * list bool :=
  (is_capturing st, capture_timer st, auto_save_timer st, timers st).

Section Reachable.

Variable np_hanning_at : nat -> nat -> Q.
Variable np_fft_bin : list Q -> nat -> Q * Q.
Variable np_abs : Q * Q -> Q.
Variable np_log10 : Q -> Q.

(** The states the window can be in: the initial one, and whatever the
    handlers and the timer tick make of a state it can be in. *)
Inductive reachable : analyzer -> Prop :=
| reach_initial : reachable initial
| reach_key ui k st : reachable st -> reachable (keyPressEvent ui k st)
| reach_start ui st : reachable st -> reachable (start_capture ui st)
| reach_stop st : reachable st -> reachable (stop_capture st)
| reach_single ui st : reachable st -> reachable (single_capture ui st)
| reach_tick ui channel_data st :
    reachable st ->
    reachable (update_capture np_hanning_at np_fft_bin np_abs np_log10 ui channel_data st)
| reach_fft st :
    reachable st -> reachable (update_fft np_hanning_at np_fft_bin np_abs np_log10 st)
| reach_cursor_update st : reachable st -> reachable (update_cursor_measurements st)
| reach_drag st x1 x2 : reachable st -> reachable (with_cursors st x1 x2)
| reach_new_session reply st : reachable st -> reachable (new_session reply st)
| reach_toggle channel enabled st :
    reachable st -> reachable (toggle_channel_window channel enabled st).

End Reachable.

End Handlers.

(** ** The measurement table *)

Module MeasurementTable.

(** The text of the status cell. *)
Inductive status : Type :=
| HIGH | LOW | OK_1V8 | OK_3V3 | OK_5V | CHECK.

(** One row of [measure_table], each cell reduced to the number it
    shows; [None] is the text ["--"].  The overshoot column is never
    written. *)
Record row : Type := {
  row_min : Q;
  row_max : Q;
  row_mean : Q;
  row_rms : Q;
  row_vpp : Q;
  row_freq : option Q;
  row_duty : option Q;
  row_rise : option Q;
  row_fall : option Q;
  row_status : status
}.

(** [stats.get(key, 0)] *)
Definition get (stats : gmap string Q) (key : string) : Q := default 0 (stats !! key).

(** [f"{x:.1f}" if x > 0 else "--"] *)
Definition positive_or_dash (x : Q) : option Q := if Qgtb x 0 then Some x else None.

(** The status chain on the mean voltage. *)
Definition status_of (voltage : Q) : status :=
  if Qgtb voltage (36 # 10) then HIGH
  else if Qltb voltage (5 # 10) then LOW
  else if Qltb (17 # 10) voltage && Qltb voltage 2 then OK_1V8
  else if Qltb (31 # 10) voltage && Qltb voltage (35 # 10) then OK_3V3
  else if Qltb (48 # 10) voltage && Qltb voltage (52 # 10) then OK_5V
  else CHECK.

Definition row_of (stats : gmap string Q) : row :=
  {| row_min := get stats "min";
     row_max := get stats "max";
     row_mean := get stats "mean";
     row_rms := get stats "rms";
     row_vpp := get stats "vpp";
     row_freq := positive_or_dash (get stats "frequency");
     row_duty := positive_or_dash (get stats "duty_cycle");
     row_rise := positive_or_dash (get stats "rise_time");
     row_fall := positive_or_dash (get stats "fall_time");
     row_status := status_of (get stats "mean") |}.

(** The table (rows written so far, by row number) and the exceptions
    handed to [log_message("ERROR", ...)]. *)
Record panel : Type := {
  rows : gmap nat row;
  errors : list exn
}.

(** [measure_table.rowCount()] *)
Definition row_count : nat := 8.

Section WithSqrt.

Variable np_sqrt : Q -> Q.

(** [update_channel_measurements(channel, data)]: the statistics are
    taken with the default threshold; an exception is logged and
    otherwise ignored.  The mean the status chain compares is the exact
    one; the float mean of the code differs from it by a few units in
    the last place, which decides the status only for a mean within
    that distance of one of the thresholds of the chain. *)
Definition update_channel_measurements (channel : nat) (data : list Q) (p : panel)
    : panel :=
  match MeasurementEngine.calculate_statistics np_sqrt data (18 # 10) with
  | Ok stats =>
      if (channel <? row_count)%nat
      then {| rows := <[channel := row_of stats]> (rows p); errors := errors p |}
      else p
  | Raise e => {| rows := rows p; errors := errors p ++ [e] |}
  end.

End WithSqrt.

End MeasurementTable.

(** ** Saving a capture *)

Module Persistence.

Import LaptopDebugAnalyzer.

(** [arr[::step]] for a positive step: the entries at positions 0,
    [step], [2 * step], ...; [skip] counts the entries still to pass
    over before the next one is kept. *)
Fixpoint every_nth {A} (step skip : nat) (arr : list A) : list A :=
  match arr with
  | [] => []
  | x :: rest =>
      match skip with
      | O => x :: every_nth step (step - 1) rest
      | S skip' => every_nth step skip' rest
      end
  end.

Definition slice_step {A} (arr : list A) (step : nat) : list A := every_nth step 0 arr.

(** [step = max(1, len(data) // 1000)] *)
Definition decimation_step (n : nat) : nat := Nat.max 1 (n / 1000).

(** [f'CH{ch+1}'] *)
Definition channel_key (ch : nat) : string := "CH" +:+ pretty (ch + 1)%nat.

(** What the channel widgets say when the file is written. *)
Record channel_config : Type := {
  group_checked : bool;
  signal_type : string;
  range_text : string;
  threshold_value : Q
}.

Record json_channel_config : Type := {
  cfg_channel : nat;
  cfg_enabled : bool;
  cfg_type : string;
  cfg_range : string;
  cfg_threshold : Q
}.

Record json_metadata : Type := {
  md_timestamp : string;
  md_sample_rate : string;
  md_channels : nat;
  md_samples : nat;
  md_software_version : string
}.

Record json_series : Type := {
  series_time : list Q;
  series_voltage : list Q
}.

(** The document handed to [json.dump]. *)
Record json_capture : Type := {
  metadata : json_metadata;
  channel_configs : list json_channel_config;
  measurements : gmap string (gmap string Q);
  data : gmap string json_series
}.

(** A failed lookup in [capture_data], or an exception coming out of the
    statistics engine. *)
Inductive error : Type :=
| KeyError (key : nat)
| Raised (e : exn).

Inductive outcome (A : Type) : Type :=
| Saved (a : A)
| Failed (e : error).
Arguments Saved {A} a.
Arguments Failed {A} e.

(** [len(self.capture_data[0]['data']) if self.capture_data else 0] *)
Definition sample_count (captured : gmap nat capture) : outcome nat :=
  if decide (captured = ∅) then Saved 0%nat
  else match captured !! 0%nat with
       | Some cap => Saved (length (cap_data cap))
       | None => Failed (KeyError 0)
       end.

(** The entries for the checked channel groups, in channel order. *)
Definition saved_channel_configs (configs : list channel_config) : list json_channel_config :=
  omap (fun item : nat * channel_config =>
          if group_checked item.2
          then Some {| cfg_channel := item.1;
                       cfg_enabled := true;
                       cfg_type := signal_type item.2;
                       cfg_range := range_text item.2;
                       cfg_threshold := threshold_value item.2 |}
          else None)
       (imap (fun i c => (i, c)) configs).

(** The decimated series of one channel. *)
Definition saved_series (cap : capture) : json_series :=
  let step := decimation_step (length (cap_data cap)) in
  {| series_time := slice_step (cap_time cap) step;
     series_voltage := slice_step (cap_data cap) step |}.

Section WithSqrt.

Variable np_sqrt : Q -> Q.

(** The loop filling [save_data['measurements']]. *)
Definition saved_measurements (captured : gmap nat capture)
    : result (gmap string (gmap string Q)) :=
  for_each (map_to_list captured) ∅
    (fun acc item =>
       stats ← MeasurementEngine.calculate_statistics np_sqrt (cap_data item.2) (18 # 10);
       Ok (<[channel_key item.1 := stats]> acc)).

(** The loop filling [save_data['data']]. *)
Definition saved_data (captured : gmap nat capture) : gmap string json_series :=
  fold_left (fun acc item => <[channel_key item.1 := saved_series item.2]> acc)
            (map_to_list captured) ∅.

(** [save_capture_json(filename)] up to the call of [json.dump]:
    [timestamp] is [datetime.now().isoformat()] and [sample_rate] the
    text of the sample-rate combo. *)
Definition save_capture_json (timestamp sample_rate : string)
    (configs : list channel_config) (captured : gmap nat capture)
    : outcome json_capture :=
  match sample_count captured with
  | Failed e => Failed e
  | Saved samples =>
      match saved_measurements captured with
      | Raise e => Failed (Raised e)
      | Ok stats =>
          Saved {| metadata := {| md_timestamp := timestamp;
                                  md_sample_rate := sample_rate;
                                  md_channels := size captured;
                                  md_samples := samples;
                                  md_software_version := "2.0" |};
                   channel_configs := saved_channel_configs configs;
                   measurements := stats;
                   data := saved_data captured |}
      end
  end.

End WithSqrt.

End Persistence.

(** Inputs for the save routines: a 17-sample clock on one channel. *)
Module SavedSamples.

Definition clock17 : LaptopDebugAnalyzer.capture :=
  {| LaptopDebugAnalyzer.cap_time := np.linspace 0 (1 # 1000) 17;
     LaptopDebugAnalyzer.cap_data := Samples.sclk8;
     LaptopDebugAnalyzer.cap_timestamp := 0 |}.

Definition no_configs : list Persistence.channel_config := [].

End SavedSamples.

(** ** The signal simulator of [HardwareInterface] *)

Module HardwareSimulation.

Import LaptopDebugAnalyzer.

(** What the generators can raise: the exceptions of [exn], the
    [ZeroDivisionError] of [1 / 0] and the [OverflowError] of
    [int(inf)]. *)
Inductive error : Type :=
| ZeroDivisionError
| OverflowError
| Raised (e : exn).

Inductive outcome (A : Type) : Type :=
| Returns (a : A)
| Throws (e : error).
Arguments Returns {A} a.
Arguments Throws {A} e.

Definition obind {A B} (r : outcome A) (k : A -> outcome B) : outcome B :=
  match r with
  | Returns a => k a
  | Throws e => Throws e
  end.

#[global] Instance outcome_bind : MBind outcome := fun A B k r => obind r k.
#[global] Instance outcome_ret : MRet outcome := fun A a => Returns a.

Definition lift {A} (r : result A) : outcome A :=
  match r with
  | Ok a => Returns a
  | Raise e => Throws (Raised e)
  end.

(** [for x in items: s = body(s, x)], stopping at the first exception. *)
Fixpoint for_each_outcome {A S : Type} (items : list A) (s : S)
    (body : S -> A -> outcome S) : outcome S :=
  match items with
  | [] => Returns s
  | x :: rest =>
      match body s x with
      | Returns s' => for_each_outcome rest s' body
      | Throws e => Throws e
      end
  end.

(** The draws of [np.random] and the readings of [time.time()], each
    named by the place that asks for it.  A draw from [[0, 3.3]] is the
    boolean [true] for 3.3. *)
Record environment : Type := {
  (** [np.random.randn(len(data))[k]] for channel [ch] *)
  randn : nat -> nat -> Q;
  (** [np.random.choice([0, 3.3], size=..., p=[0.3, 0.7])[k]] for channel [ch] *)
  choice : nat -> nat -> bool;
  (** [np.random.choice([0, 3.3], 20, p=[0.5, 0.5])[j]] in the frame starting at [i] *)
  choice_i2c : nat -> nat -> bool;
  (** [np.random.choice([0, 3.3])] in the block starting at [i] *)
  choice_spi : nat -> bool;
  (** [np.random.choice([0, 3.3])] for bit [bit] of the byte starting at [byte_start] *)
  choice_uart : nat -> nat -> bool;
  (** [time.time()] when channel [ch] is stored *)
  time_time : nat -> Q
}.

Definition level (b : bool) : Q := if b then 33 # 10 else 0.

(** The attributes of [HardwareInterface] the simulator reads. *)
Record hardware : Type := {
  connected : bool;
  simulation_mode : bool;
  channels_enabled : list bool
}.

(** [HardwareInterface.__init__] *)
Definition init : hardware :=
  {| connected := false; simulation_mode := true; channels_enabled := repeat true 8 |}.

(** [np.ones(n) * 3.3] *)
Definition ones_high (n : nat) : list Q := map (fun x => x * (33 # 10)) (repeat 1 n).

(** [np.mod(x, y)]: the remainder has the sign of [y]. *)
Definition np_mod (x y : Q) : Q := x - inject_Z (Qfloor (x / y)) * y.

(** [np.minimum(a, b)] on two arrays of one shape. *)
Definition np_minimum (a b : list Q) : list Q := zip_with Qminb a b.

(** [int(x)]: truncation towards zero. *)
Definition py_int (x : Q) : Z := if Qltb x 0 then Qceiling x else Qfloor x.

(** A slice bound against a length [n]: negative bounds count from the
    end, and everything is clamped to [0 .. n]. *)
Definition slice_bound (n : nat) (i : Z) : nat :=
  if (i <? 0)%Z then Z.to_nat (Z.max 0 (i + Z.of_nat n))
  else Nat.min (Z.to_nat i) n.

(** [data[a:b] = value] for a scalar [value] *)
Definition set_slice (data : list Q) (a b : Z) (value : Q) : list Q :=
  let lo := slice_bound (length data) a in
  let hi := slice_bound (length data) b in
  imap (fun j x => if (lo <=? j)%nat && (j <? hi)%nat then value else x) data.

(** [data[a:b] = values] for an array [values]: the shapes must agree,
    up to the stretching of a one-element array. *)
Definition set_slice_array (data : list Q) (a b : Z) (values : list Q) : result (list Q) :=
  let lo := slice_bound (length data) a in
  let hi := slice_bound (length data) b in
  if (length values =? hi - lo)%nat then
    Ok (imap (fun j x => if (lo <=? j)%nat && (j <? hi)%nat then nth (j - lo) values 0 else x)
             data)
  else match values with
       | [value] => Ok (set_slice data a b value)
       | _ => Raise (ValueError "could not broadcast input array")
       end.

(** The body of the loop of [generate_i2c_like] for the frame at [i]. *)
Definition i2c_frame (env : environment) (n : Z) (data : list Q) (i : Z)
    : result (list Q) :=
  if (i + 80 <? n)%Z then
    let data := set_slice data i (i + 20) 0 in
    data ← set_slice_array data (i + 20) (i + 40)
             (map (fun j => level (choice_i2c env (Z.to_nat i) j)) (seq 0 20));
    let data := set_slice data (i + 40) (i + 60) 0 in
    Ok (set_slice data (i + 60) (i + 80) (33 # 10))
  else Ok data.

(** [generate_i2c_like(time_data, freq)], [freq] an integer. *)
Definition generate_i2c_like (env : environment) (time_data : list Q) (freq : Z)
    : outcome (list Q) :=
  let data := ones_high (length time_data) in
  if (freq =? 0)%Z then Throws ZeroDivisionError
  else lift (for_each (py_range 0 (len time_data) 100) data
                      (i2c_frame env (len time_data))).

(** The body of the loop of [generate_spi_like] for the block at [i]. *)
Definition spi_block (env : environment) (n : Z) (data : list Q) (i : Z) : list Q :=
  if (i <? n)%Z then set_slice data i (i + 25) (level (choice_spi env (Z.to_nat i)))
  else data.

(** One data bit of a byte of [generate_uart_like]. *)
Definition uart_bit (env : environment) (n samples_per_bit byte_start : Z)
    (data : list Q) (bit : Z) : list Q :=
  let start := (byte_start + (bit + 1) * samples_per_bit)%Z in
  let end_ := (start + samples_per_bit)%Z in
  if (end_ <? n)%Z
  then set_slice data start end_
                 (level (choice_uart env (Z.to_nat byte_start) (Z.to_nat bit)))
  else data.

(** The body of the loop of [generate_uart_like] for the byte at
    [byte_start]: start bit, eight data bits, stop bit. *)
Definition uart_byte (env : environment) (n samples_per_bit : Z)
    (data : list Q) (byte_start : Z) : list Q :=
  let data := if (byte_start <? n)%Z
              then set_slice data byte_start (byte_start + samples_per_bit) 0
              else data in
  let data := fold_left (uart_bit env n samples_per_bit byte_start) (py_range 0 8 1) data in
  let stop_start := (byte_start + 9 * samples_per_bit)%Z in
  let stop_end := (stop_start + samples_per_bit)%Z in
  if (stop_end <? n)%Z then set_slice data stop_start stop_end (33 # 10) else data.

(** [generate_uart_like(time_data, baud_rate)], [baud_rate] an integer.
    A zero sample spacing makes the quotient infinite and [int] raise;
    a negative step leaves [range(0, len(time_data), step)] empty.
    The quotient [bit_time / (time_data[1] - time_data[0])] is taken
    exactly; the float quotient of the code differs from it by a few
    units in the last place, which decides [samples_per_bit] only when
    the exact quotient is within that distance of an integer. *)
Definition generate_uart_like (env : environment) (time_data : list Q) (baud_rate : Z)
    : outcome (list Q) :=
  let data := ones_high (length time_data) in
  if (baud_rate =? 0)%Z then Throws ZeroDivisionError
  else
    let bit_time := 1 / inject_Z baud_rate in
    t1 ← lift (np.getitem time_data 1);
    t0 ← lift (np.getitem time_data 0);
    if Qeq_bool (t1 - t0) 0 then Throws OverflowError
    else
      let samples_per_bit := py_int (bit_time / (t1 - t0)) in
      let step := (samples_per_bit * 10)%Z in
      if (step =? 0)%Z then Throws (Raised (ValueError "range() arg 3 must not be zero"))
      else
        let starts := if (step <? 0)%Z then [] else py_range 0 (len time_data) step in
        Returns (fold_left (uart_byte env (len time_data) samples_per_bit) starts data).

Section WithSine.

(** The sine and pi are taken as given: [np_sin x] stands for the value
    numpy returns for [np.sin] at [x], so that the sign tests below are
    the tests of the code whatever that value is. *)
Variable np_sin : Q -> Q.
Variable np_pi : Q.

(** [(np.sin(2 * np.pi * freq * time_data) > 0).astype(float) * 3.3],
    [freq] an integer. *)
Definition square_wave (freq : Z) (time_data : list Q) : list Q :=
  map (fun t => if Qgtb (np_sin (2 * np_pi * inject_Z freq * t)) 0 then 33 # 10 else 0)
      time_data.

(** [generate_spi_like(time_data, freq)] *)
Definition generate_spi_like (env : environment) (time_data : list Q) (freq : Z)
    : list Q :=
  let data := ones_high (length time_data) in
  let clock := square_wave freq time_data in
  let data := fold_left (spi_block env (len time_data))
                        (py_range 0 (len time_data) 50) data in
  np_minimum data clock.

(** The signal of channel [ch] in [generate_simulated_samples], before
    the noise. *)
Definition channel_signal (env : environment) (time_data : list Q) (ch : nat)
    : outcome (list Q) :=
  let freq := (1000 * (Z.of_nat ch + 1))%Z in
  match ch with
  | 0%nat => Returns (square_wave freq time_data)
  | 1%nat =>
      let duty := map (fun t => (3 # 10) + (2 # 10) * np_sin (t * 200)) time_data in
      Returns (zip_with
                 (fun t d => if Qltb (np_mod t (1 / inject_Z freq)) (d / inject_Z freq)
                             then 33 # 10 else 0)
                 time_data duty)
  | 2%nat => Returns (map (fun t => (18 # 10) + (5 # 10) * np_sin (2 * np_pi * 500 * t))
                          time_data)
  | 3%nat => generate_i2c_like env time_data freq
  | 4%nat => Returns (generate_spi_like env time_data freq)
  | 5%nat => generate_uart_like env time_data 9600
  | _ => Returns (map (fun k => level (choice env ch k)) (seq 0 (length time_data)))
  end.

(** [np.clip(data + np.random.randn(len(data)) * 0.05, 0, 3.6)] *)
Definition add_noise (env : environment) (ch : nat) (data : list Q) : list Q :=
  let noise := map (fun k => randn env ch k * (5 # 100)) (seq 0 (length data)) in
  zip_with (fun d e => np.clip (d + e) 0 (36 # 10)) data noise.

(** The body of the loop of [generate_simulated_samples];
    [channel_data] is the dictionary built so far, in insertion order. *)
Definition simulate_channel (env : environment) (hw : hardware) (time_data : list Q)
    (channel_data : list (nat * capture)) (ch : Z) : outcome (list (nat * capture)) :=
  enabled ← lift (np.getitem (channels_enabled hw) ch);
  if enabled : bool then
    data ← channel_signal env time_data (Z.to_nat ch);
    Returns (channel_data ++
             [(Z.to_nat ch,
               {| cap_time := time_data;
                  cap_data := add_noise env (Z.to_nat ch) data;
                  cap_timestamp := time_time env (Z.to_nat ch) |})])
  else Returns channel_data.

(** [generate_simulated_samples(num_samples)] *)
Definition generate_simulated_samples (env : environment) (hw : hardware)
    (num_samples : nat) : outcome (list (nat * capture)) :=
  let time_data := np.linspace 0 (1 # 1000) num_samples in
  for_each_outcome (py_range 0 8 1) [] (simulate_channel env hw time_data).

(** [read_samples(num_samples)]: both paths end in the simulator. *)
Definition read_samples (env : environment) (hw : hardware) (num_samples : nat)
    : outcome (list (nat * capture)) :=
  if negb (connected hw) || simulation_mode hw
  then generate_simulated_samples env hw num_samples
  else generate_simulated_samples env hw num_samples.

End WithSine.

(** Stand-ins for the sine and for pi, and an environment without
    noise in which every draw is high.  [arc_sine] has period 6 and the
    sign pattern of a sine: a parabola arc above zero on the first half
    of each period, its mirror image on the second. *)
Definition flat_sine (x : Q) : Q := 0.
Definition three : Q := 3.
Definition arc_sine (x : Q) : Q :=
  let p := x / 6 - inject_Z (Qfloor (x / 6)) in
  if Qltb p (1 # 2) then 16 * p * ((1 # 2) - p)
  else - (16 * (p - (1 # 2)) * (1 - p)).
Definition quiet : environment :=
  {| randn := fun _ _ => 0;
     choice := fun _ _ => true;
     choice_i2c := fun _ _ => true;
     choice_spi := fun _ => true;
     choice_uart := fun _ _ => true;
     time_time := fun _ => 0 |}.

End HardwareSimulation.

(** ** The analyzer together with its hardware *)

Module Session.

Import LaptopDebugAnalyzer HardwareSimulation.

Section WithRoutines.

Variable np_hanning_at : nat -> nat -> Q.
Variable np_fft_bin : list Q -> nat -> Q * Q.
Variable np_abs : Q * Q -> Q.
Variable np_log10 : Q -> Q.
Variable np_sin : Q -> Q.
Variable np_pi : Q.

(** [update_capture()] with the read it starts with,
    [self.hardware.read_samples(1000)]: the read sits inside the [try],
    so when it raises the error is logged and the analyzer is left as
    it was. *)
Definition update_capture (env : environment) (hw : hardware) (ui : ui_inputs)
    (st : analyzer) : analyzer :=
  if negb (is_capturing st) then st
  else match read_samples np_sin np_pi env hw 1000 with
       | Returns channel_data =>
           LaptopDebugAnalyzer.update_capture np_hanning_at np_fft_bin np_abs np_log10
             ui channel_data st
       | Throws _ => st
       end.

End WithRoutines.

End Session.

(** * Verification *)

(** ** Loops in the error monad *)

Lemma for_each_app {A S : Type} (l1 l2 : list A) (s : S) (body : S -> A -> result S) :
  for_each (l1 ++ l2) s body =
  match for_each l1 s body with
  | Ok s' => for_each l2 s' body
  | Raise e => Raise e
  end.
Proof.
  revert s. induction l1 as [|x l1 IH]; intros s; simpl; [reflexivity|].
  destruct (body s x); [apply IH | reflexivity].
Qed.

(** A loop whose body, when it returns, returns [g s x], returns the
    left fold of [g] when it returns. *)
Lemma for_each_returns {A S : Type} (P : A -> Prop) (g : S -> A -> S)
    (body : S -> A -> result S) (items : list A) :
  (forall s x s', P x -> body s x = Ok s' -> s' = g s x) ->
  Forall P items ->
  forall s s', for_each items s body = Ok s' -> s' = fold_left g items s.
Proof.
  intros Hbody HP. induction HP as [|x items Hx _ IH]; intros s s' H; simpl in *.
  - congruence.
  - destruct (body s x) as [s1|] eqn:E; [|discriminate].
    apply (Hbody _ _ _ Hx) in E. subst s1. apply IH, H.
Qed.

(** A loop whose body succeeds with [g s x] on every item succeeds with
    the left fold of [g]. *)
(** When a loop returns, its body returned on every item. *)
Lemma for_each_body_ok {A S : Type} (body : S -> A -> result S) (items : list A) :
  forall s s', for_each items s body = Ok s' ->
  Forall (fun x => exists s1 s2, body s1 x = Ok s2) items.
Proof.
  induction items as [|x items IH]; intros s s' H; simpl in H.
  - constructor.
  - destruct (body s x) as [s1|] eqn:E; [|discriminate].
    constructor; [exists s, s1; exact E | eapply IH, H].
Qed.

Lemma for_each_succeeds {A S : Type} (P : A -> Prop) (g : S -> A -> S)
    (body : S -> A -> result S) (items : list A) :
  (forall s x, P x -> body s x = Ok (g s x)) ->
  Forall P items ->
  forall s, for_each items s body = Ok (fold_left g items s).
Proof.
  intros Hbody HP. induction HP as [|x items Hx _ IH]; intros s; simpl.
  - reflexivity.
  - rewrite (Hbody _ _ Hx). apply IH.
Qed.

(** ** Array primitives *)

Lemma length_diff (arr : list Z) : length (np.diff arr) = (length arr - 1)%nat.
Proof.
  induction arr as [|x [|y rest] IH]; simpl in *; try reflexivity.
  rewrite IH. lia.
Qed.

Lemma where_from_bounds (mask : list bool) (base x : Z) :
  In x (np.where_from base mask) ->
  (base <= x < base + Z.of_nat (length mask))%Z.
Proof.
  revert base. induction mask as [|b mask IH]; intros base H; simpl in H.
  - contradiction.
  - destruct b; simpl in H.
    + destruct H as [<-|H]; [simpl; lia|]. apply IH in H. simpl length. lia.
    + apply IH in H. simpl length. lia.
Qed.

Lemma getitem_nonneg {A} (arr : list A) (idx : Z) :
  (0 <= idx)%Z ->
  np.getitem arr idx =
  match nth_error arr (Z.to_nat idx) with
  | Some x => Ok x
  | None => Raise IndexError
  end.
Proof.
  intros H. unfold np.getitem.
  destruct (idx <? 0)%Z eqn:E; [apply Z.ltb_lt in E; lia|].
  rewrite E. reflexivity.
Qed.

Lemma getitem_in_range {A} (arr : list A) (idx : Z) (d : A) :
  (0 <= idx < len arr)%Z ->
  np.getitem arr idx = Ok (nth (Z.to_nat idx) arr d).
Proof.
  intros [H0 H1]. rewrite getitem_nonneg by assumption.
  unfold len in H1.
  destruct (nth_error arr (Z.to_nat idx)) as [x|] eqn:E.
  - f_equal. symmetry. apply nth_error_nth, E.
  - apply nth_error_None in E. lia.
Qed.

Lemma getitem_returns {A} (arr : list A) (idx : Z) (d x : A) :
  (0 <= idx)%Z ->
  np.getitem arr idx = Ok x ->
  x = nth (Z.to_nat idx) arr d /\ (idx < len arr)%Z.
Proof.
  intros H0 H. rewrite getitem_nonneg in H by assumption.
  destruct (nth_error arr (Z.to_nat idx)) as [y|] eqn:E; [|discriminate].
  injection H as ->. split.
  - symmetry. apply nth_error_nth, E.
  - assert (Z.to_nat idx < length arr)%nat by (apply nth_error_Some; congruence).
    unfold len. lia.
Qed.

(** The edge array built by the decoders has one entry per rising edge
    of the thresholded signal. *)
Lemma rising_edges_length (digital : list bool) (base : Z) :
  length (np.where_from base (np.eq (np.diff (np.astype_int digital)) 1%Z)) =
  rising_edge_count digital.
Proof.
  revert base. induction digital as [|a [|b rest] IH]; intros base; try reflexivity.
  change (np.diff (np.astype_int (a :: b :: rest)))
    with (((if b then 1 else 0) - (if a then 1 else 0))%Z
            :: np.diff (np.astype_int (b :: rest))).
  change (rising_edge_count (a :: b :: rest))
    with ((if negb a && b then 1 else 0) + rising_edge_count (b :: rest))%nat.
  rewrite <- (IH (base + 1)%Z).
  destruct a, b; reflexivity.
Qed.

Lemma rising_edges_nonneg (sclk : list Q) (threshold : Q) :
  Forall (fun e => (0 <= e < len sclk)%Z) (ProtocolDecoder.sclk_rising_edges sclk threshold).
Proof.
  apply List.Forall_forall. intros e He.
  unfold ProtocolDecoder.sclk_rising_edges, np.where_ in He.
  apply where_from_bounds in He.
  unfold np.eq, np.astype_int, np.gt in He.
  rewrite length_map, length_diff, !length_map in He.
  unfold len. lia.
Qed.

(** ** SPI decoding *)

Section SpiDecoding.

Import ProtocolDecoder.

Variables (mosi miso : list Q) (threshold : Q) (edges : list Z).

Lemma py_range_8 : py_range 0 8 1 = [0; 1; 2; 3; 4; 5; 6; 7]%Z.
Proof. reflexivity. Qed.

Lemma py_str_bit (b : Z) : b = 0%Z \/ b = 1%Z ->
  exists c, py_str b = String c EmptyString /\
            (if Ascii.eqb c "0" then 0%Z
             else if Ascii.eqb c "1" then 1%Z else 2%Z) = b.
Proof.
  intros [->| ->]; [exists "0"%char | exists "1"%char]; split; reflexivity.
Qed.

Lemma int_base2_from_bits (bits : list Z) (acc : Z) :
  Forall (fun b => b = 0%Z \/ b = 1%Z) bits ->
  int_base2_from acc (py_join (map py_str bits)) =
  Ok (fold_left (fun a b => (2 * a + b)%Z) bits acc).
Proof.
  intros H. revert acc. induction H as [|b bits Hb _ IH]; intros acc; [reflexivity|].
  simpl map. simpl py_join. simpl fold_left.
  destruct Hb as [->| ->].
  - change (py_str 0) with "0"%string. simpl. rewrite IH. do 2 f_equal. lia.
  - change (py_str 1) with "1"%string. simpl. apply IH.
Qed.

Lemma bits_to_byte_value (bits : list Z) :
  bits <> [] ->
  Forall (fun b => b = 0%Z \/ b = 1%Z) bits ->
  bits_to_byte bits = Ok (msb_first_value bits).
Proof.
  intros Hne H. unfold bits_to_byte, msb_first_value.
  rewrite <- (int_base2_from_bits bits 0 H).
  destruct bits as [|b bits]; [congruence|].
  inversion H as [|? ? Hb _]; subst.
  simpl map. simpl py_join.
  destruct Hb as [->| ->]; reflexivity.
Qed.

Lemma threshold_bit_binary (chan : list Q) (idx : Z) :
  threshold_bit chan threshold idx = 0%Z \/ threshold_bit chan threshold idx = 1%Z.
Proof. unfold threshold_bit. destruct (Qgtb _ _); auto. Qed.

Lemma group_bits_binary (chan : list Q) (i : Z) :
  Forall (fun b => b = 0%Z \/ b = 1%Z) (group_bits chan threshold edges i).
Proof.
  unfold group_bits. apply List.Forall_forall. intros b Hb.
  apply in_map_iff in Hb as (j & <- & _). apply threshold_bit_binary.
Qed.

Lemma group_bits_byte (chan : list Q) (i : Z) :
  bits_to_byte (group_bits chan threshold edges i) =
  Ok (msb_first_value (group_bits chan threshold edges i)).
Proof.
  apply bits_to_byte_value; [discriminate | apply group_bits_binary].
Qed.

Lemma sample_bit_nonneg (chan : list Q) (idx : Z) :
  (0 <= idx)%Z ->
  sample_bit chan idx threshold =
  match nth_error chan (Z.to_nat idx) with
  | Some _ => Ok (threshold_bit chan threshold idx)
  | None => Raise IndexError
  end.
Proof.
  intros H. unfold sample_bit. rewrite getitem_nonneg by assumption.
  unfold threshold_bit.
  destruct (nth_error chan (Z.to_nat idx)) as [v|] eqn:E; [|reflexivity].
  rewrite (nth_error_nth _ _ 0 E). reflexivity.
Qed.

Hypothesis edges_nonneg : Forall (fun e => (0 <= e)%Z) edges.

Lemma edge_at_nonneg (k : Z) : (0 <= edge_at edges k)%Z.
Proof.
  unfold edge_at.
  destruct (nth_in_or_default (Z.to_nat k) edges 0%Z) as [H| ->]; [|lia].
  rewrite List.Forall_forall in edges_nonneg. apply edges_nonneg, H.
Qed.

Lemma spi_read_bit_returns (i : Z) (bits bits' : list Z * list Z) (j : Z) :
  (0 <= i + j)%Z ->
  spi_read_bit mosi miso edges i threshold bits j = Ok bits' ->
  bits' = group_bit_step mosi miso threshold edges i bits j.
Proof.
  intros Hij H. unfold spi_read_bit in H.
  rewrite getitem_nonneg in H by assumption.
  destruct (nth_error edges (Z.to_nat (i + j))) as [e|] eqn:E; [|discriminate].
  assert (He : e = edge_at edges (i + j)).
  { unfold edge_at. symmetry. apply nth_error_nth, E. }
  subst e. cbn in H.
  rewrite !sample_bit_nonneg in H by apply edge_at_nonneg.
  destruct (nth_error mosi _); [|discriminate]. cbn in H.
  destruct (nth_error miso _); [|discriminate]. cbn in H.
  injection H as <-. reflexivity.
Qed.

Lemma read_bits_returns (i : Z) (bits : list Z * list Z) :
  (0 <= i)%Z ->
  for_each (py_range 0 8 1) ([], []) (spi_read_bit mosi miso edges i threshold) = Ok bits ->
  bits = (group_bits mosi threshold edges i, group_bits miso threshold edges i).
Proof.
  intros Hi H.
  apply (for_each_returns (fun j => (0 <= j)%Z)
           (group_bit_step mosi miso threshold edges i)) in H.
  - rewrite H. reflexivity.
  - intros s x s' Hx. apply spi_read_bit_returns. lia.
  - rewrite py_range_8. repeat constructor; lia.
Qed.

Lemma spi_step_returns (transactions transactions' : list spi_transaction) (i : Z) :
  (0 <= i)%Z ->
  spi_step mosi miso edges threshold transactions i = Ok transactions' ->
  transactions' = spi_step_value mosi miso threshold edges transactions i.
Proof.
  intros Hi H. unfold spi_step in H. unfold spi_step_value.
  destruct (i + 8 <=? len edges)%Z; [|congruence].
  destruct (for_each _ _ _) as [bits|] eqn:E; [|discriminate].
  apply read_bits_returns in E; [|assumption]. subst bits.
  cbn -[bits_to_byte group_bits] in H.
  rewrite !group_bits_byte in H. cbn -[group_bits] in H.
  injection H as <-. reflexivity.
Qed.

Lemma sample_bit_returns (chan : list Q) (idx b : Z) :
  (0 <= idx)%Z ->
  sample_bit chan idx threshold = Ok b ->
  (idx < len chan)%Z /\ b = threshold_bit chan threshold idx.
Proof.
  intros H0 H. rewrite sample_bit_nonneg in H by assumption.
  destruct (nth_error chan (Z.to_nat idx)) eqn:E; [|discriminate].
  injection H as <-. split; [|reflexivity].
  assert (Z.to_nat idx < length chan)%nat by (apply nth_error_Some; congruence).
  unfold len. lia.
Qed.

Lemma sample_bit_in_range (chan : list Q) (idx : Z) :
  (0 <= idx < len chan)%Z ->
  sample_bit chan idx threshold = Ok (threshold_bit chan threshold idx).
Proof.
  intros [H0 H1]. rewrite sample_bit_nonneg by assumption.
  destruct (nth_error chan (Z.to_nat idx)) eqn:E; [reflexivity|].
  apply nth_error_None in E. unfold len in H1. lia.
Qed.

(** A bit read that returns found its edge inside both data lines. *)
Lemma spi_read_bit_in_range (i : Z) (bits bits' : list Z * list Z) (j : Z) :
  (0 <= i + j)%Z ->
  spi_read_bit mosi miso edges i threshold bits j = Ok bits' ->
  (edge_at edges (i + j) < len mosi)%Z /\ (edge_at edges (i + j) < len miso)%Z.
Proof.
  intros Hij H. unfold spi_read_bit in H.
  rewrite getitem_nonneg in H by assumption.
  destruct (nth_error edges (Z.to_nat (i + j))) as [e|] eqn:E; [|discriminate].
  assert (He : e = edge_at edges (i + j)).
  { unfold edge_at. symmetry. apply nth_error_nth, E. }
  subst e. cbn in H.
  rewrite !sample_bit_nonneg in H by apply edge_at_nonneg.
  destruct (nth_error mosi _) eqn:Em; [|discriminate]. cbn in H.
  destruct (nth_error miso _) eqn:Es; [|discriminate].
  split.
  - assert (Z.to_nat (edge_at edges (i + j)) < length mosi)%nat
      by (apply nth_error_Some; congruence).
    pose proof (edge_at_nonneg (i + j)). unfold len. lia.
  - assert (Z.to_nat (edge_at edges (i + j)) < length miso)%nat
      by (apply nth_error_Some; congruence).
    pose proof (edge_at_nonneg (i + j)). unfold len. lia.
Qed.

Lemma spi_step_in_range (transactions transactions' : list spi_transaction) (i : Z) :
  (0 <= i)%Z -> (i + 8 <= len edges)%Z ->
  spi_step mosi miso edges threshold transactions i = Ok transactions' ->
  Forall (fun j => (edge_at edges (i + j) < len mosi)%Z /\
                   (edge_at edges (i + j) < len miso)%Z)
         [0; 1; 2; 3; 4; 5; 6; 7]%Z.
Proof.
  intros Hi Hn H. unfold spi_step in H.
  destruct (i + 8 <=? len edges)%Z eqn:G; [|apply Z.leb_gt in G; lia].
  destruct (for_each _ _ _) as [bits|] eqn:E; [|discriminate].
  apply for_each_body_ok in E. rewrite py_range_8 in E.
  rewrite List.Forall_forall in E. apply List.Forall_forall. intros j Hj.
  destruct (E j Hj) as (s1 & s2 & Hbody).
  apply spi_read_bit_in_range in Hbody; [assumption|].
  simpl in Hj. lia.
Qed.

(** The group loop, evaluated without exceptions, yields one
    transaction per complete group. *)
Lemma spi_fold_complete (ks : list nat) (transactions : list spi_transaction) :
  Forall (fun k : nat => (8 * Z.of_nat k + 8 <= len edges)%Z) ks ->
  fold_left (spi_step_value mosi miso threshold edges)
            (map (fun k : nat => (0 + Z.of_nat k * 8)%Z) ks) transactions =
  transactions ++
  map (fun k : nat => group_transaction mosi miso threshold edges (8 * Z.of_nat k)) ks.
Proof.
  intros H. revert transactions.
  induction H as [|k ks Hk _ IH]; intros transactions; cbn [map fold_left].
  - rewrite app_nil_r. reflexivity.
  - rewrite IH. unfold spi_step_value.
    replace (0 + Z.of_nat k * 8)%Z with (8 * Z.of_nat k)%Z by lia.
    destruct (8 * Z.of_nat k + 8 <=? len edges)%Z eqn:G; [|apply Z.leb_gt in G; lia].
    rewrite <- app_assoc. reflexivity.
Qed.

Lemma spi_fold_incomplete (ks : list nat) (transactions : list spi_transaction) :
  Forall (fun k : nat => (len edges < 8 * Z.of_nat k + 8)%Z) ks ->
  fold_left (spi_step_value mosi miso threshold edges)
            (map (fun k : nat => (0 + Z.of_nat k * 8)%Z) ks) transactions =
  transactions.
Proof.
  intros H. revert transactions.
  induction H as [|k ks Hk _ IH]; intros transactions; cbn [map fold_left];
    [reflexivity|].
  rewrite IH. unfold spi_step_value.
  destruct (0 + Z.of_nat k * 8 + 8 <=? len edges)%Z eqn:G; [apply Z.leb_le in G; lia|].
  reflexivity.
Qed.

Lemma spi_fold_value :
  fold_left (spi_step_value mosi miso threshold edges)
            (py_range 0 (len edges) 8) [] =
  expected_transactions mosi miso threshold edges.
Proof.
  unfold py_range, expected_transactions.
  assert (Hn : (0 <= len edges)%Z) by (unfold len; lia).
  set (n := len edges) in *.
  set (c := Z.to_nat ((n - 0 + 8 - 1) / 8)).
  set (q := Z.to_nat (n / 8)).
  assert (Hq : (8 * (n / 8) <= n < 8 * (n / 8) + 8)%Z).
  { pose proof (Z.div_mod n 8 ltac:(lia)). pose proof (Z.mod_pos_bound n 8 ltac:(lia)). lia. }
  assert (Hc : (q <= c)%nat).
  { unfold q, c. apply Z2Nat.inj_le; try (apply Z.div_pos; lia).
    apply Z.div_le_mono; lia. }
  replace c with (q + (c - q))%nat by lia.
  rewrite seq_app, map_app, fold_left_app.
  rewrite (spi_fold_complete (seq 0 q)).
  - rewrite spi_fold_incomplete; [reflexivity|].
    apply List.Forall_forall. intros k Hk. apply in_seq in Hk.
    assert (0 <= n / 8)%Z by (apply Z.div_pos; lia).
    unfold q in Hk. lia.
  - apply List.Forall_forall. intros k Hk. apply in_seq in Hk.
    assert (0 <= n / 8)%Z by (apply Z.div_pos; lia).
    unfold q in Hk. lia.
Qed.

Lemma py_range_nonneg (stop step : Z) :
  (0 < step)%Z -> Forall (fun i => (0 <= i)%Z) (py_range 0 stop step).
Proof.
  intros H. unfold py_range. apply List.Forall_forall. intros i Hi.
  apply in_map_iff in Hi as (k & <- & _). nia.
Qed.

End SpiDecoding.

Section SpiSuccess.

Import ProtocolDecoder.

Variables (mosi miso : list Q) (threshold : Q) (edges : list Z).

Hypothesis edges_in_range :
  Forall (fun e => (0 <= e < len mosi)%Z /\ (e < len miso)%Z) edges.

Lemma edge_at_in_range (k : Z) :
  (0 <= k < len edges)%Z ->
  (0 <= edge_at edges k < len mosi)%Z /\ (edge_at edges k < len miso)%Z.
Proof.
  intros Hk. rewrite List.Forall_forall in edges_in_range.
  apply edges_in_range. unfold edge_at. apply nth_In. unfold len in Hk. lia.
Qed.

Lemma spi_read_bit_succeeds (i : Z) (bits : list Z * list Z) (j : Z) :
  (0 <= i + j < len edges)%Z ->
  spi_read_bit mosi miso edges i threshold bits j =
  Ok (group_bit_step mosi miso threshold edges i bits j).
Proof.
  intros Hij. unfold spi_read_bit.
  rewrite (getitem_in_range edges (i + j) 0%Z Hij).
  fold (edge_at edges (i + j)).
  destruct (edge_at_in_range (i + j) Hij) as [Hm Hs].
  cbn -[sample_bit].
  rewrite (sample_bit_in_range threshold mosi) by lia. cbn -[sample_bit].
  rewrite (sample_bit_in_range threshold miso) by lia. reflexivity.
Qed.

Lemma spi_step_succeeds (transactions : list spi_transaction) (i : Z) :
  (0 <= i)%Z ->
  spi_step mosi miso edges threshold transactions i =
  Ok (spi_step_value mosi miso threshold edges transactions i).
Proof.
  intros Hi. unfold spi_step, spi_step_value.
  destruct (i + 8 <=? len edges)%Z eqn:G; [|reflexivity].
  apply Z.leb_le in G.
  rewrite (for_each_succeeds (fun j => (0 <= j < 8)%Z)
             (group_bit_step mosi miso threshold edges i)).
  - rewrite py_range_8.
    change (fold_left _ _ _)
      with (group_bits mosi threshold edges i, group_bits miso threshold edges i).
    cbn -[bits_to_byte group_bits].
    rewrite !group_bits_byte. reflexivity.
  - intros s x Hx. apply spi_read_bit_succeeds. lia.
  - rewrite py_range_8. repeat constructor; lia.
Qed.

End SpiSuccess.

(** Whatever [decode_spi] returns is the list of group transactions. *)
Lemma decode_spi_returns (mosi miso sclk cs : list Q) (threshold : Q)
    (transactions : list ProtocolDecoder.spi_transaction) :
  ProtocolDecoder.decode_spi mosi miso sclk cs threshold = Ok transactions ->
  transactions =
  expected_transactions mosi miso threshold
    (ProtocolDecoder.sclk_rising_edges sclk threshold).
Proof.
  intros H. unfold ProtocolDecoder.decode_spi in H.
  set (edges := ProtocolDecoder.sclk_rising_edges sclk threshold) in *.
  assert (Hnn : Forall (fun e => (0 <= e)%Z) edges).
  { eapply Forall_impl; [apply rising_edges_nonneg|]. simpl. intros; lia. }
  apply (for_each_returns (fun i => (0 <= i)%Z)
           (spi_step_value mosi miso threshold edges)) in H.
  - rewrite H. apply spi_fold_value.
  - intros s x s' Hx. apply spi_step_returns; assumption.
  - apply py_range_nonneg. lia.
Qed.

(** On time-aligned buffers [decode_spi] returns. *)
Lemma decode_spi_succeeds (mosi miso sclk cs : list Q) (threshold : Q) :
  (length sclk <= length mosi)%nat ->
  (length sclk <= length miso)%nat ->
  ProtocolDecoder.decode_spi mosi miso sclk cs threshold =
  Ok (expected_transactions mosi miso threshold
        (ProtocolDecoder.sclk_rising_edges sclk threshold)).
Proof.
  intros Hm Hs. unfold ProtocolDecoder.decode_spi.
  set (edges := ProtocolDecoder.sclk_rising_edges sclk threshold).
  assert (Hr : Forall (fun e => (0 <= e < len mosi)%Z /\ (e < len miso)%Z) edges).
  { eapply Forall_impl; [apply rising_edges_nonneg|]. simpl. unfold len. intros; lia. }
  rewrite (for_each_succeeds (fun i => (0 <= i)%Z)
             (spi_step_value mosi miso threshold edges)).
  - f_equal. apply spi_fold_value.
  - intros s x Hx. apply spi_step_succeeds; assumption.
  - apply py_range_nonneg. lia.
Qed.

Lemma expected_transactions_length (mosi miso sclk : list Q) (threshold : Q) :
  length (expected_transactions mosi miso threshold
            (ProtocolDecoder.sclk_rising_edges sclk threshold)) =
  (rising_edge_count (np.gt sclk threshold) / 8)%nat.
Proof.
  unfold expected_transactions. rewrite length_map, length_seq.
  unfold len, ProtocolDecoder.sclk_rising_edges, np.where_.
  rewrite rising_edges_length.
  change 8%Z with (Z.of_nat 8). rewrite <- Nat2Z.inj_div. apply Nat2Z.id.
Qed.

Lemma expected_transactions_lookup (mosi miso : list Q) (threshold : Q)
    (edges : list Z) (k : nat) (tx : ProtocolDecoder.spi_transaction) :
  expected_transactions mosi miso threshold edges !! k = Some tx ->
  tx = group_transaction mosi miso threshold edges (8 * Z.of_nat k) /\
  (8 * Z.of_nat k + 8 <= len edges)%Z.
Proof.
  unfold expected_transactions. intros H.
  rewrite list_lookup_fmap in H.
  destruct (seq 0 (Z.to_nat (len edges / 8)) !! k) as [k'|] eqn:E; [|discriminate].
  apply lookup_seq in E as [-> Hk]. simpl in H. injection H as <-.
  split; [reflexivity|].
  assert (Hn : (0 <= len edges)%Z) by (unfold len; lia).
  pose proof (Z.div_mod (len edges) 8 ltac:(lia)).
  pose proof (Z.mod_pos_bound (len edges) 8 ltac:(lia)).
  assert (0 <= len edges / 8)%Z by (apply Z.div_pos; lia).
  lia.
Qed.

(** C5 (as the code behaves): when the MOSI and MISO buffers are at
    least as long as the SCLK buffer and the thresholded SCLK has [N]
    rising edges, [decode_spi] returns exactly [N / 8] transactions
    (floor division); every transaction belongs to a complete group of
    eight edges, so a trailing group of fewer than eight yields nothing.
    Nothing in [decode_spi] checks the lengths: a data line that ends
    before a sampled edge makes the call raise instead. *)
Theorem decode_spi_floor_count (mosi miso sclk cs : list Q) (threshold : Q) :
  (length sclk <= length mosi)%nat ->
  (length sclk <= length miso)%nat ->
  exists transactions,
    ProtocolDecoder.decode_spi mosi miso sclk cs threshold = Ok transactions /\
    length transactions = (rising_edge_count (np.gt sclk threshold) / 8)%nat /\
    Forall (fun tx =>
              (ProtocolDecoder.spi_position tx + 8
               <= Z.of_nat (rising_edge_count (np.gt sclk threshold)))%Z)
           transactions.
Proof.
  intros Hm Hs. eexists. split; [apply decode_spi_succeeds; assumption|].
  split; [apply expected_transactions_length|].
  apply Forall_lookup. intros k tx Hk.
  apply expected_transactions_lookup in Hk as [-> Hk]. simpl.
  unfold len, ProtocolDecoder.sclk_rising_edges, np.where_ in Hk.
  rewrite rising_edges_length in Hk. exact Hk.
Qed.

Lemma decode_spi_floor_count_witness :
  (length Samples.sclk17 <= length Samples.sclk17)%nat /\
  exists transactions,
    ProtocolDecoder.decode_spi Samples.sclk17 Samples.sclk17 Samples.sclk17 []
      Samples.threshold = Ok transactions /\
    length transactions =
      (rising_edge_count (np.gt Samples.sclk17 Samples.threshold) / 8)%nat /\
    Forall (fun tx =>
              (ProtocolDecoder.spi_position tx + 8
               <= Z.of_nat (rising_edge_count (np.gt Samples.sclk17 Samples.threshold)))%Z)
           transactions.
Proof.
  split; [simpl; lia|].
  apply (decode_spi_floor_count Samples.sclk17 Samples.sclk17 Samples.sclk17 []
           Samples.threshold); simpl; lia.
Defined.

(** C5 as stated fails when a data line is shorter than the clock: with
    eight rising edges on SCLK and an empty MOSI buffer, [decode_spi]
    does not return the one transaction of [8 / 8]; it returns no list
    at all, the first read of MOSI raising [IndexError]. *)
Lemma decode_spi_floor_count_counterexample :
  rising_edge_count (np.gt Samples.sclk8 Samples.threshold) = 8%nat /\
  ~ exists transactions,
      ProtocolDecoder.decode_spi [] Samples.miso8 Samples.sclk8 [] Samples.threshold
      = Ok transactions /\
      length transactions =
        (rising_edge_count (np.gt Samples.sclk8 Samples.threshold) / 8)%nat.
Proof.
  split; [reflexivity|].
  intros (transactions & H & _). vm_compute in H. discriminate.
Qed.

Lemma msb_first_value_8 (b0 b1 b2 b3 b4 b5 b6 b7 : Z) :
  msb_first_value [b0; b1; b2; b3; b4; b5; b6; b7] =
  (128 * b0 + 64 * b1 + 32 * b2 + 16 * b3 + 8 * b4 + 4 * b5 + 2 * b6 + b7)%Z.
Proof. unfold msb_first_value. cbn [fold_left]. lia. Qed.

Lemma in_py_range_multiple (n : Z) (k : nat) :
  (8 * Z.of_nat k + 8 <= n)%Z -> In (8 * Z.of_nat k)%Z (py_range 0 n 8).
Proof.
  intros H. unfold py_range. apply in_map_iff. exists k. split; [lia|].
  apply in_seq. split; [lia|]. simpl.
  assert (Z.of_nat k + 1 <= (n - 0 + 8 - 1) / 8)%Z; [|lia].
  apply Z.div_le_lower_bound; lia.
Qed.

(** C10: every transaction returned by [decode_spi] carries two bytes in
    0..255; the [k]-th one is assembled most significant bit first from
    the threshold bits of MOSI and MISO sampled at the rising edges
    number [8k] to [8k+7]. *)
Theorem decode_spi_bytes_msb_first (mosi miso sclk cs : list Q) (threshold : Q)
    (transactions : list ProtocolDecoder.spi_transaction) (k : nat)
    (tx : ProtocolDecoder.spi_transaction) :
  ProtocolDecoder.decode_spi mosi miso sclk cs threshold = Ok transactions ->
  transactions !! k = Some tx ->
  let edges := ProtocolDecoder.sclk_rising_edges sclk threshold in
  let edge := fun j : Z => edge_at edges (8 * Z.of_nat k + j) in
  let m := fun j : Z => threshold_bit mosi threshold (edge j) in
  let s := fun j : Z => threshold_bit miso threshold (edge j) in
  (8 * Z.of_nat k + 8 <= len edges)%Z /\
  Forall (fun j =>
            ProtocolDecoder.sample_bit mosi (edge j) threshold = Ok (m j) /\
            ProtocolDecoder.sample_bit miso (edge j) threshold = Ok (s j))
         [0; 1; 2; 3; 4; 5; 6; 7]%Z /\
  ProtocolDecoder.spi_mosi tx =
    (128 * m 0 + 64 * m 1 + 32 * m 2 + 16 * m 3 + 8 * m 4 + 4 * m 5 + 2 * m 6 + m 7)%Z /\
  ProtocolDecoder.spi_miso tx =
    (128 * s 0 + 64 * s 1 + 32 * s 2 + 16 * s 3 + 8 * s 4 + 4 * s 5 + 2 * s 6 + s 7)%Z /\
  (0 <= ProtocolDecoder.spi_mosi tx <= 255)%Z /\
  (0 <= ProtocolDecoder.spi_miso tx <= 255)%Z.
Proof.
  intros Hdec Hk edges edge m s.
  pose proof (decode_spi_returns _ _ _ _ _ _ Hdec) as Hval.
  assert (Hnn : Forall (fun e => (0 <= e)%Z) edges).
  { eapply Forall_impl; [apply rising_edges_nonneg|]. simpl. intros; lia. }
  rewrite Hval in Hk. apply expected_transactions_lookup in Hk as [-> Hlen].
  fold edges in Hlen |- *.
  assert (Hm : ProtocolDecoder.spi_mosi
                 (group_transaction mosi miso threshold edges (8 * Z.of_nat k)) =
               (128 * m 0 + 64 * m 1 + 32 * m 2 + 16 * m 3 + 8 * m 4 + 4 * m 5
                + 2 * m 6 + m 7)%Z) by apply msb_first_value_8.
  assert (Hs : ProtocolDecoder.spi_miso
                 (group_transaction mosi miso threshold edges (8 * Z.of_nat k)) =
               (128 * s 0 + 64 * s 1 + 32 * s 2 + 16 * s 3 + 8 * s 4 + 4 * s 5
                + 2 * s 6 + s 7)%Z) by apply msb_first_value_8.
  assert (Hbit : forall chan j, (0 <= threshold_bit chan threshold (edge j) <= 1)%Z).
  { intros chan j. destruct (threshold_bit_binary threshold chan (edge j)) as [-> | ->]; lia. }
  split; [exact Hlen|]. split.
  - unfold ProtocolDecoder.decode_spi in Hdec. fold edges in Hdec.
    apply for_each_body_ok in Hdec. rewrite List.Forall_forall in Hdec.
    destruct (Hdec _ (in_py_range_multiple _ _ Hlen)) as (s1 & s2 & Hstep).
    apply spi_step_in_range in Hstep; [|assumption|lia|assumption].
    rewrite List.Forall_forall in Hstep. apply List.Forall_forall. intros j Hj.
    destruct (Hstep j Hj) as [Hjm Hjs].
    pose proof (edge_at_nonneg edges Hnn (8 * Z.of_nat k + j)) as H0.
    split; apply sample_bit_in_range; unfold edge; lia.
  - split; [exact Hm|]. split; [exact Hs|].
    rewrite Hm, Hs.
    pose proof (Hbit mosi 0%Z). pose proof (Hbit mosi 1%Z). pose proof (Hbit mosi 2%Z).
    pose proof (Hbit mosi 3%Z). pose proof (Hbit mosi 4%Z). pose proof (Hbit mosi 5%Z).
    pose proof (Hbit mosi 6%Z). pose proof (Hbit mosi 7%Z).
    pose proof (Hbit miso 0%Z). pose proof (Hbit miso 1%Z). pose proof (Hbit miso 2%Z).
    pose proof (Hbit miso 3%Z). pose proof (Hbit miso 4%Z). pose proof (Hbit miso 5%Z).
    pose proof (Hbit miso 6%Z). pose proof (Hbit miso 7%Z).
    fold (m 0%Z) (m 1%Z) (m 2%Z) (m 3%Z) (m 4%Z) (m 5%Z) (m 6%Z) (m 7%Z) in *.
    fold (s 0%Z) (s 1%Z) (s 2%Z) (s 3%Z) (s 4%Z) (s 5%Z) (s 6%Z) (s 7%Z) in *.
    lia.
Qed.

Lemma decode_spi_bytes_msb_first_witness :
  ProtocolDecoder.decode_spi Samples.mosi8 Samples.miso8 Samples.sclk8 []
    Samples.threshold = Ok [Samples.spi8_transaction] /\
  (0 <= ProtocolDecoder.spi_mosi Samples.spi8_transaction <= 255)%Z /\
  (0 <= ProtocolDecoder.spi_miso Samples.spi8_transaction <= 255)%Z.
Proof.
  assert (H : ProtocolDecoder.decode_spi Samples.mosi8 Samples.miso8 Samples.sclk8 []
                Samples.threshold = Ok [Samples.spi8_transaction])
    by (vm_compute; reflexivity).
  split; [exact H|].
  apply (decode_spi_bytes_msb_first Samples.mosi8 Samples.miso8 Samples.sclk8 []
           Samples.threshold [Samples.spi8_transaction] 0 Samples.spi8_transaction
           H eq_refl).
Defined.

(** ** Statistics *)

Section Statistics.

Import MeasurementEngine.

Variable np_sqrt : Q -> Q.

(** C3: on the empty buffer [calculate_statistics] returns the empty
    record, with no key at all, and raises nothing. *)
Theorem calculate_statistics_empty (threshold : Q) :
  calculate_statistics np_sqrt [] threshold = Ok ∅.
Proof. reflexivity. Qed.

(** Buffers of more than ten samples always get a record. *)
Lemma calculate_statistics_long (data : list Q) (threshold : Q) :
  (10 < length data)%nat ->
  calculate_statistics np_sqrt data threshold =
  Ok (rise_fall_times data (rising_edges_of data threshold)
        (frequency_analysis data threshold (basic_stats np_sqrt data))).
Proof.
  intros H. unfold calculate_statistics.
  destruct (len data =? 0)%Z eqn:E0; [apply Z.eqb_eq in E0; unfold len in E0; lia|].
  destruct (10 <? len data)%Z eqn:E10; [reflexivity|].
  apply Z.ltb_ge in E10. unfold len in E10. lia.
Qed.

(** C2 (as the code behaves): on every buffer of one to ten samples the
    rise/fall block reads [rising_edges] before it was ever assigned, and
    [calculate_statistics] raises instead of returning a record. *)
Theorem calculate_statistics_short_raises (data : list Q) (threshold : Q) :
  (1 <= length data <= 10)%nat ->
  calculate_statistics np_sqrt data threshold =
  Raise (UnboundLocalError "rising_edges").
Proof.
  intros [H1 H10]. unfold calculate_statistics.
  destruct (len data =? 0)%Z eqn:E0; [apply Z.eqb_eq in E0; unfold len in E0; lia|].
  destruct (10 <? len data)%Z eqn:E10; [|reflexivity].
  apply Z.ltb_lt in E10. unfold len in E10. lia.
Qed.

Lemma rise_fall_times_keeps_frequency (data : list Q) (rising_edges : list Z)
    (stats : gmap string Q) :
  rise_fall_times data rising_edges stats !! "frequency" = stats !! "frequency".
Proof.
  unfold rise_fall_times.
  destruct (0 <? len rising_edges)%Z; [|reflexivity].
  destruct (rise_times_of data rising_edges); [reflexivity|].
  rewrite !lookup_insert_ne by discriminate. reflexivity.
Qed.

Lemma basic_stats_no_frequency (data : list Q) :
  basic_stats np_sqrt data !! "frequency" = None.
Proof.
  unfold basic_stats. rewrite !lookup_insert_ne by discriminate. apply lookup_empty.
Qed.

(** With at most one rising edge there is no period to average, and
    the record carries no frequency. *)
Lemma single_edge_no_frequency (data : list Q) (threshold : Q) :
  (10 < length data)%nat ->
  (length (rising_edges_of data threshold) <= 1)%nat ->
  exists stats,
    calculate_statistics np_sqrt data threshold = Ok stats /\
    stats !! "frequency" = None.
Proof.
  intros Hlen Hedges. eexists. split; [apply calculate_statistics_long, Hlen|].
  rewrite rise_fall_times_keeps_frequency. unfold frequency_analysis.
  destruct (1 <? len (rising_edges_of data threshold))%Z eqn:E.
  - apply Z.ltb_lt in E. unfold len in E. lia.
  - apply basic_stats_no_frequency.
Qed.

End Statistics.

Lemma calculate_statistics_short_raises_witness :
  (1 <= length [18 # 10] <= 10)%nat /\
  MeasurementEngine.calculate_statistics Samples.sqrt6 [18 # 10] (18 # 10) =
  Raise (UnboundLocalError "rising_edges").
Proof.
  split; [simpl; lia|].
  apply (calculate_statistics_short_raises Samples.sqrt6 [18 # 10] (18 # 10)).
  simpl; lia.
Defined.

(** ** The simulated clock channel *)

Lemma Qle_bool_false (x y : Q) : Qle_bool x y = false -> y < x.
Proof.
  intros H. apply Qnot_le_lt. intros Hle.
  apply Qle_bool_iff in Hle. congruence.
Qed.

(** Case analysis on every comparison of the goal, innermost first. *)
Ltac qle_cases :=
  repeat match goal with
         | |- context [Qle_bool ?a ?b] =>
             lazymatch a with
             | context [Qle_bool _ _] => fail
             | _ => idtac
             end;
             let E := fresh "E" in
             destruct (Qle_bool a b) eqn:E;
             [apply Qle_bool_iff in E | apply Qle_bool_false in E]
         end.

(** Noise below 1.4 V never carries a rail level across the 1.8 V
    threshold, clipped or not. *)
Lemma noisy_level_threshold (d e : Q) :
  d = 0 \/ d = 33 # 10 ->
  - (14 # 10) <= e <= 14 # 10 ->
  Qgtb (np.clip (d + e) 0 (36 # 10)) (18 # 10) = Qgtb d (18 # 10).
Proof.
  intros Hd [Hlo Hhi].
  unfold np.clip, Qminb, Qmaxb, Qgtb, Qltb.
  destruct Hd as [-> | ->]; qle_cases; simpl; try reflexivity; exfalso; lra.
Qed.

Lemma noisy_signal_threshold (base noise : list Q) :
  length noise = length base ->
  Forall (fun d => d = 0 \/ d = 33 # 10) base ->
  Forall (fun e => - (14 # 10) <= e <= 14 # 10) noise ->
  np.gt (zip_with (fun d e => np.clip (d + e) 0 (36 # 10)) base noise) (18 # 10) =
  np.gt base (18 # 10).
Proof.
  intros Hlen Hbase. revert noise Hlen.
  induction Hbase as [|d base Hd _ IH]; intros [|e noise] Hlen Hnoise;
    try discriminate; [reflexivity|].
  inversion Hnoise as [|? ? He Hrest]; subst.
  simpl. f_equal.
  - apply noisy_level_threshold; assumption.
  - apply IH; [simpl in Hlen; lia | assumption].
Qed.

Lemma clock_level_rail (freq t : Q) :
  HardwareInterface.clock_level freq t = 0 \/
  HardwareInterface.clock_level freq t = 33 # 10.
Proof.
  unfold HardwareInterface.clock_level.
  destruct (Qltb 0 _ && Qltb _ (1 # 2)); auto.
Qed.

(** In the 1 ms window the thresholded clock of channel 0 rises once,
    between samples 0 and 1, whatever the (bounded) noise. *)
Lemma simulated_clock_edges (noise : list Q) :
  length noise = 1000%nat ->
  Forall (fun e => - (14 # 10) <= e <= 14 # 10) noise ->
  MeasurementEngine.rising_edges_of
    (HardwareInterface.generate_simulated_clock 1000 noise) (18 # 10) = [0%Z].
Proof.
  intros Hlen Hnoise.
  unfold MeasurementEngine.rising_edges_of, HardwareInterface.generate_simulated_clock.
  rewrite noisy_signal_threshold.
  - vm_compute. reflexivity.
  - rewrite length_map. unfold np.linspace. rewrite length_map, length_seq. exact Hlen.
  - apply List.Forall_forall. intros d Hd.
    apply in_map_iff in Hd as (t & <- & _). apply clock_level_rail.
  - exact Hnoise.
Qed.

Lemma simulated_clock_length (noise : list Q) :
  length noise = 1000%nat ->
  length (HardwareInterface.generate_simulated_clock 1000 noise) = 1000%nat.
Proof.
  intros Hlen. unfold HardwareInterface.generate_simulated_clock, np.linspace.
  rewrite length_zip_with, !length_map, length_seq. lia.
Qed.

(** C1 (as the code behaves): for the simulated clock channel, index 0,
    with 1000 samples over the 1 ms window and noise that stays below
    1.4 V in magnitude, [calculate_statistics] returns a record without
    a frequency entry: the window holds a single rising edge. *)
Theorem simulated_clock_no_frequency (np_sqrt : Q -> Q) (noise : list Q) :
  length noise = 1000%nat ->
  Forall (fun e => - (14 # 10) <= e <= 14 # 10) noise ->
  exists stats,
    MeasurementEngine.calculate_statistics np_sqrt
      (HardwareInterface.generate_simulated_clock 1000 noise) (18 # 10) = Ok stats /\
    stats !! "frequency" = None.
Proof.
  intros Hlen Hnoise. apply single_edge_no_frequency.
  - rewrite simulated_clock_length by assumption. lia.
  - rewrite simulated_clock_edges by assumption. simpl. lia.
Qed.

Lemma quiet_noise_bounded :
  Forall (fun e => - (14 # 10) <= e <= 14 # 10) (repeat 0 1000).
Proof.
  apply List.Forall_forall. intros e He. apply repeat_spec in He. subst e.
  split; discriminate.
Qed.

Lemma simulated_clock_no_frequency_witness :
  exists stats,
    MeasurementEngine.calculate_statistics Samples.sqrt6 Samples.quiet_clock (18 # 10)
    = Ok stats /\
    stats !! "frequency" = None.
Proof.
  apply (simulated_clock_no_frequency Samples.sqrt6 (repeat 0 1000)).
  - apply repeat_length.
  - exact quiet_noise_bounded.
Defined.

(** C1 as stated fails on the noise-free simulated clock: the record
    has no frequency within 5% of 1000 Hz. *)
Lemma simulated_clock_frequency_counterexample :
  ~ exists stats f,
      MeasurementEngine.calculate_statistics Samples.sqrt6 Samples.quiet_clock (18 # 10)
      = Ok stats /\
      stats !! "frequency" = Some f /\
      950 <= f <= 1050.
Proof.
  intros (stats & f & Hstats & Hf & _).
  destruct (single_edge_no_frequency Samples.sqrt6 Samples.quiet_clock (18 # 10))
    as (stats' & Hstats' & Hnone).
  - unfold Samples.quiet_clock. rewrite simulated_clock_length by apply repeat_length. lia.
  - unfold Samples.quiet_clock.
    rewrite simulated_clock_edges; [simpl; lia | apply repeat_length | exact quiet_noise_bounded].
  - congruence.
Qed.

(** ** I2C decoding *)

(** C4 (as the code behaves): the start scan tests only that SCL has no
    edge and SDA falls.  With SCL low on both samples and SDA falling
    between them, index 0 is taken as a start condition although SCL is
    not high; no stop follows and no transaction is produced. *)
Theorem i2c_start_recognized_with_scl_low :
  let scl := np.gt Samples.scl_low Samples.threshold in
  let sda := np.gt Samples.sda_falling Samples.threshold in
  scl = [false; false] /\
  sda = [true; false] /\
  ProtocolDecoder.start_indices (np.diff (np.astype_int scl))
                                (np.diff (np.astype_int sda)) = Ok [0%Z] /\
  ProtocolDecoder.decode_i2c Samples.scl_low Samples.sda_falling Samples.threshold
  = Ok [].
Proof. repeat split; reflexivity. Qed.

(** ** Capture scheduling *)

Section Scheduling.

Import LaptopDebugAnalyzer.

Lemma store_batch_other (ui : ui_inputs) (channel_data : list (nat * capture))
    (captured : gmap nat capture) (ch : nat) :
  ~ In ch (map fst channel_data) ->
  store_batch ui channel_data captured !! ch = captured !! ch.
Proof.
  unfold store_batch. revert captured.
  induction channel_data as [|[ch' d] rest IH]; intros captured Hnot; simpl; [reflexivity|].
  simpl in Hnot. rewrite IH by tauto.
  destruct (ch' <? length (channel_checked ui))%nat; [|reflexivity].
  destruct (default false (channel_checked ui !! ch')); [|reflexivity].
  apply lookup_insert_ne. tauto.
Qed.

(** After the store, a checked channel of the batch holds exactly the
    entry the batch had for it. *)
Lemma store_batch_entry (ui : ui_inputs) (channel_data : list (nat * capture))
    (captured : gmap nat capture) (ch : nat) (d : capture) :
  List.NoDup (map fst channel_data) ->
  In (ch, d) channel_data ->
  channel_checked ui !! ch = Some true ->
  store_batch ui channel_data captured !! ch = Some d.
Proof.
  intros Hnodup Hin Hchecked. revert captured.
  induction channel_data as [|[ch' d'] rest IH]; intros captured; [contradiction|].
  simpl in Hnodup. inversion Hnodup as [|? ? Hfresh Hrest]; subst.
  destruct Hin as [Heq|Hin].
  - injection Heq as -> ->.
    change (store_batch ui ((ch, d) :: rest) captured)
      with (store_batch ui rest
              (if (ch <? length (channel_checked ui))%nat
               then if default false (channel_checked ui !! ch)
                    then <[ch := {| cap_time := cap_time d;
                                    cap_data := cap_data d;
                                    cap_timestamp := cap_timestamp d |}]> captured
                    else captured
               else captured)).
    rewrite store_batch_other by assumption.
    assert (Hlt : (ch <? length (channel_checked ui))%nat = true).
    { apply Nat.ltb_lt. eapply lookup_lt_Some, Hchecked. }
    rewrite Hlt, Hchecked. simpl. rewrite lookup_insert_eq. destruct d; reflexivity.
  - apply IH; assumption.
Qed.

Lemma update_cursor_measurements_capture_data (st : analyzer) :
  capture_data (update_cursor_measurements st) = capture_data st.
Proof.
  unfold update_cursor_measurements.
  destruct (cursor_measurements st); reflexivity.
Qed.

Lemma stopped_timer_inactive (ts : list bool) (t : nat) :
  default false (timer_stop t ts !! t) = false.
Proof.
  unfold timer_stop. destruct (decide (t < length ts)%nat).
  - rewrite list_lookup_insert_eq by assumption. reflexivity.
  - rewrite list_insert_ge by lia. rewrite lookup_ge_None_2 by lia. reflexivity.
Qed.

Lemma stop_capture_is_idle (st : analyzer) :
  is_capturing (stop_capture st) = false /\ tick_source_active (stop_capture st) = false.
Proof.
  split; [reflexivity|].
  unfold tick_source_active, stop_capture. simpl.
  destruct (capture_timer st) as [t|]; [|reflexivity].
  destruct (auto_save_timer st) as [a|]; [|apply stopped_timer_inactive].
  destruct (decide (a = t)) as [->|Hne]; [apply stopped_timer_inactive|].
  unfold timer_stop at 1. rewrite list_lookup_insert_ne by assumption.
  apply stopped_timer_inactive.
Qed.

(** [stop_capture] while Idle leaves the scheduler as it was. *)
Lemma stop_capture_when_idle (st : analyzer) :
  is_capturing st = false ->
  tick_source_active st = false ->
  scheduler_state (stop_capture st) = scheduler_state st.
Proof.
  intros Hcap Htick. unfold scheduler_state.
  destruct (stop_capture_is_idle st) as [-> ->].
  rewrite Hcap, Htick. reflexivity.
Qed.

(** [start_capture], whenever the settings validate, empties the
    capture buffers. *)
Lemma start_capture_clears (ui : ui_inputs) (st : analyzer) :
  validate_capture_settings ui = true ->
  capture_data (start_capture ui st) = ∅ /\ is_capturing (start_capture ui st) = true.
Proof.
  intros H. unfold start_capture. rewrite H. simpl.
  destruct (config_auto_save ui); split; reflexivity.
Qed.

End Scheduling.

(** C8 (as the code behaves): [start_capture] carries no test of
    [is_capturing].  Called on a Running analyzer that holds a captured
    buffer for channel 0, it empties the capture buffers, so the
    scheduler state is not left unchanged. *)
Theorem start_capture_while_running_clears_buffers :
  LaptopDebugAnalyzer.is_capturing Samples.running = true /\
  LaptopDebugAnalyzer.tick_source_active Samples.running = true /\
  LaptopDebugAnalyzer.capture_data Samples.running !! 0%nat = Some Samples.clock_capture /\
  LaptopDebugAnalyzer.capture_data
    (LaptopDebugAnalyzer.start_capture Samples.ui Samples.running) = ∅ /\
  LaptopDebugAnalyzer.scheduler_state
    (LaptopDebugAnalyzer.start_capture Samples.ui Samples.running)
  <> LaptopDebugAnalyzer.scheduler_state Samples.running.
Proof.
  assert (Hdata : LaptopDebugAnalyzer.capture_data Samples.running !! 0%nat
                  = Some Samples.clock_capture).
  { unfold Samples.running, Samples.tick, LaptopDebugAnalyzer.update_capture.
    change (LaptopDebugAnalyzer.is_capturing
              (LaptopDebugAnalyzer.start_capture Samples.ui LaptopDebugAnalyzer.initial))
      with true.
    cbn [negb]. change (LaptopDebugAnalyzer.current_tab Samples.ui =? 4)%Z with false.
    cbv iota. rewrite update_cursor_measurements_capture_data.
    cbn [LaptopDebugAnalyzer.capture_data LaptopDebugAnalyzer.with_capture_data].
    apply store_batch_entry.
    - repeat constructor. simpl. tauto.
    - left. reflexivity.
    - reflexivity. }
  assert (Hclear : LaptopDebugAnalyzer.capture_data
                     (LaptopDebugAnalyzer.start_capture Samples.ui Samples.running) = ∅).
  { apply start_capture_clears. reflexivity. }
  split; [vm_compute; reflexivity|].
  split; [vm_compute; reflexivity|].
  split; [exact Hdata|].
  split; [exact Hclear|].
  intros Heq.
  assert (Hcd : LaptopDebugAnalyzer.capture_data
                  (LaptopDebugAnalyzer.start_capture Samples.ui Samples.running) !! 0%nat
                = LaptopDebugAnalyzer.capture_data Samples.running !! 0%nat).
  { unfold LaptopDebugAnalyzer.scheduler_state in Heq. congruence. }
  rewrite Hclear, Hdata in Hcd.
  rewrite (lookup_empty (M:=gmap nat)) in Hcd.
  inversion Hcd.
Qed.

(** ** The capture buffer after a tick *)

Section Tick.

Import LaptopDebugAnalyzer.

Variable np_hanning_at : nat -> nat -> Q.
Variable np_fft_bin : list Q -> nat -> Q * Q.
Variable np_abs : Q * Q -> Q.
Variable np_log10 : Q -> Q.

Lemma update_fft_capture_data (st : analyzer) :
  capture_data (update_fft np_hanning_at np_fft_bin np_abs np_log10 st) = capture_data st.
Proof.
  unfold update_fft.
  destruct (fft_measurements np_hanning_at np_fft_bin np_abs np_log10 st); reflexivity.
Qed.

(** While capturing, a tick leaves in [capture_data] what the store of
    the batch produced: the cursor and spectrum steps do not touch it. *)
Lemma update_capture_capture_data (ui : ui_inputs)
    (channel_data : list (nat * capture)) (st : analyzer) :
  is_capturing st = true ->
  capture_data (update_capture np_hanning_at np_fft_bin np_abs np_log10 ui channel_data st)
  = store_batch ui channel_data (capture_data st).
Proof.
  intros H. unfold update_capture. rewrite H. cbn [negb].
  destruct (current_tab ui =? 4)%Z.
  - rewrite update_fft_capture_data, update_cursor_measurements_capture_data. reflexivity.
  - rewrite update_cursor_measurements_capture_data. reflexivity.
Qed.

(** C6 (as the code behaves): a tick replaces the capture buffer of
    every checked channel of the batch by the batch entry itself; the
    buffer then holds exactly the samples just read, whatever was
    captured before and whatever bound is configured. *)
Theorem update_capture_replaces_buffer (ui : ui_inputs)
    (channel_data : list (nat * capture)) (st : analyzer) (ch : nat) (d : capture) :
  is_capturing st = true ->
  List.NoDup (map fst channel_data) ->
  In (ch, d) channel_data ->
  channel_checked ui !! ch = Some true ->
  capture_data (update_capture np_hanning_at np_fft_bin np_abs np_log10 ui channel_data st)
    !! ch = Some d.
Proof.
  intros Hcap Hnodup Hin Hchecked.
  rewrite update_capture_capture_data by assumption.
  apply store_batch_entry; assumption.
Qed.

End Tick.

Lemma fifo_append_length {A} (bound : nat) (buffer batch : list A) :
  length (fifo_append bound buffer batch) =
  Nat.min bound (length buffer + length batch).
Proof. unfold fifo_append. rewrite length_drop, length_app. lia. Qed.

Lemma running_is_capturing : LaptopDebugAnalyzer.is_capturing Samples.running = true.
Proof. vm_compute. reflexivity. Qed.

Lemma clock_capture_length :
  length (LaptopDebugAnalyzer.cap_data Samples.clock_capture) = 1000%nat.
Proof. apply simulated_clock_length, repeat_length. Qed.

Lemma update_capture_replaces_buffer_witness :
  LaptopDebugAnalyzer.capture_data (Samples.tick [(0%nat, Samples.clock_capture)] Samples.running)
    !! 0%nat = Some Samples.clock_capture.
Proof.
  apply (update_capture_replaces_buffer Samples.flat_window Samples.sample_bins
           Samples.norm1 Samples.linear_log Samples.ui
           [(0%nat, Samples.clock_capture)] Samples.running 0%nat Samples.clock_capture).
  - exact running_is_capturing.
  - repeat constructor. simpl. tauto.
  - left. reflexivity.
  - reflexivity.
Defined.

(** C6 as stated fails: with a configured bound of 1500 samples, two
    ticks append 2000 samples to channel 0, yet the buffer then holds
    the 1000 samples of the second batch, not the most recent 1500. *)
Lemma capture_buffer_fifo_counterexample :
  let bound := Z.to_nat (LaptopDebugAnalyzer.config_buffer_size Samples.ui) in
  let batch := LaptopDebugAnalyzer.cap_data Samples.clock_capture in
  exists cap,
    LaptopDebugAnalyzer.capture_data
      (Samples.tick [(0%nat, Samples.clock_capture)] Samples.running) !! 0%nat = Some cap /\
    length (LaptopDebugAnalyzer.cap_data cap) = 1000%nat /\
    length (fifo_append bound (fifo_append bound [] batch) batch) = 1500%nat /\
    LaptopDebugAnalyzer.cap_data cap <> fifo_append bound (fifo_append bound [] batch) batch.
Proof.
  intros bound batch. exists Samples.clock_capture.
  assert (Hfifo : length (fifo_append bound (fifo_append bound [] batch) batch) = 1500%nat).
  { rewrite !fifo_append_length. unfold batch. rewrite clock_capture_length.
    reflexivity. }
  split; [|split; [exact clock_capture_length | split; [exact Hfifo|]]].
  - unfold Samples.tick. rewrite update_capture_capture_data by exact running_is_capturing.
    apply store_batch_entry.
    + repeat constructor. simpl. tauto.
    + left. reflexivity.
    + reflexivity.
  - intros Heq. apply (f_equal length) in Heq.
    rewrite Hfifo, clock_capture_length in Heq. discriminate.
Qed.

(** ** Cursor measurements *)

Section Cursors.

Import LaptopDebugAnalyzer.

(** X15: with no sample in the reference buffer the search for the
    nearest sample raises, the exception is swallowed, and the analyzer
    is left exactly as it was. *)
Lemma update_cursor_measurements_empty (st : analyzer) (cap : capture) :
  capture_data st !! 0%nat = Some cap ->
  cap_time cap = [] ->
  update_cursor_measurements st = st.
Proof.
  intros Hcap Htime. unfold update_cursor_measurements, cursor_measurements.
  rewrite Hcap, Htime. reflexivity.
Qed.

Lemma update_cursor_measurements_no_channel (st : analyzer) :
  capture_data st !! 0%nat = None ->
  update_cursor_measurements st = st.
Proof.
  intros Hcap. unfold update_cursor_measurements, cursor_measurements.
  rewrite Hcap. destruct st; reflexivity.
Qed.

(** X16: both cursors on the same sample: the deltas shown are zero and
    the frequency label keeps whatever it showed before. *)
Lemma cursor_measurements_same_sample (st : analyzer) (cap : capture) (idx : nat) :
  capture_data st !! 0%nat = Some cap ->
  np.argmin (map (fun t => Qabs (t - cursor_v1 st)) (cap_time cap)) = Ok idx ->
  np.argmin (map (fun t => Qabs (t - cursor_v2 st)) (cap_time cap)) = Ok idx ->
  (idx < length (cap_data cap))%nat ->
  (idx < length (cap_time cap))%nat ->
  exists dt dv,
    delta_time (cursor_labels (update_cursor_measurements st)) = Some dt /\ dt == 0 /\
    delta_voltage (cursor_labels (update_cursor_measurements st)) = Some dv /\ dv == 0 /\
    frequency_label (cursor_labels (update_cursor_measurements st)) =
    frequency_label (cursor_labels st).
Proof.
  intros Hcap H1 H2 Hdata Htime.
  unfold update_cursor_measurements, cursor_measurements.
  rewrite Hcap, H1. cbn -[np.getitem Qabs Qmult Nat.ltb]. rewrite H2.
  cbn -[np.getitem Qabs Qmult Nat.ltb].
  assert (Hlt : ((idx <? length (cap_data cap))%nat && (idx <? length (cap_data cap))%nat) = true).
  { apply andb_true_iff. split; apply Nat.ltb_lt; assumption. }
  rewrite Hlt.
  rewrite (getitem_in_range (cap_data cap) (Z.of_nat idx) 0) by (unfold len; lia).
  cbn -[np.getitem Qabs Qmult Qgtb Qdiv].
  rewrite (getitem_in_range (cap_time cap) (Z.of_nat idx) 0) by (unfold len; lia).
  cbn -[np.getitem Qabs Qmult Qgtb Qdiv].
  set (v := nth (Z.to_nat (Z.of_nat idx)) (cap_data cap) 0).
  set (t := nth (Z.to_nat (Z.of_nat idx)) (cap_time cap) 0).
  assert (Hdt : Qabs (t - t) * 1000 == 0).
  { assert (Hz : t - t == 0) by ring. rewrite Hz. reflexivity. }
  assert (Hdv : Qabs (v - v) == 0).
  { assert (Hz : v - v == 0) by ring. rewrite Hz. reflexivity. }
  exists (Qabs (t - t) * 1000), (Qabs (v - v)).
  split; [reflexivity|]. split; [exact Hdt|].
  split; [reflexivity|]. split; [exact Hdv|].
  unfold Qgtb, Qltb.
  assert (Hle : Qle_bool (Qabs (t - t) * 1000) 0 = true).
  { apply Qle_bool_iff. rewrite Hdt. apply Qle_refl. }
  rewrite Hle. reflexivity.
Qed.

End Cursors.

(** C9 (as the code behaves): after a tick that displayed 1000 Hz for the
    cursors at 0 and 1 ms, both cursors are put on sample 0.  The next
    cursor update shows a delta-time and a delta-voltage of zero and
    leaves the frequency label on the stale 1000 Hz: nothing marks the
    frequency as unavailable. *)
Theorem cursor_frequency_left_stale :
  let before := LaptopDebugAnalyzer.cursor_labels Samples.running in
  let after :=
    LaptopDebugAnalyzer.cursor_labels
      (LaptopDebugAnalyzer.update_cursor_measurements
         (LaptopDebugAnalyzer.with_cursors Samples.running 0 0)) in
  (exists f, LaptopDebugAnalyzer.frequency_label before = Some f /\ f == 1000) /\
  (exists dt, LaptopDebugAnalyzer.delta_time after = Some dt /\ dt == 0) /\
  (exists dv, LaptopDebugAnalyzer.delta_voltage after = Some dv /\ dv == 0) /\
  (exists f, LaptopDebugAnalyzer.frequency_label after = Some f /\ f == 1000).
Proof.
  cbv zeta. repeat split.
  - eexists. split; [vm_compute; reflexivity | reflexivity].
  - eexists. split; [vm_compute; reflexivity | reflexivity].
  - eexists. split; [vm_compute; reflexivity | reflexivity].
  - eexists. split; [vm_compute; reflexivity | reflexivity].
Qed.

(** ** Spectrum *)

Lemma argmax_from_max (arr pre : list Q) (best : Q) (best_idx : nat) :
  (best_idx < length pre)%nat ->
  nth best_idx pre 0 = best ->
  (forall j, (j < length pre)%nat -> nth j pre 0 <= best) ->
  let r := np.argmax_from best best_idx (length pre) arr in
  (r < length (pre ++ arr))%nat /\
  forall j, (j < length (pre ++ arr))%nat -> nth j (pre ++ arr) 0 <= nth r (pre ++ arr) 0.
Proof.
  revert pre best best_idx.
  induction arr as [|x rest IH]; intros pre best best_idx Hidx Hbest Hmax; cbn zeta.
  - simpl. rewrite app_nil_r. split; [assumption|].
    intros j Hj. rewrite Hbest. apply Hmax, Hj.
  - assert (Hlen : length (pre ++ [x]) = S (length pre)) by (rewrite length_app; simpl; lia).
    assert (Hassoc : pre ++ x :: rest = (pre ++ [x]) ++ rest)
      by (rewrite <- app_assoc; reflexivity).
    simpl. unfold Qltb.
    destruct (Qle_bool x best) eqn:E; simpl; rewrite Hassoc, <- Hlen.
    + apply Qle_bool_iff in E. apply IH.
      * rewrite Hlen. lia.
      * rewrite app_nth1 by assumption. exact Hbest.
      * intros j Hj. rewrite Hlen in Hj.
        destruct (decide (j < length pre)%nat) as [Hlt|Hge].
        -- rewrite app_nth1 by assumption. apply Hmax, Hlt.
        -- replace j with (length pre) by lia.
           rewrite app_nth2, Nat.sub_diag by lia. exact E.
    + apply Qle_bool_false in E.
      replace (length pre) with (length (pre ++ [x]) - 1)%nat at 1 by lia.
      rewrite Hlen. replace (S (length pre) - 1)%nat with (length pre) by lia.
      rewrite <- Hlen. apply IH.
      * rewrite Hlen. lia.
      * rewrite app_nth2, Nat.sub_diag by lia. reflexivity.
      * intros j Hj. rewrite Hlen in Hj.
        destruct (decide (j < length pre)%nat) as [Hlt|Hge].
        -- rewrite app_nth1 by assumption. specialize (Hmax j Hlt). lra.
        -- replace j with (length pre) by lia.
           rewrite app_nth2, Nat.sub_diag by lia. apply Qle_refl.
Qed.

(** [np.argmax] of a non-empty array is the index of a largest entry. *)
Lemma argmax_max (arr : list Q) :
  arr <> [] ->
  exists r,
    np.argmax arr = Ok r /\
    (r < length arr)%nat /\
    forall j, (j < length arr)%nat -> nth j arr 0 <= nth r arr 0.
Proof.
  destruct arr as [|x rest]; [congruence|]. intros _.
  exists (np.argmax_from x 0 1 rest). split; [reflexivity|].
  apply (argmax_from_max rest [x] x 0%nat).
  - simpl. lia.
  - reflexivity.
  - intros j Hj. simpl in Hj. replace j with 0%nat by lia. apply Qle_refl.
Qed.

Section SpectrumFacts.

Import LaptopDebugAnalyzer.

Variable np_hanning_at : nat -> nat -> Q.
Variable np_fft_bin : list Q -> nat -> Q * Q.
Variable np_abs : Q * Q -> Q.
Variable np_log10 : Q -> Q.

Local Abbreviation compute_spectrum :=
  (compute_spectrum np_hanning_at np_fft_bin np_abs np_log10).
Local Abbreviation update_fft :=
  (update_fft np_hanning_at np_fft_bin np_abs np_log10).

Lemma np_fft_length (x : list Q) (y : list (Q * Q)) :
  np_fft np_fft_bin x = Ok y -> length y = length x.
Proof.
  destruct x as [|a x]; [discriminate|]. intros H.
  unfold np_fft in H. injection H as <-.
  simpl. rewrite length_map, length_seq. reflexivity.
Qed.

(** On a non-empty buffer of [n] samples the transform returns [n / 2]
    magnitude bins, their frequencies and their dB values. *)
Lemma compute_spectrum_bins (data : list Q) :
  data <> [] ->
  exists sp,
    compute_spectrum data = Ok sp /\
    length (fft_magnitude sp) = (length data / 2)%nat /\
    frequencies sp = take (length data / 2) (np_fftfreq (length data) (1 / 24000000)) /\
    fft_db sp = map (fun x => 20 * np_log10 (x + (1 # 10000000000))) (fft_magnitude sp).
Proof.
  intros Hne. unfold LaptopDebugAnalyzer.compute_spectrum.
  set (m := np.mean data).
  set (windowed := zip_with Qmult (map (fun x => x - m) data)
                     (np_hanning np_hanning_at (length (map (fun x => x - m) data)))).
  assert (Hlen : length windowed = length data).
  { unfold windowed, np_hanning.
    rewrite length_zip_with, !length_map, length_seq. lia. }
  destruct (np_fft np_fft_bin windowed) as [fft_result|e] eqn:E.
  - apply np_fft_length in E. rewrite Hlen in E.
    eexists. split; [reflexivity|]. cbn [fft_magnitude frequencies fft_db].
    rewrite length_map, length_take, !E, length_map.
    split; [|split; reflexivity].
    apply Nat.min_l. apply Nat.Div0.div_le_upper_bound. lia.
  - exfalso. destruct windowed; [|discriminate].
    destruct data; [congruence|discriminate].
Qed.

Lemma fftfreq_bin (n idx : nat) (d : Q) :
  (idx < n / 2)%nat ->
  nth idx (take (n / 2) (np_fftfreq n d)) 0 =
  inject_Z (Z.of_nat idx) / (d * inject_Z (Z.of_nat n)).
Proof.
  intros H.
  assert (Hn : (n / 2 <= n)%nat) by (apply Nat.Div0.div_le_upper_bound; lia).
  rewrite nth_firstn.
  destruct (idx <? n / 2)%nat eqn:E; [|apply Nat.ltb_ge in E; lia].
  unfold np_fftfreq.
  set (f := fun k : nat => if (k <=? (n - 1) / 2)%nat
                           then inject_Z (Z.of_nat k) / (d * inject_Z (Z.of_nat n))
                           else inject_Z (Z.of_nat k - Z.of_nat n) / (d * inject_Z (Z.of_nat n))).
  rewrite (nth_indep _ 0 (f 0%nat)) by (rewrite length_map, length_seq; lia).
  rewrite map_nth, seq_nth by lia. unfold f. simpl Nat.add.
  destruct (idx <=? (n - 1) / 2)%nat eqn:G; [reflexivity|].
  apply Nat.leb_gt in G. exfalso.
  assert (n / 2 <= (n - 1) / 2 + 1)%nat; [|lia].
  pose proof (Nat.div_mod_eq n 2). pose proof (Nat.div_mod_eq (n - 1) 2).
  pose proof (Nat.mod_upper_bound n 2). pose proof (Nat.mod_upper_bound (n - 1) 2).
  lia.
Qed.

(** C7: on a buffer with more than ten magnitude bins, [update_fft]
    reports the bin [idx >= 10] of largest magnitude among the bins from
    10 on: its frequency [idx * 24e6 / n] (shown in kHz) and its
    magnitude in dB, [20 * log10(magnitude + 1e-10)]. *)
Theorem update_fft_fundamental (st : analyzer) (cap : capture) :
  capture_data st !! 0%nat = Some cap ->
  (10 < length (cap_data cap) / 2)%nat ->
  exists sp idx,
    compute_spectrum (cap_data cap) = Ok sp /\
    length (fft_magnitude sp) = (length (cap_data cap) / 2)%nat /\
    (10 <= idx < length (fft_magnitude sp))%nat /\
    (forall j, (10 <= j < length (fft_magnitude sp))%nat ->
               nth j (fft_magnitude sp) 0 <= nth idx (fft_magnitude sp) 0) /\
    nth idx (frequencies sp) 0 =
      inject_Z (Z.of_nat idx)
      / ((1 / 24000000) * inject_Z (Z.of_nat (length (cap_data cap)))) /\
    freq_values (update_fft st) =
      {| fundamental_khz := Some (nth idx (frequencies sp) 0 / 1000);
         fundamental_db :=
           Some (20 * np_log10 (nth idx (fft_magnitude sp) 0 + (1 # 10000000000))) |}.
Proof.
  intros Hcap Hbins.
  destruct (compute_spectrum_bins (cap_data cap)) as (sp & Hsp & Hlen & Hfreq & Hdb).
  { intros Hnil. rewrite Hnil in Hbins. simpl in Hbins. lia. }
  destruct (argmax_max (drop 10 (fft_magnitude sp))) as (rel & Hrel & Hrlt & Hrmax).
  { intros Hnil. apply (f_equal length) in Hnil.
    rewrite length_drop in Hnil. simpl in Hnil. lia. }
  rewrite length_drop in Hrlt, Hrmax.
  exists sp, (rel + 10)%nat.
  assert (Hidx : (rel + 10 < length (fft_magnitude sp))%nat) by lia.
  split; [exact Hsp|]. split; [exact Hlen|]. split; [lia|]. split.
  - intros j Hj. specialize (Hrmax (j - 10)%nat ltac:(lia)).
    rewrite !nth_skipn in Hrmax.
    replace (10 + (j - 10))%nat with j in Hrmax by lia.
    replace (10 + rel)%nat with (rel + 10)%nat in Hrmax by lia. exact Hrmax.
  - split.
    + rewrite Hfreq. apply fftfreq_bin. lia.
    + unfold LaptopDebugAnalyzer.update_fft, LaptopDebugAnalyzer.fft_measurements.
      rewrite Hcap, Hsp. cbn -[np.getitem np.argmax Nat.ltb Qmult Qdiv Qplus].
      assert (Hgt : (10 <? length (fft_magnitude sp))%nat = true)
        by (apply Nat.ltb_lt; lia).
      rewrite Hgt, Hrel. cbn -[np.getitem np.argmax Nat.ltb Qmult Qdiv Qplus].
      assert (Hflen : length (frequencies sp) = (length (cap_data cap) / 2)%nat).
      { rewrite Hfreq, length_take. unfold np_fftfreq. rewrite length_map, length_seq.
        apply Nat.min_l. apply Nat.Div0.div_le_upper_bound. lia. }
      rewrite (getitem_in_range (frequencies sp) _ 0) by (unfold len; lia).
      cbn -[np.getitem np.argmax Nat.ltb Qmult Qdiv Qplus].
      rewrite (getitem_in_range (fft_db sp) _
                 (20 * np_log10 (0 + (1 # 10000000000))))
        by (unfold len; rewrite Hdb, length_map; lia).
      cbn -[np.getitem np.argmax Nat.ltb Qmult Qdiv Qplus].
      rewrite Nat2Z.id. rewrite Hdb.
      rewrite (map_nth (fun x => 20 * np_log10 (x + (1 # 10000000000)))).
      reflexivity.
Qed.

End SpectrumFacts.

Lemma running_channel0 :
  LaptopDebugAnalyzer.capture_data Samples.running !! 0%nat = Some Samples.clock_capture.
Proof.
  unfold Samples.running, Samples.tick.
  rewrite update_capture_capture_data by reflexivity.
  apply store_batch_entry.
  - repeat constructor. simpl. tauto.
  - left. reflexivity.
  - reflexivity.
Qed.

Lemma update_fft_fundamental_witness :
  exists sp idx,
    LaptopDebugAnalyzer.compute_spectrum Samples.flat_window Samples.sample_bins
      Samples.norm1 Samples.linear_log
      (LaptopDebugAnalyzer.cap_data Samples.clock_capture) = Ok sp /\
    length (LaptopDebugAnalyzer.fft_magnitude sp) =
      (length (LaptopDebugAnalyzer.cap_data Samples.clock_capture) / 2)%nat /\
    (10 <= idx < length (LaptopDebugAnalyzer.fft_magnitude sp))%nat /\
    (forall j, (10 <= j < length (LaptopDebugAnalyzer.fft_magnitude sp))%nat ->
               nth j (LaptopDebugAnalyzer.fft_magnitude sp) 0
               <= nth idx (LaptopDebugAnalyzer.fft_magnitude sp) 0) /\
    nth idx (LaptopDebugAnalyzer.frequencies sp) 0 =
      inject_Z (Z.of_nat idx)
      / ((1 / 24000000)
         * inject_Z (Z.of_nat (length (LaptopDebugAnalyzer.cap_data Samples.clock_capture)))) /\
    LaptopDebugAnalyzer.freq_values
      (LaptopDebugAnalyzer.update_fft Samples.flat_window Samples.sample_bins
         Samples.norm1 Samples.linear_log Samples.running) =
      {| LaptopDebugAnalyzer.fundamental_khz :=
           Some (nth idx (LaptopDebugAnalyzer.frequencies sp) 0 / 1000);
         LaptopDebugAnalyzer.fundamental_db :=
           Some (20 * Samples.linear_log
                        (nth idx (LaptopDebugAnalyzer.fft_magnitude sp) 0
                         + (1 # 10000000000))) |}.
Proof.
  apply (update_fft_fundamental Samples.flat_window Samples.sample_bins
           Samples.norm1 Samples.linear_log Samples.running Samples.clock_capture).
  - exact running_channel0.
  - rewrite clock_capture_length. simpl. lia.
Defined.

(** ** I2C decoding on time-aligned buffers *)

Lemma where_from_lookup (mask : list bool) (base x : Z) :
  In x (np.where_from base mask) ->
  (base <= x)%Z /\ mask !! Z.to_nat (x - base) = Some true.
Proof.
  revert base. induction mask as [|b mask IH]; intros base H; simpl in H; [contradiction|].
  assert (Hrest : In x (np.where_from (base + 1) mask) ->
                  (base <= x)%Z /\ (b :: mask) !! Z.to_nat (x - base) = Some true).
  { intros Hin. apply IH in Hin as [Hle Hlk]. split; [lia|].
    replace (Z.to_nat (x - base)) with (S (Z.to_nat (x - (base + 1)))) by lia.
    exact Hlk. }
  destruct b; [|exact (Hrest H)].
  destruct H as [<-|H]; [|exact (Hrest H)].
  split; [lia|]. rewrite Z.sub_diag. reflexivity.
Qed.

Lemma where_from_all_false (l : list bool) (base : Z) :
  np.where_from base (map (fun x : bool => x && false) l) = [].
Proof.
  revert base. induction l as [|x l IH]; intros base; simpl; [reflexivity|].
  rewrite andb_false_r. apply IH.
Qed.

Section I2cAligned.

Import ProtocolDecoder.

Variables (scl : list bool) (sda_edges : list Z).

Hypothesis aligned : length scl = S (length sda_edges).

(** From a start index, where SDA falls, the stop scan compares
    [scl[start:]] with the one-shorter [sda_edges[start:]]: the shapes
    do not broadcast, except for the last edge, which is the falling
    one and is no stop. *)
Lemma i2c_step_aligned (transactions transactions' : list i2c_transaction) (s : Z) :
  (0 <= s)%Z ->
  sda_edges !! Z.to_nat s = Some (-1)%Z ->
  i2c_step scl sda_edges transactions s = Ok transactions' ->
  transactions' = transactions.
Proof.
  intros Hs Hedge H. unfold i2c_step, stop_indices, np.slice_from in H.
  assert (Hlt : (Z.to_nat s < length sda_edges)%nat) by (eapply lookup_lt_Some, Hedge).
  rewrite (drop_S sda_edges (-1)%Z (Z.to_nat s) Hedge) in H.
  set (a := np.eq (np.astype_int (drop (Z.to_nat s) scl)) 1%Z) in H.
  assert (Ha : length a = S (S (length (drop (S (Z.to_nat s)) sda_edges)))).
  { unfold a, np.eq, np.astype_int. rewrite !length_map, !length_drop. lia. }
  change (np.eq ((-1)%Z :: drop (S (Z.to_nat s)) sda_edges) 1%Z)
    with (false :: np.eq (drop (S (Z.to_nat s)) sda_edges) 1%Z) in H.
  set (b := np.eq (drop (S (Z.to_nat s)) sda_edges) 1%Z) in H.
  assert (Hb : length b = length (drop (S (Z.to_nat s)) sda_edges))
    by (unfold b, np.eq; apply length_map).
  unfold np.and_ in H.
  destruct (length a =? length (false :: b))%nat eqn:E.
  { apply Nat.eqb_eq in E. simpl in E. lia. }
  destruct a as [|x [|x' a']]; [simpl in Ha; lia | simpl in Ha; lia |].
  destruct b as [|y b'].
  - cbn -[np.where_] in H. unfold np.where_ in H.
    rewrite (where_from_all_false (x :: x' :: a')) in H.
    injection H as <-. reflexivity.
  - discriminate.
Qed.

End I2cAligned.

(** X1: on two buffers of the same length [decode_i2c] never returns a
    transaction: whatever list it returns is empty. *)
Lemma decode_i2c_aligned_no_transaction (data_ch1 data_ch2 : list Q) (threshold : Q)
    (transactions : list ProtocolDecoder.i2c_transaction) :
  length data_ch1 = length data_ch2 ->
  ProtocolDecoder.decode_i2c data_ch1 data_ch2 threshold = Ok transactions ->
  transactions = [].
Proof.
  intros Hlen H. unfold ProtocolDecoder.decode_i2c, ProtocolDecoder.start_indices in H.
  set (scl := np.gt data_ch1 threshold) in H.
  set (sda_edges := np.diff (np.astype_int (np.gt data_ch2 threshold))) in H.
  set (scl_edges := np.diff (np.astype_int scl)) in H.
  assert (Hedges : length scl_edges = length sda_edges).
  { unfold scl_edges, sda_edges, scl, np.astype_int, np.gt.
    rewrite !length_diff, !length_map. lia. }
  unfold np.and_ in H.
  assert (E : (length (np.eq scl_edges 0%Z) =? length (np.eq sda_edges (-1)%Z))%nat = true).
  { apply Nat.eqb_eq. unfold np.eq. rewrite !length_map. exact Hedges. }
  rewrite E in H. cbn -[np.where_ np.eq] in H.
  set (starts := np.where_ _) in H.
  assert (Hstarts : Forall (fun s => (0 <= s)%Z /\ sda_edges !! Z.to_nat s = Some (-1)%Z)
                      starts).
  { apply List.Forall_forall. intros s Hin. unfold starts, np.where_ in Hin.
    apply where_from_lookup in Hin as [Hs Hlk]. split; [exact Hs|].
    rewrite Z.sub_0_r in Hlk.
    apply lookup_zip_with_Some in Hlk as (x & y & Hand & _ & Hy).
    unfold np.eq in Hy. rewrite list_lookup_fmap in Hy.
    destruct (sda_edges !! Z.to_nat s) as [e|]; [|discriminate].
    simpl in Hy. injection Hy as Hy.
    symmetry in Hand. apply andb_true_iff in Hand as [_ Hy'].
    rewrite Hy' in Hy. apply Z.eqb_eq in Hy. congruence. }
  destruct (decide (length sda_edges = 0)%nat) as [Hz|Hnz].
  - destruct starts as [|s rest]; [simpl in H; congruence|].
    inversion Hstarts as [|? ? [_ Hlk] _]; subst.
    apply lookup_lt_Some in Hlk. lia.
  - assert (Haligned : length scl = S (length sda_edges)).
    { unfold sda_edges, scl, np.astype_int, np.gt in *.
      rewrite length_diff, !length_map in *. lia. }
    apply (for_each_returns
             (fun s => (0 <= s)%Z /\ sda_edges !! Z.to_nat s = Some (-1)%Z)
             (fun t _ => t)) in H.
    + rewrite H. clear. induction starts; [reflexivity | assumption].
    + intros t s t' [Hs Hlk] Hstep.
      eapply i2c_step_aligned; eassumption.
    + exact Hstarts.
Qed.

(** ** The unit of the reported frequency *)

(** Whenever a record carries a frequency, it is the reciprocal of the
    mean spacing of the rising edges counted in samples: the sample
    rate never enters the computation. *)
Lemma frequency_is_per_sample (np_sqrt : Q -> Q) (data : list Q) (threshold : Q)
    (stats : gmap string Q) (f : Q) :
  MeasurementEngine.calculate_statistics np_sqrt data threshold = Ok stats ->
  stats !! "frequency" = Some f ->
  f = 1 / np.mean_int (np.diff (MeasurementEngine.rising_edges_of data threshold)).
Proof.
  intros Hstats Hf. unfold MeasurementEngine.calculate_statistics in Hstats.
  destruct (len data =? 0)%Z.
  { injection Hstats as <-. rewrite lookup_empty in Hf. discriminate. }
  destruct (10 <? len data)%Z; [|discriminate].
  injection Hstats as <-.
  rewrite rise_fall_times_keeps_frequency in Hf.
  unfold MeasurementEngine.frequency_analysis in Hf.
  set (periods := np.diff (MeasurementEngine.rising_edges_of data threshold)) in *.
  destruct (1 <? len _)%Z; [|rewrite basic_stats_no_frequency in Hf; discriminate].
  destruct (0 <? len periods)%Z; [|rewrite basic_stats_no_frequency in Hf; discriminate].
  destruct (Qgtb (np.mean_int periods) 0);
    [|rewrite basic_stats_no_frequency in Hf; discriminate].
  assert (Hkey : forall m : gmap string Q,
             (<["period" := np.mean_int periods]>
                (<["frequency" := 1 / np.mean_int periods]> m)) !! "frequency"
             = Some (1 / np.mean_int periods)).
  { intros m. rewrite lookup_insert_ne by discriminate. apply lookup_insert_eq. }
  destruct (0 <? len (MeasurementEngine.falling_edges_of data threshold))%Z.
  - destruct (MeasurementEngine.pulse_widths _ _).
    + rewrite Hkey in Hf. congruence.
    + rewrite lookup_insert_ne in Hf by discriminate. rewrite Hkey in Hf. congruence.
  - rewrite Hkey in Hf. congruence.
Qed.

Lemma decode_i2c_aligned_no_transaction_witness :
  length Samples.scl_low = length Samples.sda_falling /\
  ProtocolDecoder.decode_i2c Samples.scl_low Samples.sda_falling Samples.threshold
  = Ok [] /\
  ([] : list ProtocolDecoder.i2c_transaction) = [].
Proof.
  split; [reflexivity|]. split; [reflexivity|].
  apply (decode_i2c_aligned_no_transaction Samples.scl_low Samples.sda_falling
           Samples.threshold []); reflexivity.
Defined.

(** ** More on the decoders *)

Lemma diff_astype_lookup (digital : list bool) (s : nat) (x y : bool) :
  digital !! s = Some x ->
  digital !! S s = Some y ->
  np.diff (np.astype_int digital) !! s =
  Some ((if y then 1 else 0) - (if x then 1 else 0))%Z.
Proof.
  revert s. induction digital as [|a [|b rest] IH]; intros s Hx Hy;
    [discriminate | | ].
  - simpl in Hy. discriminate.
  - change (np.diff (np.astype_int (a :: b :: rest)))
      with (((if b then 1 else 0) - (if a then 1 else 0))%Z
              :: np.diff (np.astype_int (b :: rest))).
    destruct s as [|s].
    + simplify_eq/=. reflexivity.
    + simpl. apply IH; assumption.
Qed.

(** The first index found by [np.where] is at most any index where the
    mask holds. *)
Lemma where_from_first (mask : list bool) (base : Z) (k : nat) :
  mask !! k = Some true ->
  exists s0 rest,
    np.where_from base mask = s0 :: rest /\ (base <= s0 <= base + Z.of_nat k)%Z.
Proof.
  revert base k. induction mask as [|b mask IH]; intros base k H; [discriminate|].
  destruct b.
  - exists base, (np.where_from (base + 1) mask). split; [reflexivity|lia].
  - destruct k as [|k]; [discriminate|]. simpl in H.
    destruct (IH (base + 1)%Z k H) as (s0 & rest & Heq & Hb).
    exists s0, rest. split; [exact Heq|lia].
Qed.

(** From a start index with at least two more edges after it, the stop
    scan pairs two arrays of different lengths, both longer than one:
    the element-wise [&] raises. *)
Lemma i2c_step_raises (scl : list bool) (sda_edges : list Z)
    (transactions : list ProtocolDecoder.i2c_transaction) (s : Z) :
  length scl = S (length sda_edges) ->
  (0 <= s)%Z ->
  (Z.to_nat s + 2 <= length sda_edges)%nat ->
  ProtocolDecoder.i2c_step scl sda_edges transactions s =
  Raise (ValueError "operands could not be broadcast together").
Proof.
  intros Hal Hs Hroom.
  unfold ProtocolDecoder.i2c_step, ProtocolDecoder.stop_indices, np.slice_from.
  set (a := np.eq (np.astype_int (drop (Z.to_nat s) scl)) 1%Z).
  set (b := np.eq (drop (Z.to_nat s) sda_edges) 1%Z).
  assert (Ha : length a = S (length b)).
  { unfold a, b, np.eq, np.astype_int. rewrite !length_map, !length_drop. lia. }
  assert (Hb : (2 <= length b)%nat).
  { unfold b, np.eq. rewrite length_map, length_drop. lia. }
  unfold np.and_.
  destruct (length a =? length b)%nat eqn:E; [apply Nat.eqb_eq in E; lia|].
  destruct a as [|x [|x' a']]; [simpl in Ha; lia | simpl in Ha; lia |].
  destruct b as [|y [|y' b']]; [simpl in Hb; lia | simpl in Hb; lia |].
  reflexivity.
Qed.

(** X2: on two buffers of the same length, as soon as SDA falls while
    SCL has no edge at an index with at least two samples after the
    edge, [decode_i2c] raises the broadcasting [ValueError]. *)
Theorem decode_i2c_early_start_raises (data_ch1 data_ch2 : list Q) (threshold : Q)
    (s : nat) :
  length data_ch1 = length data_ch2 ->
  (s + 3 <= length data_ch1)%nat ->
  np.gt data_ch1 threshold !! s = np.gt data_ch1 threshold !! S s ->
  np.gt data_ch2 threshold !! s = Some true ->
  np.gt data_ch2 threshold !! S s = Some false ->
  ProtocolDecoder.decode_i2c data_ch1 data_ch2 threshold =
  Raise (ValueError "operands could not be broadcast together").
Proof.
  intros Hlen Hroom Hscl Hsda1 Hsda2.
  unfold ProtocolDecoder.decode_i2c, ProtocolDecoder.start_indices.
  set (scl := np.gt data_ch1 threshold) in *.
  set (sda := np.gt data_ch2 threshold) in *.
  set (scl_edges := np.diff (np.astype_int scl)).
  set (sda_edges := np.diff (np.astype_int sda)).
  assert (Hn1 : length scl = length data_ch1) by (unfold scl, np.gt; apply length_map).
  assert (Hn2 : length sda = length data_ch2) by (unfold sda, np.gt; apply length_map).
  assert (He1 : length scl_edges = (length data_ch1 - 1)%nat).
  { unfold scl_edges, np.astype_int. rewrite length_diff, length_map. lia. }
  assert (He2 : length sda_edges = (length data_ch1 - 1)%nat).
  { unfold sda_edges, np.astype_int. rewrite length_diff, length_map. lia. }
  destruct (scl !! s) as [x|] eqn:Hx.
  2:{ apply lookup_ge_None in Hx. lia. }
  symmetry in Hscl.
  assert (Hse : scl_edges !! s = Some 0%Z).
  { unfold scl_edges. rewrite (diff_astype_lookup scl s x x Hx Hscl).
    f_equal. lia. }
  assert (Hde : sda_edges !! s = Some (-1)%Z).
  { unfold sda_edges. rewrite (diff_astype_lookup sda s true false Hsda1 Hsda2).
    reflexivity. }
  unfold np.and_.
  assert (E : (length (np.eq scl_edges 0%Z) =? length (np.eq sda_edges (-1)%Z))%nat = true).
  { apply Nat.eqb_eq. unfold np.eq. rewrite !length_map. lia. }
  rewrite E. cbn -[np.where_ np.eq].
  assert (Hmask : zip_with andb (np.eq scl_edges 0%Z) (np.eq sda_edges (-1)%Z) !! s
                  = Some true).
  { apply lookup_zip_with_Some. exists true, true. split; [reflexivity|].
    unfold np.eq. rewrite !list_lookup_fmap, Hse, Hde. split; reflexivity. }
  destruct (where_from_first _ 0%Z s Hmask) as (s0 & rest & Hstarts & Hs0).
  unfold np.where_. rewrite Hstarts. cbn [for_each].
  rewrite i2c_step_raises; [reflexivity | lia | lia | lia].
Qed.

Lemma decode_i2c_early_start_raises_witness :
  ProtocolDecoder.decode_i2c [Samples.high; Samples.high; Samples.high]
    [Samples.high; 0; 0] Samples.threshold =
  Raise (ValueError "operands could not be broadcast together").
Proof.
  apply (decode_i2c_early_start_raises [Samples.high; Samples.high; Samples.high]
           [Samples.high; 0; 0] Samples.threshold 0%nat);
    first [reflexivity | simpl; lia].
Defined.

Lemma sclk_edges_count (sclk : list Q) (threshold : Q) :
  len (ProtocolDecoder.sclk_rising_edges sclk threshold) =
  Z.of_nat (rising_edge_count (np.gt sclk threshold)).
Proof.
  unfold len, ProtocolDecoder.sclk_rising_edges, np.where_.
  rewrite rising_edges_length. reflexivity.
Qed.

(** X3: with fewer than eight rising clock edges [decode_spi] returns
    the empty list and never reads the data lines, whatever their
    lengths. *)
Theorem decode_spi_incomplete_group (mosi miso sclk cs : list Q) (threshold : Q) :
  (rising_edge_count (np.gt sclk threshold) < 8)%nat ->
  ProtocolDecoder.decode_spi mosi miso sclk cs threshold = Ok [].
Proof.
  intros H. unfold ProtocolDecoder.decode_spi.
  set (edges := ProtocolDecoder.sclk_rising_edges sclk threshold).
  assert (Hn : (len edges < 8)%Z) by (unfold edges; rewrite sclk_edges_count; lia).
  rewrite (for_each_succeeds (fun i => (0 <= i)%Z) (fun t _ => t)).
  - f_equal. generalize (py_range 0 (len edges) 8).
    intros l. induction l; [reflexivity | assumption].
  - intros t i Hi. unfold ProtocolDecoder.spi_step.
    destruct (i + 8 <=? len edges)%Z eqn:E; [|reflexivity].
    apply Z.leb_le in E. lia.
  - apply py_range_nonneg. lia.
Qed.

Lemma decode_spi_incomplete_group_witness :
  ProtocolDecoder.decode_spi [] [] [0; Samples.high; 0; Samples.high] []
    Samples.threshold = Ok [].
Proof.
  apply (decode_spi_incomplete_group [] [] [0; Samples.high; 0; Samples.high] []
           Samples.threshold).
  simpl. lia.
Defined.

Lemma spi_read_bit_short_mosi (mosi miso : list Q) (threshold : Q) (edges : list Z)
    (i j : Z) (bits : list Z * list Z) :
  (0 <= i + j < len edges)%Z ->
  (0 <= edge_at edges (i + j))%Z ->
  (len mosi <= edge_at edges (i + j))%Z ->
  ProtocolDecoder.spi_read_bit mosi miso edges i threshold bits j = Raise IndexError.
Proof.
  intros Hij Hnn Hshort. unfold ProtocolDecoder.spi_read_bit.
  rewrite (getitem_in_range edges (i + j) 0%Z Hij).
  fold (edge_at edges (i + j)).
  cbn -[ProtocolDecoder.sample_bit].
  rewrite !sample_bit_nonneg by assumption.
  destruct (nth_error mosi (Z.to_nat (edge_at edges (i + j)))) eqn:E; [|reflexivity].
  assert (Z.to_nat (edge_at edges (i + j)) < length mosi)%nat
    by (apply nth_error_Some; congruence).
  unfold len in Hshort. lia.
Qed.

(** X4: with at least eight rising clock edges and a MOSI buffer that
    ends at or before the first of them, [decode_spi] raises
    [IndexError] while reading the first bit. *)
Theorem decode_spi_short_mosi_raises (mosi miso sclk cs : list Q) (threshold : Q)
    (first : Z) (rest : list Z) :
  (8 <= rising_edge_count (np.gt sclk threshold))%nat ->
  ProtocolDecoder.sclk_rising_edges sclk threshold = first :: rest ->
  (len mosi <= first)%Z ->
  ProtocolDecoder.decode_spi mosi miso sclk cs threshold = Raise IndexError.
Proof.
  intros Hcount Hedges Hshort. unfold ProtocolDecoder.decode_spi.
  pose proof (sclk_edges_count sclk threshold) as Hn.
  pose proof (rising_edges_nonneg sclk threshold) as Hnn.
  rewrite Hedges in *.
  inversion Hnn as [|? ? [Hfirst _] _]; subst.
  assert (Hrange : exists l, py_range 0 (len (first :: rest)) 8 = 0%Z :: l).
  { unfold py_range.
    assert (Hc : (1 <= (len (first :: rest) - 0 + 8 - 1) / 8)%Z)
      by (apply Z.div_le_lower_bound; lia).
    destruct (Z.to_nat ((len (first :: rest) - 0 + 8 - 1) / 8)) as [|c] eqn:E; [lia|].
    eexists. reflexivity. }
  destruct Hrange as (l & ->). cbn [for_each].
  assert (Hstep : ProtocolDecoder.spi_step mosi miso (first :: rest) threshold [] 0
                  = Raise IndexError).
  { unfold ProtocolDecoder.spi_step.
    destruct (0 + 8 <=? len (first :: rest))%Z eqn:G; [|apply Z.leb_gt in G; lia].
    rewrite py_range_8. cbn [for_each].
    rewrite spi_read_bit_short_mosi; [reflexivity | | | ].
    - unfold len in *. simpl in *. lia.
    - exact Hfirst.
    - exact Hshort. }
  rewrite Hstep. reflexivity.
Qed.

Lemma decode_spi_short_mosi_raises_witness :
  ProtocolDecoder.decode_spi [] Samples.miso8 Samples.sclk8 [] Samples.threshold
  = Raise IndexError.
Proof.
  apply (decode_spi_short_mosi_raises [] Samples.miso8 Samples.sclk8 []
           Samples.threshold 0%Z [2; 4; 6; 8; 10; 12; 14]%Z).
  - simpl. lia.
  - reflexivity.
  - unfold len. simpl. lia.
Defined.

(** ** More on the statistics *)

Section MoreStatistics.

Import MeasurementEngine.

Variable np_sqrt : Q -> Q.

(** X5: [calculate_statistics] returns a record exactly for the empty
    buffer and for buffers of more than ten samples. *)
Theorem calculate_statistics_returns_iff (data : list Q) (threshold : Q) :
  (exists stats, calculate_statistics np_sqrt data threshold = Ok stats) <->
  (length data = 0 \/ 10 < length data)%nat.
Proof.
  split.
  - intros [stats H]. unfold calculate_statistics in H.
    destruct (len data =? 0)%Z eqn:E0.
    + apply Z.eqb_eq in E0. unfold len in E0. lia.
    + destruct (10 <? len data)%Z eqn:E10; [|discriminate].
      apply Z.ltb_lt in E10. unfold len in E10. lia.
  - intros [H|H].
    + destruct data; [|discriminate]. exists ∅. reflexivity.
    + eexists. apply calculate_statistics_long, H.
Qed.

Lemma frequency_analysis_other (data : list Q) (threshold : Q)
    (stats : gmap string Q) (key : string) :
  key <> "frequency" -> key <> "period" -> key <> "duty_cycle" ->
  frequency_analysis data threshold stats !! key = stats !! key.
Proof.
  intros H1 H2 H3. unfold frequency_analysis.
  destruct (1 <? len _)%Z; [|reflexivity].
  destruct (0 <? len (np.diff _))%Z; [|reflexivity].
  destruct (Qgtb _ 0); [|reflexivity].
  destruct (0 <? len (falling_edges_of data threshold))%Z.
  - destruct (pulse_widths _ _).
    + rewrite !lookup_insert_ne by congruence. reflexivity.
    + rewrite !lookup_insert_ne by congruence. reflexivity.
  - rewrite !lookup_insert_ne by congruence. reflexivity.
Qed.

Lemma rise_fall_times_other (data : list Q) (rising_edges : list Z)
    (stats : gmap string Q) (key : string) :
  key <> "rise_time" -> key <> "fall_time" ->
  rise_fall_times data rising_edges stats !! key = stats !! key.
Proof.
  intros H1 H2. unfold rise_fall_times.
  destruct (0 <? len rising_edges)%Z; [|reflexivity].
  destruct (rise_times_of data rising_edges); [reflexivity|].
  rewrite !lookup_insert_ne by congruence. reflexivity.
Qed.

(** A returned record of a non-empty buffer keeps every basic entry. *)
Lemma returned_basic_entry (data : list Q) (threshold : Q) (stats : gmap string Q)
    (key : string) :
  calculate_statistics np_sqrt data threshold = Ok stats ->
  data <> [] ->
  key <> "frequency" -> key <> "period" -> key <> "duty_cycle" ->
  key <> "rise_time" -> key <> "fall_time" ->
  stats !! key = basic_stats np_sqrt data !! key.
Proof.
  intros H Hne K1 K2 K3 K4 K5. unfold calculate_statistics in H.
  destruct (len data =? 0)%Z eqn:E0.
  { apply Z.eqb_eq in E0. unfold len in E0. destruct data; [congruence|discriminate]. }
  destruct (10 <? len data)%Z; [|discriminate].
  injection H as <-.
  rewrite rise_fall_times_other, frequency_analysis_other by assumption. reflexivity.
Qed.

Lemma fold_min_spec (l : list Q) (x : Q) :
  (fold_left Qminb l x = x \/ In (fold_left Qminb l x) l) /\
  fold_left Qminb l x <= x /\
  Forall (fun y => fold_left Qminb l x <= y) l.
Proof.
  revert x. induction l as [|y l IH]; intros x; simpl.
  - split; [left; reflexivity|]. split; [apply Qle_refl | constructor].
  - destruct (IH (Qminb x y)) as (Hin & Hle & Hall).
    assert (Hxy : Qminb x y <= x /\ Qminb x y <= y /\ (Qminb x y = x \/ Qminb x y = y)).
    { unfold Qminb. destruct (Qle_bool x y) eqn:E.
      - apply Qle_bool_iff in E. split; [apply Qle_refl|]. split; [exact E | left; reflexivity].
      - apply Qle_bool_false in E. split; [apply Qlt_le_weak, E|].
        split; [apply Qle_refl | right; reflexivity]. }
    destruct Hxy as (Hx & Hy & Hcase).
    split; [|split].
    + destruct Hin as [Heq|Hin]; [|right; right; exact Hin].
      rewrite Heq. destruct Hcase as [->| ->]; [left; reflexivity | right; left; reflexivity].
    + eapply Qle_trans; eassumption.
    + constructor; [eapply Qle_trans; eassumption | exact Hall].
Qed.

Lemma fold_max_spec (l : list Q) (x : Q) :
  (fold_left Qmaxb l x = x \/ In (fold_left Qmaxb l x) l) /\
  x <= fold_left Qmaxb l x /\
  Forall (fun y => y <= fold_left Qmaxb l x) l.
Proof.
  revert x. induction l as [|y l IH]; intros x; simpl.
  - split; [left; reflexivity|]. split; [apply Qle_refl | constructor].
  - destruct (IH (Qmaxb x y)) as (Hin & Hle & Hall).
    assert (Hxy : x <= Qmaxb x y /\ y <= Qmaxb x y /\ (Qmaxb x y = x \/ Qmaxb x y = y)).
    { unfold Qmaxb. destruct (Qle_bool x y) eqn:E.
      - apply Qle_bool_iff in E. split; [exact E|]. split; [apply Qle_refl | right; reflexivity].
      - apply Qle_bool_false in E. split; [apply Qle_refl|].
        split; [apply Qlt_le_weak, E | left; reflexivity]. }
    destruct Hxy as (Hx & Hy & Hcase).
    split; [|split].
    + destruct Hin as [Heq|Hin]; [|right; right; exact Hin].
      rewrite Heq. destruct Hcase as [->| ->]; [left; reflexivity | right; left; reflexivity].
    + eapply Qle_trans; eassumption.
    + constructor; [eapply Qle_trans; eassumption | exact Hall].
Qed.

(** X6: in the record of a non-empty buffer, [min] and [max] are samples
    of the buffer, every sample lies between them, and [vpp] is their
    difference. *)
Theorem statistics_extremes (data : list Q) (threshold : Q) (stats : gmap string Q) :
  calculate_statistics np_sqrt data threshold = Ok stats ->
  data <> [] ->
  exists lo hi,
    stats !! "min" = Some lo /\ stats !! "max" = Some hi /\
    stats !! "vpp" = Some (hi - lo) /\
    In lo data /\ In hi data /\
    Forall (fun x => lo <= x <= hi) data.
Proof.
  intros H Hne. exists (np.min data), (np.max data).
  rewrite !(returned_basic_entry data threshold stats) by (assumption || discriminate).
  unfold basic_stats.
  split; [rewrite !lookup_insert_ne by discriminate; apply lookup_insert_eq|].
  split; [rewrite !lookup_insert_ne by discriminate; apply lookup_insert_eq|].
  split; [rewrite !lookup_insert_ne by discriminate; apply lookup_insert_eq|].
  destruct data as [|x rest]; [congruence|]. unfold np.min, np.max.
  destruct (fold_min_spec rest x) as (Hmin_in & Hmin_x & Hmin_all).
  destruct (fold_max_spec rest x) as (Hmax_in & Hmax_x & Hmax_all).
  split; [destruct Hmin_in as [->|Hin]; [left; reflexivity | right; exact Hin]|].
  split; [destruct Hmax_in as [->|Hin]; [left; reflexivity | right; exact Hin]|].
  constructor; [split; assumption|].
  rewrite List.Forall_forall in *. intros y Hy. split; auto.
Qed.

End MoreStatistics.

Lemma statistics_extremes_witness :
  exists stats lo hi,
    MeasurementEngine.calculate_statistics Samples.sqrt6 Samples.sclk17 Samples.threshold
    = Ok stats /\
    stats !! "min" = Some lo /\ stats !! "max" = Some hi /\
    stats !! "vpp" = Some (hi - lo) /\
    In lo Samples.sclk17 /\ In hi Samples.sclk17 /\
    Forall (fun x => lo <= x <= hi) Samples.sclk17.
Proof.
  eexists.
  assert (H : MeasurementEngine.calculate_statistics Samples.sqrt6 Samples.sclk17
                Samples.threshold = Ok _)
    by (apply calculate_statistics_long; simpl; lia).
  destruct (statistics_extremes Samples.sqrt6 Samples.sclk17 Samples.threshold _ H)
    as (lo & hi & Hrest); [discriminate|].
  exists lo, hi. split; [exact H | exact Hrest].
Defined.

(** Two rising edges of a thresholded signal are at least two samples
    apart: the low sample before the second one lies between them. *)
Lemma rising_edges_head (digital : list bool) (base x : Z) (rest : list Z) :
  np.where_from base (np.eq (np.diff (np.astype_int digital)) 1%Z) = x :: rest ->
  (base <= x)%Z /\ (forall tl, digital = true :: tl -> base + 1 <= x)%Z.
Proof.
  intros H.
  assert (Hin : In x (np.where_from base (np.eq (np.diff (np.astype_int digital)) 1%Z)))
    by (rewrite H; left; reflexivity).
  pose proof (where_from_bounds _ _ _ Hin) as [Hlo _].
  split; [exact Hlo|]. intros tl ->.
  destruct tl as [|b tl]; [discriminate|].
  change (np.diff (np.astype_int (true :: b :: tl)))
    with (((if b then 1 else 0) - 1)%Z :: np.diff (np.astype_int (b :: tl))) in H.
  assert (Hflag : ((if b then 1 else 0) - 1 =? 1)%Z = false) by (destruct b; reflexivity).
  assert (Hunfold :
            np.where_from base
              (np.eq (((if b then 1 else 0) - 1)%Z
                        :: np.diff (np.astype_int (b :: tl))) 1%Z)
            = if ((if b then 1 else 0) - 1 =? 1)%Z
              then base :: np.where_from (base + 1)
                             (np.eq (np.diff (np.astype_int (b :: tl))) 1%Z)
              else np.where_from (base + 1)
                     (np.eq (np.diff (np.astype_int (b :: tl))) 1%Z)) by reflexivity.
  rewrite Hunfold, Hflag in H.
  assert (Hin' : In x (np.where_from (base + 1)
                         (np.eq (np.diff (np.astype_int (b :: tl))) 1%Z)))
    by (rewrite H; left; reflexivity).
  apply where_from_bounds in Hin'. lia.
Qed.

Lemma rising_edges_spacing (digital : list bool) (base : Z) :
  Forall (fun p => (2 <= p)%Z)
         (np.diff (np.where_from base (np.eq (np.diff (np.astype_int digital)) 1%Z))).
Proof.
  revert base. induction digital as [|a [|b rest] IH]; intros base; try constructor.
  change (np.diff (np.astype_int (a :: b :: rest)))
    with (((if b then 1 else 0) - (if a then 1 else 0))%Z
            :: np.diff (np.astype_int (b :: rest))).
  specialize (IH (base + 1)%Z).
  set (tail := np.where_from (base + 1)
                 (np.eq (np.diff (np.astype_int (b :: rest))) 1%Z)) in *.
  assert (Hunfold :
            np.where_from base
              (np.eq (((if b then 1 else 0) - (if a then 1 else 0))%Z
                        :: np.diff (np.astype_int (b :: rest))) 1%Z)
            = if (((if b then 1 else 0) - (if a then 1 else 0)) =? 1)%Z
              then base :: tail else tail) by reflexivity.
  rewrite Hunfold.
  destruct ((((if b then 1 else 0) - (if a then 1 else 0)) =? 1)%Z) eqn:E; [|exact IH].
  assert (Hb : b = true) by (destruct a, b; simpl in E; congruence).
  subst b.
  destruct tail as [|x tl] eqn:Htail; [constructor|].
  change (np.diff (base :: x :: tl)) with ((x - base)%Z :: np.diff (x :: tl)).
  constructor; [|exact IH].
  destruct (rising_edges_head (true :: rest) (base + 1) x tl Htail) as [_ Hgap].
  specialize (Hgap rest eq_refl). lia.
Qed.

Lemma Zsum_lower (l : list Z) (c : Z) :
  Forall (fun p => (c <= p)%Z) l -> (c * Z.of_nat (length l) <= Zsum l)%Z.
Proof.
  induction 1 as [|p l Hp _ IH]; simpl; [lia|].
  unfold Zsum in *. simpl. lia.
Qed.

Lemma mean_int_lower (l : list Z) (c : Z) :
  l <> [] ->
  Forall (fun p => (c <= p)%Z) l ->
  inject_Z c <= np.mean_int l.
Proof.
  intros Hne Hall. unfold np.mean_int. rewrite Qred_correct.
  assert (Hlen : (0 < Z.of_nat (length l))%Z) by (destruct l; [congruence | simpl; lia]).
  apply Qle_shift_div_l.
  - change 0 with (inject_Z 0). rewrite <- Zlt_Qlt. exact Hlen.
  - rewrite <- inject_Z_mult, <- Zle_Qle. apply Zsum_lower, Hall.
Qed.

Section FrequencyBound.

Import MeasurementEngine.

Variable np_sqrt : Q -> Q.

(** X7: whenever a record carries a frequency, it carries the period
    too, the frequency is its reciprocal, the period is at least two
    samples, and so the frequency lies in (0, 1/2]. *)
Theorem frequency_at_most_half (data : list Q) (threshold : Q)
    (stats : gmap string Q) (f : Q) :
  calculate_statistics np_sqrt data threshold = Ok stats ->
  stats !! "frequency" = Some f ->
  exists period,
    stats !! "period" = Some period /\
    f = 1 / period /\
    2 <= period /\
    0 < f /\ f <= 1 # 2.
Proof.
  intros Hstats Hf.
  set (periods := np.diff (rising_edges_of data threshold)).
  exists (np.mean_int periods).
  assert (Hdata : data <> []).
  { intros ->. simpl in Hstats. injection Hstats as <-.
    rewrite lookup_empty in Hf. discriminate. }
  unfold calculate_statistics in Hstats.
  destruct (len data =? 0)%Z eqn:E0.
  { apply Z.eqb_eq in E0. unfold len in E0. destruct data; [congruence|discriminate]. }
  destruct (10 <? len data)%Z; [|discriminate].
  injection Hstats as <-.
  rewrite rise_fall_times_keeps_frequency in Hf.
  rewrite rise_fall_times_other by discriminate.
  unfold frequency_analysis in *. fold periods in Hf |- *.
  destruct (1 <? len (rising_edges_of data threshold))%Z;
    [|rewrite basic_stats_no_frequency in Hf; discriminate].
  destruct (0 <? len periods)%Z eqn:Elen;
    [|rewrite basic_stats_no_frequency in Hf; discriminate].
  destruct (Qgtb (np.mean_int periods) 0);
    [|rewrite basic_stats_no_frequency in Hf; discriminate].
  assert (Hkeys : forall m : gmap string Q,
             let m' := <["period" := np.mean_int periods]>
                         (<["frequency" := 1 / np.mean_int periods]> m) in
             m' !! "frequency" = Some (1 / np.mean_int periods) /\
             m' !! "period" = Some (np.mean_int periods)).
  { intros m. split.
    - rewrite lookup_insert_ne by discriminate. apply lookup_insert_eq.
    - apply lookup_insert_eq. }
  assert (Hboth : f = 1 / np.mean_int periods /\
                  (if (0 <? len (falling_edges_of data threshold))%Z
                   then match pulse_widths (rising_edges_of data threshold)
                                (falling_edges_of data threshold) with
                        | [] => <["period" := np.mean_int periods]>
                                  (<["frequency" := 1 / np.mean_int periods]>
                                     (basic_stats np_sqrt data))
                        | _ :: _ =>
                            <["duty_cycle" :=
                                np.mean_int (pulse_widths (rising_edges_of data threshold)
                                               (falling_edges_of data threshold))
                                / np.mean_int periods * 100]>
                              (<["period" := np.mean_int periods]>
                                 (<["frequency" := 1 / np.mean_int periods]>
                                    (basic_stats np_sqrt data)))
                        end
                   else <["period" := np.mean_int periods]>
                          (<["frequency" := 1 / np.mean_int periods]>
                             (basic_stats np_sqrt data))) !! "period"
                  = Some (np.mean_int periods)).
  { destruct (Hkeys (basic_stats np_sqrt data)) as [Hfreq Hper].
    destruct (0 <? len (falling_edges_of data threshold))%Z.
    - destruct (pulse_widths _ _) eqn:Hpw.
      + rewrite Hfreq in Hf. split; [congruence | exact Hper].
      + rewrite lookup_insert_ne in Hf by discriminate. rewrite Hfreq in Hf.
        split; [congruence|]. rewrite lookup_insert_ne by discriminate. exact Hper.
    - rewrite Hfreq in Hf. split; [congruence | exact Hper]. }
  destruct Hboth as [Hfeq Hperiod].
  assert (Hge : 2 <= np.mean_int periods).
  { change 2 with (inject_Z 2). apply mean_int_lower.
    - intros Hnil. rewrite Hnil in Elen. discriminate.
    - apply rising_edges_spacing. }
  split; [exact Hperiod|]. split; [exact Hfeq|]. split; [exact Hge|].
  subst f. split.
  - apply Qlt_shift_div_l; lra.
  - apply Qle_shift_div_r; lra.
Qed.

End FrequencyBound.

Lemma frequency_at_most_half_witness :
  exists stats f,
    MeasurementEngine.calculate_statistics Samples.sqrt6 Samples.sclk17 Samples.threshold
    = Ok stats /\
    stats !! "frequency" = Some f /\ 0 < f /\ f <= 1 # 2.
Proof.
  pose (stats := MeasurementEngine.rise_fall_times Samples.sclk17
                   (MeasurementEngine.rising_edges_of Samples.sclk17 Samples.threshold)
                   (MeasurementEngine.frequency_analysis Samples.sclk17 Samples.threshold
                      (MeasurementEngine.basic_stats Samples.sqrt6 Samples.sclk17))).
  assert (H : MeasurementEngine.calculate_statistics Samples.sqrt6 Samples.sclk17
                Samples.threshold = Ok stats)
    by (apply calculate_statistics_long; simpl; lia).
  assert (Hf : stats !! "frequency" = Some (1 # 2)) by (vm_compute; reflexivity).
  exists stats, (1 # 2). split; [exact H|]. split; [exact Hf|].
  destruct (frequency_at_most_half Samples.sqrt6 Samples.sclk17 Samples.threshold
              stats (1 # 2) H Hf) as (period & _ & _ & _ & Hpos & Hhalf).
  split; assumption.
Defined.

Lemma rise_times_all_ten (data : list Q) (rising_edges : list Z) :
  Forall (fun r => r = 10%Z) (MeasurementEngine.rise_times_of data rising_edges).
Proof.
  unfold MeasurementEngine.rise_times_of.
  induction rising_edges as [|e rest IH]; simpl; [constructor|].
  destruct ((e - 10 >=? 0)%Z && (e + 10 <? len data)%Z); simpl; [constructor|]; auto.
Qed.

Lemma mean_int_constant (l : list Z) (c : Z) :
  l <> [] ->
  Forall (fun r => r = c) l ->
  np.mean_int l = Qred (inject_Z c).
Proof.
  intros Hne Hall. unfold np.mean_int. apply Qred_complete.
  assert (Hsum : Zsum l = (c * Z.of_nat (length l))%Z).
  { induction Hall as [|r l -> _ IH]; [simpl; lia|].
    unfold Zsum in *. simpl fold_right. destruct l as [|r' l'].
    - simpl. lia.
    - rewrite IH by discriminate. simpl length. lia. }
  rewrite Hsum. rewrite inject_Z_mult.
  assert (Hlen : ~ inject_Z (Z.of_nat (length l)) == 0).
  { destruct l; [congruence|]. unfold Qeq. simpl. lia. }
  field. exact Hlen.
Qed.

Section RiseFall.

Import MeasurementEngine.

Variable np_sqrt : Q -> Q.

(** X8: whenever a record carries a rise time, the rise time is exactly
    10 and the fall time exactly 9, whatever the signal: the block
    counts qualifying edges instead of measuring them. *)
Theorem rise_time_is_constant (data : list Q) (threshold : Q)
    (stats : gmap string Q) (r : Q) :
  calculate_statistics np_sqrt data threshold = Ok stats ->
  stats !! "rise_time" = Some r ->
  r = 10 /\ exists fall, stats !! "fall_time" = Some fall /\ fall == 9.
Proof.
  intros Hstats Hr.
  assert (Hdata : data <> []).
  { intros ->. simpl in Hstats. injection Hstats as <-.
    rewrite lookup_empty in Hr. discriminate. }
  unfold calculate_statistics in Hstats.
  destruct (len data =? 0)%Z eqn:E0.
  { apply Z.eqb_eq in E0. unfold len in E0. destruct data; [congruence|discriminate]. }
  destruct (10 <? len data)%Z; [|discriminate].
  injection Hstats as <-.
  assert (Hnone : frequency_analysis data threshold (basic_stats np_sqrt data)
                  !! "rise_time" = None).
  { rewrite frequency_analysis_other by discriminate.
    unfold basic_stats. rewrite !lookup_insert_ne by discriminate. apply lookup_empty. }
  unfold rise_fall_times in *.
  destruct (0 <? len (rising_edges_of data threshold))%Z; [|congruence].
  pose proof (rise_times_all_ten data (rising_edges_of data threshold)) as Hall.
  destruct (rise_times_of data (rising_edges_of data threshold)) as [|t ts] eqn:Et;
    [congruence|].
  assert (Hmean : np.mean_int (t :: ts) = 10).
  { rewrite (mean_int_constant (t :: ts) 10) by (assumption || discriminate). reflexivity. }
  rewrite Hmean in *.
  rewrite lookup_insert_ne in Hr by discriminate. rewrite lookup_insert_eq in Hr.
  split; [congruence|].
  exists (10 * (9 # 10)). split; [apply lookup_insert_eq | reflexivity].
Qed.

End RiseFall.

Lemma rise_time_is_constant_witness :
  exists stats r,
    MeasurementEngine.calculate_statistics Samples.sqrt6 Samples.sclk17 Samples.threshold
    = Ok stats /\
    stats !! "rise_time" = Some r /\ r = 10.
Proof.
  pose (stats := MeasurementEngine.rise_fall_times Samples.sclk17
                   (MeasurementEngine.rising_edges_of Samples.sclk17 Samples.threshold)
                   (MeasurementEngine.frequency_analysis Samples.sclk17 Samples.threshold
                      (MeasurementEngine.basic_stats Samples.sqrt6 Samples.sclk17))).
  assert (H : MeasurementEngine.calculate_statistics Samples.sqrt6 Samples.sclk17
                Samples.threshold = Ok stats)
    by (apply calculate_statistics_long; simpl; lia).
  assert (Hr : stats !! "rise_time" = Some 10) by (vm_compute; reflexivity).
  exists stats, 10. split; [exact H|]. split; [exact Hr|].
  apply (rise_time_is_constant Samples.sqrt6 Samples.sclk17 Samples.threshold stats 10 H Hr).
Defined.

(** ** The capture state machine *)

Section StateMachine.

Import LaptopDebugAnalyzer Handlers.

Lemma timer_stop_commute (ts : list bool) (a b : nat) :
  timer_stop a (timer_stop b ts) = timer_stop b (timer_stop a ts).
Proof.
  unfold timer_stop. destruct (decide (a = b)) as [->|Hne]; [reflexivity|].
  apply list_insert_insert_ne, Hne.
Qed.

Lemma timer_stop_twice (ts : list bool) (a : nat) :
  timer_stop a (timer_stop a ts) = timer_stop a ts.
Proof. unfold timer_stop. apply list_insert_insert_eq. Qed.

(** X9: [stop_capture] is idempotent: a second stop changes nothing. *)
Theorem stop_capture_idempotent (st : analyzer) :
  stop_capture (stop_capture st) = stop_capture st.
Proof.
  unfold stop_capture. simpl.
  destruct (capture_timer st) as [c|], (auto_save_timer st) as [a|]; simpl;
    f_equal.
  - rewrite (timer_stop_commute _ c a), !timer_stop_twice. reflexivity.
  - apply timer_stop_twice.
  - apply timer_stop_twice.
Qed.

Lemma validate_without_channels (ui : ui_inputs) :
  Forall (fun b : bool => b = false) (channel_checked ui) ->
  validate_capture_settings ui = false.
Proof.
  intros H. unfold validate_capture_settings.
  assert (Hf : filter (fun b : bool => b = true) (channel_checked ui) = []).
  { induction H as [|b l -> _ IH]; [reflexivity|].
    rewrite filter_cons_False by discriminate. exact IH. }
  rewrite Hf. reflexivity.
Qed.

(** X11: with no channel checked, [start_capture], [single_capture],
    the F5 key, and the Space key while idle leave the analyzer exactly
    as it was. *)
Theorem start_capture_without_channels (ui : ui_inputs) (st : analyzer) :
  Forall (fun b : bool => b = false) (channel_checked ui) ->
  start_capture ui st = st /\
  keyPressEvent ui Key_F5 st = st /\
  single_capture ui st = st /\
  (is_capturing st = false -> keyPressEvent ui Key_Space st = st).
Proof.
  intros H. apply validate_without_channels in H.
  assert (Hs : start_capture ui st = st) by (unfold start_capture; rewrite H; reflexivity).
  split; [exact Hs|]. split; [exact Hs|]. split.
  - unfold single_capture. destruct (is_capturing st); [reflexivity | exact Hs].
  - intros Hidle. simpl. rewrite Hidle. exact Hs.
Qed.

Lemma consistent_by_fields (st st' : analyzer) :
  timer_fields st' = timer_fields st -> consistent st -> consistent st'.
Proof.
  unfold timer_fields, consistent, timers_bound, tick_source_active.
  intros Heq. injection Heq as -> -> -> ->. tauto.
Qed.

Lemma release_timer_length (old : option nat) (ts : list bool) :
  length (release_timer old ts) = length ts.
Proof.
  destruct old; simpl; [unfold timer_stop; apply length_insert | reflexivity].
Qed.

Lemma start_capture_consistent (ui : ui_inputs) (st : analyzer) :
  consistent st -> consistent (start_capture ui st).
Proof.
  intros [[Hc Ha] Hflag]. unfold start_capture.
  destruct (validate_capture_settings ui); simpl; [|split; [split|]; assumption].
  set (ts0 := release_timer (capture_timer st) (timers st)).
  assert (Hlen0 : length ts0 = length (timers st)) by apply release_timer_length.
  destruct (config_auto_save ui).
  - set (ts1 := release_timer (auto_save_timer st) (ts0 ++ [true])).
    assert (Hlen1 : length ts1 = S (length ts0)).
    { unfold ts1. rewrite release_timer_length, length_app. simpl. lia. }
    unfold consistent, timers_bound, tick_source_active. simpl.
    fold ts0. fold ts1. rewrite length_app. simpl.
    split; [split|].
    + intros t Ht. injection Ht as <-. lia.
    + intros t Ht. injection Ht as <-. lia.
    + rewrite lookup_app_l by lia. unfold ts1.
      destruct (auto_save_timer st) as [a|] eqn:Ea; simpl.
      * specialize (Ha a eq_refl). unfold timer_stop.
        rewrite list_lookup_insert_ne by lia.
        rewrite lookup_app_r by lia. rewrite Nat.sub_diag. reflexivity.
      * rewrite lookup_app_r by lia. rewrite Nat.sub_diag. reflexivity.
  - unfold consistent, timers_bound, tick_source_active. simpl.
    fold ts0. rewrite length_app. simpl.
    split; [split|].
    + intros t Ht. injection Ht as <-. lia.
    + intros t Ht. specialize (Ha t Ht). lia.
    + rewrite lookup_app_r by lia. rewrite Nat.sub_diag. reflexivity.
Qed.

Lemma stop_capture_consistent (st : analyzer) :
  consistent st -> consistent (stop_capture st).
Proof.
  intros [[Hc Ha] _]. split.
  - assert (Hlen : length (timers (stop_capture st)) = length (timers st)).
    { unfold stop_capture. simpl.
      destruct (capture_timer st), (auto_save_timer st); unfold timer_stop;
        rewrite ?length_insert; reflexivity. }
    split; intros t Ht; rewrite Hlen; [apply Hc | apply Ha]; exact Ht.
  - destruct (stop_capture_is_idle st) as [-> ->]. reflexivity.
Qed.

Variable np_hanning_at : nat -> nat -> Q.
Variable np_fft_bin : list Q -> nat -> Q * Q.
Variable np_abs : Q * Q -> Q.
Variable np_log10 : Q -> Q.

Lemma update_cursor_measurements_fields (st : analyzer) :
  timer_fields (update_cursor_measurements st) = timer_fields st.
Proof.
  unfold update_cursor_measurements. destruct (cursor_measurements st); reflexivity.
Qed.

Lemma update_fft_fields (st : analyzer) :
  timer_fields (update_fft np_hanning_at np_fft_bin np_abs np_log10 st) = timer_fields st.
Proof.
  unfold update_fft.
  destruct (fft_measurements np_hanning_at np_fft_bin np_abs np_log10 st); reflexivity.
Qed.

Lemma update_capture_fields (ui : ui_inputs) (channel_data : list (nat * capture))
    (st : analyzer) :
  timer_fields (update_capture np_hanning_at np_fft_bin np_abs np_log10 ui channel_data st)
  = timer_fields st.
Proof.
  unfold update_capture. destruct (negb (is_capturing st)); [reflexivity|].
  destruct (current_tab ui =? 4)%Z.
  - rewrite update_fft_fields, update_cursor_measurements_fields. reflexivity.
  - rewrite update_cursor_measurements_fields. reflexivity.
Qed.

(** X10: in every state the window can reach, the timer attributes are
    valid and the capturing flag is set exactly when the bound tick
    source is active: no handler leaves a running timer behind an idle
    flag, or a raised flag over a stopped timer. *)
Theorem reachable_consistent (st : analyzer) :
  reachable np_hanning_at np_fft_bin np_abs np_log10 st -> consistent st.
Proof.
  induction 1 as [|ui k st _ IH|ui st _ IH|st _ IH|ui st _ IH|ui cd st _ IH
                  |st _ IH|st _ IH|st x1 x2 _ IH|reply st _ IH|ch en st _ IH].
  - split; [split; intros t Ht; discriminate | reflexivity].
  - destruct k; simpl.
    + apply start_capture_consistent, IH.
    + apply stop_capture_consistent, IH.
    + unfold single_capture. destruct (is_capturing st);
        [exact IH | apply start_capture_consistent, IH].
    + destruct (is_capturing st);
        [apply stop_capture_consistent | apply start_capture_consistent]; exact IH.
    + exact IH.
  - apply start_capture_consistent, IH.
  - apply stop_capture_consistent, IH.
  - unfold single_capture. destruct (is_capturing st);
      [exact IH | apply start_capture_consistent, IH].
  - eapply consistent_by_fields; [apply update_capture_fields | exact IH].
  - eapply consistent_by_fields; [apply update_fft_fields | exact IH].
  - eapply consistent_by_fields; [apply update_cursor_measurements_fields | exact IH].
  - eapply consistent_by_fields; [reflexivity | exact IH].
  - unfold new_session. destruct reply; [|exact IH].
    eapply consistent_by_fields; [reflexivity | exact IH].
  - unfold toggle_channel_window.
    destruct (negb en); [|eapply consistent_by_fields; [reflexivity | exact IH]].
    destruct (capture_data st !! ch);
      (eapply consistent_by_fields; [reflexivity | exact IH]).
Qed.

End StateMachine.

Lemma running_reachable :
  Handlers.reachable Samples.flat_window Samples.sample_bins Samples.norm1
    Samples.linear_log Samples.running.
Proof.
  unfold Samples.running, Samples.tick.
  apply Handlers.reach_tick, Handlers.reach_start, Handlers.reach_initial.
Qed.

Lemma reachable_consistent_witness : Handlers.consistent Samples.running.
Proof.
  apply (reachable_consistent Samples.flat_window Samples.sample_bins Samples.norm1
           Samples.linear_log Samples.running).
  exact running_reachable.
Defined.

Lemma start_capture_without_channels_witness :
  LaptopDebugAnalyzer.start_capture Samples.ui_no_channels LaptopDebugAnalyzer.initial
  = LaptopDebugAnalyzer.initial.
Proof.
  destruct (start_capture_without_channels Samples.ui_no_channels
              LaptopDebugAnalyzer.initial) as [H _]; [|exact H].
  simpl. repeat (constructor; try reflexivity).
Defined.

Lemma initial_consistent : Handlers.consistent LaptopDebugAnalyzer.initial.
Proof. split; [split; intros t Ht; discriminate | reflexivity]. Qed.

(** X12: from a consistent state, a stop followed by a start with
    valid settings gives a fresh run: the flag is raised, the
    tick source is active, every capture buffer is gone, and the cursors
    are back at 0 and 1 ms. *)
Theorem start_capture_fresh_run (ui : LaptopDebugAnalyzer.ui_inputs)
    (st : LaptopDebugAnalyzer.analyzer) :
  Handlers.consistent st ->
  LaptopDebugAnalyzer.validate_capture_settings ui = true ->
  let st' := LaptopDebugAnalyzer.start_capture ui (LaptopDebugAnalyzer.stop_capture st) in
  LaptopDebugAnalyzer.is_capturing st' = true /\
  LaptopDebugAnalyzer.tick_source_active st' = true /\
  LaptopDebugAnalyzer.capture_data st' = ∅ /\
  LaptopDebugAnalyzer.cursor_v1 st' = 0 /\
  LaptopDebugAnalyzer.cursor_v2 st' = 1 # 1000.
Proof.
  intros Hcons Hvalid st'.
  assert (Hc : Handlers.consistent st')
    by (apply start_capture_consistent, stop_capture_consistent, Hcons).
  destruct (start_capture_clears ui (LaptopDebugAnalyzer.stop_capture st) Hvalid)
    as [Hdata Hflag].
  fold st' in Hdata, Hflag.
  split; [exact Hflag|]. split; [destruct Hc as [_ <-]; exact Hflag|].
  split; [exact Hdata|].
  unfold st', LaptopDebugAnalyzer.start_capture. rewrite Hvalid. simpl.
  destruct (LaptopDebugAnalyzer.config_auto_save ui); split; reflexivity.
Qed.

Lemma start_capture_fresh_run_witness :
  LaptopDebugAnalyzer.capture_data
    (LaptopDebugAnalyzer.start_capture Samples.ui
       (LaptopDebugAnalyzer.stop_capture LaptopDebugAnalyzer.initial)) = ∅.
Proof.
  apply (start_capture_fresh_run Samples.ui LaptopDebugAnalyzer.initial).
  - exact initial_consistent.
  - reflexivity.
Defined.

Lemma store_batch_unchecked (ui : LaptopDebugAnalyzer.ui_inputs)
    (channel_data : list (nat * LaptopDebugAnalyzer.capture))
    (captured : gmap nat LaptopDebugAnalyzer.capture) (ch : nat) :
  LaptopDebugAnalyzer.channel_checked ui !! ch <> Some true ->
  LaptopDebugAnalyzer.store_batch ui channel_data captured !! ch = captured !! ch.
Proof.
  intros Hun. unfold LaptopDebugAnalyzer.store_batch. revert captured.
  induction channel_data as [|[ch' d] rest IH]; intros captured; simpl; [reflexivity|].
  rewrite IH.
  destruct (ch' <? length (LaptopDebugAnalyzer.channel_checked ui))%nat; [|reflexivity].
  destruct (LaptopDebugAnalyzer.channel_checked ui !! ch') as [[|]|] eqn:E;
    simpl; try reflexivity.
  apply lookup_insert_ne. intros ->. congruence.
Qed.

(** X13: a tick never touches the buffer of a channel whose box is
    unchecked, whatever the batch contains: the channel keeps the
    samples of the last tick in which it was checked. *)
Theorem update_capture_unchecked_channel
    (np_hanning_at : nat -> nat -> Q) (np_fft_bin : list Q -> nat -> Q * Q)
    (np_abs : Q * Q -> Q) (np_log10 : Q -> Q)
    (ui : LaptopDebugAnalyzer.ui_inputs)
    (channel_data : list (nat * LaptopDebugAnalyzer.capture))
    (st : LaptopDebugAnalyzer.analyzer) (ch : nat) :
  LaptopDebugAnalyzer.channel_checked ui !! ch <> Some true ->
  LaptopDebugAnalyzer.capture_data
    (LaptopDebugAnalyzer.update_capture np_hanning_at np_fft_bin np_abs np_log10
       ui channel_data st) !! ch
  = LaptopDebugAnalyzer.capture_data st !! ch.
Proof.
  intros Hun. destruct (LaptopDebugAnalyzer.is_capturing st) eqn:E.
  - rewrite update_capture_capture_data by exact E.
    apply store_batch_unchecked, Hun.
  - unfold LaptopDebugAnalyzer.update_capture. rewrite E. reflexivity.
Qed.

Lemma update_capture_unchecked_channel_witness :
  LaptopDebugAnalyzer.capture_data
    (LaptopDebugAnalyzer.update_capture Samples.flat_window Samples.sample_bins
       Samples.norm1 Samples.linear_log Samples.ui_no_channels
       [(0%nat, Samples.clock_capture)] Samples.running) !! 0%nat
  = LaptopDebugAnalyzer.capture_data Samples.running !! 0%nat.
Proof.
  apply (update_capture_unchecked_channel Samples.flat_window Samples.sample_bins
           Samples.norm1 Samples.linear_log Samples.ui_no_channels
           [(0%nat, Samples.clock_capture)] Samples.running 0%nat).
  simpl. discriminate.
Defined.

(** ** More on the cursors *)




Section MoreCursors.

Import LaptopDebugAnalyzer.


End MoreCursors.



Lemma update_cursor_measurements_empty_witness :
  let st := LaptopDebugAnalyzer.with_capture_data LaptopDebugAnalyzer.initial
              {[ 0%nat := {| LaptopDebugAnalyzer.cap_time := [];
                             LaptopDebugAnalyzer.cap_data := [];
                             LaptopDebugAnalyzer.cap_timestamp := 0 |} ]} in
  LaptopDebugAnalyzer.update_cursor_measurements st = st.
Proof.
  intros st.
  apply (update_cursor_measurements_empty st
           {| LaptopDebugAnalyzer.cap_time := [];
              LaptopDebugAnalyzer.cap_data := [];
              LaptopDebugAnalyzer.cap_timestamp := 0 |}); reflexivity.
Defined.

Lemma cursor_measurements_same_sample_witness :
  exists dt dv,
    LaptopDebugAnalyzer.delta_time
      (LaptopDebugAnalyzer.cursor_labels
         (LaptopDebugAnalyzer.update_cursor_measurements Samples.cursors_together))
    = Some dt /\
    dt == 0 /\
    LaptopDebugAnalyzer.delta_voltage
      (LaptopDebugAnalyzer.cursor_labels
         (LaptopDebugAnalyzer.update_cursor_measurements Samples.cursors_together))
    = Some dv /\
    dv == 0.
Proof.
  destruct (cursor_measurements_same_sample Samples.cursors_together
              Samples.three_samples 0%nat)
    as (dt & dv & H1 & H2 & H3 & H4 & _);
    [reflexivity | reflexivity | reflexivity | simpl; lia | simpl; lia |].
  exists dt, dv. repeat split; assumption.
Defined.

(** ** More on the spectrum *)

Section MoreSpectrum.

Import LaptopDebugAnalyzer.

Variable np_hanning_at : nat -> nat -> Q.
Variable np_fft_bin : list Q -> nat -> Q * Q.
Variable np_abs : Q * Q -> Q.
Variable np_log10 : Q -> Q.

Local Abbreviation compute_spectrum :=
  (compute_spectrum np_hanning_at np_fft_bin np_abs np_log10).
Local Abbreviation update_fft :=
  (update_fft np_hanning_at np_fft_bin np_abs np_log10).

(** The readout of a buffer with more than ten bins, bin by bin. *)
Lemma fundamental_readout (st : analyzer) (cap : capture) :
  capture_data st !! 0%nat = Some cap ->
  (10 < length (cap_data cap) / 2)%nat ->
  exists sp idx,
    compute_spectrum (cap_data cap) = Ok sp /\
    length (fft_magnitude sp) = (length (cap_data cap) / 2)%nat /\
    (10 <= idx < length (fft_magnitude sp))%nat /\
    (forall j, (10 <= j < length (fft_magnitude sp))%nat ->
               nth j (fft_magnitude sp) 0 <= nth idx (fft_magnitude sp) 0) /\
    nth idx (frequencies sp) 0 =
      inject_Z (Z.of_nat idx)
      / ((1 / 24000000) * inject_Z (Z.of_nat (length (cap_data cap)))) /\
    freq_values (update_fft st) =
      {| fundamental_khz := Some (nth idx (frequencies sp) 0 / 1000);
         fundamental_db :=
           Some (20 * np_log10 (nth idx (fft_magnitude sp) 0 + (1 # 10000000000))) |}.
Proof.
  intros Hcap Hbins.
  destruct (compute_spectrum_bins np_hanning_at np_fft_bin np_abs np_log10
              (cap_data cap)) as (sp & Hsp & Hlen & Hfreq & Hdb).
  { intros Hnil. rewrite Hnil in Hbins. simpl in Hbins. lia. }
  destruct (argmax_max (drop 10 (fft_magnitude sp))) as (rel & Hrel & Hrlt & Hrmax).
  { intros Hnil. apply (f_equal length) in Hnil.
    rewrite length_drop in Hnil. simpl in Hnil. lia. }
  rewrite length_drop in Hrlt, Hrmax.
  exists sp, (rel + 10)%nat.
  assert (Hidx : (rel + 10 < length (fft_magnitude sp))%nat) by lia.
  split; [exact Hsp|]. split; [exact Hlen|]. split; [lia|]. split.
  - intros j Hj. specialize (Hrmax (j - 10)%nat ltac:(lia)).
    rewrite !nth_skipn in Hrmax.
    replace (10 + (j - 10))%nat with j in Hrmax by lia.
    replace (10 + rel)%nat with (rel + 10)%nat in Hrmax by lia. exact Hrmax.
  - split.
    + rewrite Hfreq. apply fftfreq_bin. lia.
    + unfold LaptopDebugAnalyzer.update_fft, LaptopDebugAnalyzer.fft_measurements.
      rewrite Hcap, Hsp. cbn -[np.getitem np.argmax Nat.ltb Qmult Qdiv Qplus].
      assert (Hgt : (10 <? length (fft_magnitude sp))%nat = true)
        by (apply Nat.ltb_lt; lia).
      rewrite Hgt, Hrel. cbn -[np.getitem np.argmax Nat.ltb Qmult Qdiv Qplus].
      assert (Hflen : length (frequencies sp) = (length (cap_data cap) / 2)%nat).
      { rewrite Hfreq, length_take. unfold np_fftfreq. rewrite length_map, length_seq.
        apply Nat.min_l. apply Nat.Div0.div_le_upper_bound. lia. }
      rewrite (getitem_in_range (frequencies sp) _ 0) by (unfold len; lia).
      cbn -[np.getitem np.argmax Nat.ltb Qmult Qdiv Qplus].
      rewrite (getitem_in_range (fft_db sp) _
                 (20 * np_log10 (0 + (1 # 10000000000))))
        by (unfold len; rewrite Hdb, length_map; lia).
      cbn -[np.getitem np.argmax Nat.ltb Qmult Qdiv Qplus].
      rewrite Nat2Z.id. rewrite Hdb.
      rewrite (map_nth (fun x => 20 * np_log10 (x + (1 # 10000000000)))).
      reflexivity.
Qed.

(** X17: with channel 0 absent, with an empty buffer, or with a buffer
    of fewer than 22 samples (at most ten magnitude bins), [update_fft]
    leaves the analyzer, and with it the fundamental readout, exactly as
    it was. *)
Theorem update_fft_short_buffer (st : analyzer) :
  (forall cap, capture_data st !! 0%nat = Some cap -> (length (cap_data cap) < 22)%nat) ->
  update_fft st = st.
Proof.
  intros Hshort. unfold LaptopDebugAnalyzer.update_fft, LaptopDebugAnalyzer.fft_measurements.
  destruct (capture_data st !! 0%nat) as [cap|] eqn:Hcap.
  - specialize (Hshort cap eq_refl).
    destruct (cap_data cap) as [|x rest] eqn:Hdata.
    + reflexivity.
    + destruct (compute_spectrum_bins np_hanning_at np_fft_bin np_abs np_log10 (x :: rest))
        as (sp & Hsp & Hlen & _); [discriminate|].
      rewrite Hsp. cbn -[np.getitem np.argmax Nat.ltb Qmult Qdiv Qplus].
      assert (Hle : (length (x :: rest) / 2 <= 10)%nat).
      { pose proof (Nat.div_mod_eq (length (x :: rest)) 2).
        pose proof (Nat.mod_upper_bound (length (x :: rest)) 2). lia. }
      assert (Hfalse : (10 <? length (fft_magnitude sp))%nat = false)
        by (apply Nat.ltb_ge; lia).
      rewrite Hfalse. destruct st; reflexivity.
  - destruct st; reflexivity.
Qed.

(** X18: on a buffer of [n] samples with more than ten magnitude bins,
    the fundamental shown (in kHz) is never below [240000 / n] and always
    below 12000: the ten lowest bins and everything from the Nyquist
    frequency on are out of reach. *)
Theorem fundamental_within_band (st : analyzer) (cap : capture) :
  capture_data st !! 0%nat = Some cap ->
  (10 < length (cap_data cap) / 2)%nat ->
  exists f,
    fundamental_khz (freq_values (update_fft st)) = Some f /\
    240000 / inject_Z (Z.of_nat (length (cap_data cap))) <= f /\
    f < 12000.
Proof.
  intros Hcap Hbins.
  destruct (fundamental_readout st cap Hcap Hbins)
    as (sp & idx & _ & Hlen & Hidx & _ & Hfreq & Hread).
  rewrite Hread. cbn [fundamental_khz]. eexists. split; [reflexivity|].
  rewrite Hfreq. rewrite Hlen in Hidx.
  set (n := length (cap_data cap)) in *.
  assert (Hn : (2 * Z.of_nat idx + 1 <= Z.of_nat n)%Z).
  { pose proof (Nat.div_mod_eq n 2). pose proof (Nat.mod_upper_bound n 2). lia. }
  assert (Hi : (10 <= Z.of_nat idx)%Z) by lia.
  assert (Hnq : 2 * inject_Z (Z.of_nat idx) + 1 <= inject_Z (Z.of_nat n)).
  { change 2 with (inject_Z 2). change 1 with (inject_Z 1).
    rewrite <- inject_Z_mult, <- inject_Z_plus, <- Zle_Qle. exact Hn. }
  assert (Hiq : 10 <= inject_Z (Z.of_nat idx)).
  { change 10 with (inject_Z 10). rewrite <- Zle_Qle. exact Hi. }
  assert (Hpos : 0 < inject_Z (Z.of_nat n)) by lra.
  assert (Heq : inject_Z (Z.of_nat idx) / (1 / 24000000 * inject_Z (Z.of_nat n)) / 1000
                == inject_Z (Z.of_nat idx) * 24000 / inject_Z (Z.of_nat n)).
  { field. lra. }
  rewrite Heq. split.
  - apply Qle_shift_div_l; [exact Hpos|].
    assert (Hc : 240000 / inject_Z (Z.of_nat n) * inject_Z (Z.of_nat n) == 240000)
      by (field; lra).
    rewrite Hc. lra.
  - apply Qlt_shift_div_r; [exact Hpos|]. lra.
Qed.

End MoreSpectrum.

Lemma update_fft_short_buffer_witness :
  LaptopDebugAnalyzer.update_fft Samples.flat_window Samples.sample_bins
    Samples.norm1 Samples.linear_log Samples.cursors_together
  = Samples.cursors_together.
Proof.
  apply (update_fft_short_buffer Samples.flat_window Samples.sample_bins
           Samples.norm1 Samples.linear_log Samples.cursors_together).
  intros cap Hcap.
  assert (Heq : cap = Samples.three_samples).
  { assert (H0 : LaptopDebugAnalyzer.capture_data Samples.cursors_together !! 0%nat
                 = Some Samples.three_samples) by reflexivity.
    congruence. }
  subst cap. simpl. lia.
Defined.

Lemma fundamental_within_band_witness :
  exists f,
    LaptopDebugAnalyzer.fundamental_khz
      (LaptopDebugAnalyzer.freq_values
         (LaptopDebugAnalyzer.update_fft Samples.flat_window Samples.sample_bins
            Samples.norm1 Samples.linear_log Samples.running)) = Some f /\
    240000 / inject_Z (Z.of_nat (length (LaptopDebugAnalyzer.cap_data Samples.clock_capture)))
    <= f /\
    f < 12000.
Proof.
  apply (fundamental_within_band Samples.flat_window Samples.sample_bins
           Samples.norm1 Samples.linear_log Samples.running Samples.clock_capture).
  - exact running_channel0.
  - rewrite clock_capture_length. simpl. lia.
Defined.

(** ** The measurement table *)

Lemma calculate_statistics_short (np_sqrt : Q -> Q) (data : list Q) (threshold : Q) :
  (1 <= length data <= 10)%nat ->
  MeasurementEngine.calculate_statistics np_sqrt data threshold =
  Raise (UnboundLocalError "rising_edges").
Proof.
  intros [H1 H10]. unfold MeasurementEngine.calculate_statistics.
  destruct (len data =? 0)%Z eqn:E0; [apply Z.eqb_eq in E0; unfold len in E0; lia|].
  destruct (10 <? len data)%Z eqn:E10; [|reflexivity].
  apply Z.ltb_lt in E10. unfold len in E10. lia.
Qed.

Lemma Qsum_bounds (l : list Q) (lo hi : Q) :
  Forall (fun x => lo <= x <= hi) l ->
  lo * inject_Z (Z.of_nat (length l)) <= Qsum l /\
  Qsum l <= hi * inject_Z (Z.of_nat (length l)).
Proof.
  induction 1 as [|x l [Hlo Hhi] _ [IHlo IHhi]].
  - change (lo * 0 <= 0 /\ 0 <= hi * 0). split; lra.
  - assert (Hlen : inject_Z (Z.of_nat (length (x :: l)))
                   == inject_Z (Z.of_nat (length l)) + 1).
    { simpl length. rewrite Nat2Z.inj_succ. unfold Z.succ.
      rewrite inject_Z_plus. reflexivity. }
    rewrite Hlen. unfold Qsum in *. simpl fold_right. rewrite Qred_correct.
    set (n := inject_Z (Z.of_nat (length l))) in *.
    set (total := fold_right (fun x acc => Qred (x + acc)) 0 l) in *.
    assert (Elo : lo * (n + 1) == lo * n + lo) by ring.
    assert (Ehi : hi * (n + 1) == hi * n + hi) by ring.
    rewrite Elo, Ehi. split; lra.
Qed.

(** The mean of a non-empty buffer lies between any two bounds of its
    samples. *)
Lemma mean_bounds (l : list Q) (lo hi : Q) :
  l <> [] ->
  Forall (fun x => lo <= x <= hi) l ->
  lo <= np.mean l <= hi.
Proof.
  intros Hne Hall. destruct (Qsum_bounds l lo hi Hall) as [Hlo Hhi].
  unfold np.mean. rewrite Qred_correct.
  assert (Hpos : 0 < inject_Z (Z.of_nat (length l))).
  { change 0 with (inject_Z 0). rewrite <- Zlt_Qlt.
    destruct l; [congruence | simpl; lia]. }
  split.
  - apply Qle_shift_div_l; assumption.
  - apply Qle_shift_div_r; assumption.
Qed.

Section Table.

Import MeasurementTable.

Variable np_sqrt : Q -> Q.

(** X19: for a buffer of one to ten samples the table is left as it
    was; the only trace is the [UnboundLocalError] handed to the log. *)
Theorem update_channel_measurements_short (channel : nat) (data : list Q) (p : panel) :
  (1 <= length data <= 10)%nat ->
  rows (update_channel_measurements np_sqrt channel data p) = rows p /\
  errors (update_channel_measurements np_sqrt channel data p) =
  errors p ++ [UnboundLocalError "rising_edges"].
Proof.
  intros H. unfold update_channel_measurements.
  rewrite calculate_statistics_short by assumption. split; reflexivity.
Qed.

Lemma status_of_rails (voltage : Q) :
  0 <= voltage <= 36 # 10 ->
  status_of voltage <> HIGH /\ status_of voltage <> OK_5V.
Proof.
  intros [Hlo Hhi]. unfold status_of, Qgtb, Qltb.
  qle_cases; simpl; (split; [discriminate || (exfalso; lra)
                            | discriminate || (exfalso; lra)]).
Qed.

Lemma status_of_3v3 (voltage : Q) :
  32 # 10 <= voltage <= 34 # 10 -> status_of voltage = OK_3V3.
Proof.
  intros [Hlo Hhi]. unfold status_of, Qgtb, Qltb.
  qle_cases; simpl; reflexivity || (exfalso; lra).
Qed.

(** X20: for a buffer of more than ten samples that all lie between 0 V
    and 3.5 V, the row of a table channel is written without an error,
    its mean lies between 0 V and 3.6 V, and its status is neither HIGH
    nor 5V OK; when the samples all lie between 3.2 V and 3.4 V the
    status is 3.3V OK.  The bounds on the samples stay a tenth of a volt
    clear of the thresholds of the status chain, far more than the
    rounding of the float mean. *)
Theorem update_channel_measurements_rails (channel : nat) (data : list Q) (p : panel) :
  (channel < row_count)%nat ->
  (10 < length data)%nat ->
  Forall (fun x => 0 <= x <= 35 # 10) data ->
  exists r,
    rows (update_channel_measurements np_sqrt channel data p) !! channel = Some r /\
    errors (update_channel_measurements np_sqrt channel data p) = errors p /\
    0 <= row_mean r <= 36 # 10 /\
    row_status r <> HIGH /\ row_status r <> OK_5V /\
    (Forall (fun x => 32 # 10 <= x <= 34 # 10) data -> row_status r = OK_3V3).
Proof.
  intros Hch Hlen Hrails. unfold update_channel_measurements.
  pose proof (calculate_statistics_long np_sqrt data (18 # 10) Hlen) as Hstats.
  rewrite Hstats.
  assert (Hne : data <> []) by (intros ->; simpl in Hlen; lia).
  assert (Hmean : get (MeasurementEngine.rise_fall_times data
                         (MeasurementEngine.rising_edges_of data (18 # 10))
                         (MeasurementEngine.frequency_analysis data (18 # 10)
                            (MeasurementEngine.basic_stats np_sqrt data))) "mean"
                  = np.mean data).
  { unfold get.
    rewrite (returned_basic_entry np_sqrt data (18 # 10) _ "mean" Hstats Hne)
      by discriminate.
    unfold MeasurementEngine.basic_stats.
    rewrite !lookup_insert_ne by discriminate. rewrite lookup_insert_eq. reflexivity. }
  apply Nat.ltb_lt in Hch. rewrite Hch. cbn [rows errors].
  eexists. split; [apply lookup_insert_eq|]. split; [reflexivity|].
  unfold row_of. cbn [row_mean row_status]. rewrite Hmean.
  pose proof (mean_bounds data 0 (35 # 10) Hne Hrails) as Hb.
  assert (Hb' : 0 <= np.mean data <= 36 # 10) by (split; lra).
  split; [exact Hb'|].
  destruct (status_of_rails (np.mean data) Hb') as [Hhigh H5v].
  split; [exact Hhigh|]. split; [exact H5v|].
  intros Hrail. apply status_of_3v3. apply (mean_bounds data _ _ Hne Hrail).
Qed.

End Table.

Lemma update_channel_measurements_short_witness :
  MeasurementTable.rows
    (MeasurementTable.update_channel_measurements Samples.sqrt6 0 [18 # 10]
       {| MeasurementTable.rows := ∅; MeasurementTable.errors := [] |}) = ∅.
Proof.
  apply (update_channel_measurements_short Samples.sqrt6 0 [18 # 10]
           {| MeasurementTable.rows := ∅; MeasurementTable.errors := [] |}).
  simpl. lia.
Defined.

Lemma steady_rail : Forall (fun x => 32 # 10 <= x <= 34 # 10) (repeat Samples.high 11).
Proof.
  apply List.Forall_forall. intros x Hx. apply repeat_spec in Hx. subst x.
  split; discriminate.
Qed.

Lemma update_channel_measurements_rails_witness :
  exists r,
    MeasurementTable.rows
      (MeasurementTable.update_channel_measurements Samples.sqrt6 0
         (repeat Samples.high 11)
         {| MeasurementTable.rows := ∅; MeasurementTable.errors := [] |}) !! 0%nat
    = Some r /\
    MeasurementTable.row_status r = MeasurementTable.OK_3V3.
Proof.
  destruct (update_channel_measurements_rails Samples.sqrt6 0 (repeat Samples.high 11)
              {| MeasurementTable.rows := ∅; MeasurementTable.errors := [] |})
    as (r & Hr & _ & _ & _ & _ & Hs).
  - unfold MeasurementTable.row_count. lia.
  - simpl. lia.
  - eapply Forall_impl; [exact steady_rail|]. intros x [Hlo Hhi]. split; lra.
  - exists r. split; [exact Hr|]. apply Hs. exact steady_rail.
Defined.

(** ** Saving a capture *)

Lemma every_nth_length {A} (step skip : nat) (arr : list A) :
  (skip < step)%nat ->
  length (Persistence.every_nth step skip arr) =
  ((length arr + step - 1 - skip) / step)%nat.
Proof.
  revert skip. induction arr as [|x rest IH]; intros skip Hskip.
  - simpl. symmetry. apply Nat.div_small. lia.
  - destruct skip as [|skip']; cbn [Persistence.every_nth length].
    + rewrite IH by lia.
      assert (E : (S (length rest) + step - 1 - 0
                   = (length rest + step - 1 - (step - 1)) + 1 * step)%nat) by lia.
      rewrite E, Nat.div_add by lia. lia.
    + rewrite IH by lia. f_equal. lia.
Qed.

Lemma every_nth_unit {A} (arr : list A) : Persistence.every_nth 1 0 arr = arr.
Proof. induction arr as [|x rest IH]; simpl; [reflexivity | f_equal; exact IH]. Qed.

(** X21: the series written for a channel keeps every sample of a
    buffer shorter than 2000 samples; a longer buffer is thinned to at
    least 1000 and at most 1999 samples. *)
Theorem saved_series_size (cap : LaptopDebugAnalyzer.capture) :
  let n := length (LaptopDebugAnalyzer.cap_data cap) in
  let kept := Persistence.series_voltage (Persistence.saved_series cap) in
  (n < 2000 -> kept = LaptopDebugAnalyzer.cap_data cap)%nat /\
  (1000 <= n -> 1000 <= length kept)%nat /\
  (length kept <= 1999)%nat /\
  (length kept <= n)%nat.
Proof.
  intros n kept. unfold kept, Persistence.saved_series, Persistence.slice_step.
  cbn [Persistence.series_voltage]. fold n.
  unfold Persistence.decimation_step.
  pose proof (Nat.div_mod_eq n 1000) as Hdiv.
  pose proof (Nat.mod_upper_bound n 1000 ltac:(lia)) as Hmod.
  set (q := (n / 1000)%nat) in *.
  assert (Hstep : (1 <= Nat.max 1 q)%nat) by lia.
  split; [|rewrite every_nth_length by lia; fold n; split; [|split]].
  - intros Hn. assert (Hq : Nat.max 1 q = 1%nat) by lia.
    rewrite Hq. apply every_nth_unit.
  - intros Hn. apply Nat.div_le_lower_bound; nia.
  - assert (((n + Nat.max 1 q - 1 - 0) / Nat.max 1 q < 2000)%nat); [|lia].
    apply Nat.Div0.div_lt_upper_bound. nia.
  - apply Nat.Div0.div_le_upper_bound. nia.
Qed.

Lemma saved_series_size_witness :
  Persistence.series_voltage (Persistence.saved_series Samples.three_samples)
  = LaptopDebugAnalyzer.cap_data Samples.three_samples.
Proof.
  apply (saved_series_size Samples.three_samples). simpl. lia.
Defined.

Lemma channel_key_inj (a b : nat) :
  Persistence.channel_key a = Persistence.channel_key b -> a = b.
Proof.
  unfold Persistence.channel_key. intros H.
  apply (inj (String.append "CH")) in H.
  apply (inj pretty) in H. lia.
Qed.

Lemma for_each_raises {A S : Type} (body : S -> A -> result S) (items : list A)
    (e : exn) (x : A) :
  x ∈ items ->
  (forall s, body s x = Raise e) ->
  (forall s y, (exists s', body s y = Ok s') \/ body s y = Raise e) ->
  forall s, for_each items s body = Raise e.
Proof.
  intros Hin Hx Hall. induction items as [|y items IH]; intros s.
  - inversion Hin.
  - simpl. apply elem_of_cons in Hin as [<-|Hin].
    + rewrite Hx. reflexivity.
    + destruct (Hall s y) as [[s' ->]| ->]; [|reflexivity].
      apply IH, Hin.
Qed.

Section Saving.

Import LaptopDebugAnalyzer Persistence.

Variable np_sqrt : Q -> Q.

(** X22: when capture buffers exist but channel 0 has none (it was
    disabled, say), [save_capture_json] fails with [KeyError] on the
    sample count, before anything is written. *)
Theorem save_capture_json_without_channel0 (timestamp sample_rate : string)
    (configs : list channel_config) (captured : gmap nat capture) :
  captured <> ∅ ->
  captured !! 0%nat = None ->
  save_capture_json np_sqrt timestamp sample_rate configs captured = Failed (KeyError 0).
Proof.
  intros Hne H0. unfold save_capture_json, sample_count.
  destruct (decide (captured = ∅)); [contradiction|]. rewrite H0. reflexivity.
Qed.

Lemma statistics_returns_or_unbound (data : list Q) (threshold : Q) :
  (exists stats, MeasurementEngine.calculate_statistics np_sqrt data threshold = Ok stats) \/
  MeasurementEngine.calculate_statistics np_sqrt data threshold =
  Raise (UnboundLocalError "rising_edges").
Proof.
  destruct (decide (1 <= length data <= 10)%nat) as [H|H].
  - right. apply calculate_statistics_short, H.
  - left. destruct data as [|x rest] eqn:E.
    + exists ∅. reflexivity.
    + eexists. apply calculate_statistics_long. simpl in *. lia.
Qed.

(** X23: when channel 0 is present and some channel holds one to ten
    samples, [save_capture_json] (and with it every auto-save) fails with
    the [UnboundLocalError] of the statistics engine. *)
Theorem save_capture_json_short_channel (timestamp sample_rate : string)
    (configs : list channel_config) (captured : gmap nat capture)
    (c0 : capture) (ch : nat) (cap : capture) :
  captured !! 0%nat = Some c0 ->
  captured !! ch = Some cap ->
  (1 <= length (cap_data cap) <= 10)%nat ->
  save_capture_json np_sqrt timestamp sample_rate configs captured =
  Failed (Raised (UnboundLocalError "rising_edges")).
Proof.
  intros H0 Hch Hshort. unfold save_capture_json, sample_count.
  destruct (decide (captured = ∅)) as [->|_].
  { rewrite lookup_empty in H0. discriminate. }
  rewrite H0.
  assert (Hraise : saved_measurements np_sqrt captured =
                   Raise (UnboundLocalError "rising_edges")).
  { unfold saved_measurements.
    apply (for_each_raises _ _ _ (ch, cap)).
    - apply elem_of_map_to_list, Hch.
    - intros s. cbn [snd]. rewrite calculate_statistics_short by assumption. reflexivity.
    - intros s [ch' cap']. cbn [fst snd].
      destruct (statistics_returns_or_unbound (cap_data cap') (18 # 10)) as [[stats ->]| ->].
      + left. eexists. reflexivity.
      + right. reflexivity. }
  rewrite Hraise. reflexivity.
Qed.

Lemma saved_measurements_entries (items : list (nat * capture))
    (acc : gmap string (gmap string Q)) :
  NoDup items.*1 ->
  (forall ch cap, (ch, cap) ∈ items ->
                  (length (cap_data cap) = 0 \/ 10 < length (cap_data cap))%nat) ->
  exists m,
    for_each items acc
      (fun acc item =>
         stats ← MeasurementEngine.calculate_statistics np_sqrt (cap_data item.2) (18 # 10);
         Ok (<[channel_key item.1 := stats]> acc)) = Ok m /\
    (forall ch cap, (ch, cap) ∈ items ->
       exists stats,
         m !! channel_key ch = Some stats /\
         MeasurementEngine.calculate_statistics np_sqrt (cap_data cap) (18 # 10) = Ok stats) /\
    (forall ch, ch ∉ items.*1 -> m !! channel_key ch = acc !! channel_key ch).
Proof.
  intros Hnodup. revert acc.
  induction items as [|[ch0 cap0] items IH]; intros acc Hlen.
  - exists acc. split; [reflexivity|]. split; [|reflexivity].
    intros ch cap Hin. inversion Hin.
  - apply NoDup_cons in Hnodup as [Hfresh Hnodup].
    assert (Hret : exists stats0,
               MeasurementEngine.calculate_statistics np_sqrt (cap_data cap0) (18 # 10)
               = Ok stats0).
    { destruct (Hlen ch0 cap0 ltac:(left)) as [H|H].
      - exists ∅. destruct (cap_data cap0); [reflexivity|discriminate].
      - eexists. apply calculate_statistics_long, H. }
    destruct Hret as [stats0 Hstats0].
    destruct (IH Hnodup (<[channel_key ch0 := stats0]> acc)) as (m & Hm & Hin & Hout).
    { intros ch cap H. apply (Hlen ch cap). right. exact H. }
    exists m. split; [|split].
    + cbn [for_each fst snd]. rewrite Hstats0. exact Hm.
    + intros ch cap H. apply elem_of_cons in H as [Heq|H].
      * injection Heq as -> ->. exists stats0. split; [|exact Hstats0].
        rewrite (Hout ch0 Hfresh). apply lookup_insert_eq.
      * apply Hin, H.
    + intros ch Hnot. rewrite fmap_cons, not_elem_of_cons in Hnot.
      destruct Hnot as [Hne Hnot]. rewrite (Hout ch Hnot).
      apply lookup_insert_ne. intros Heq. apply channel_key_inj in Heq. cbn in Hne. congruence.
Qed.

End Saving.

Lemma saved_data_entries (items : list (nat * LaptopDebugAnalyzer.capture))
    (acc : gmap string Persistence.json_series) :
  NoDup items.*1 ->
  let m := fold_left
             (fun acc item =>
                <[Persistence.channel_key item.1 := Persistence.saved_series item.2]> acc)
             items acc in
  (forall ch cap, (ch, cap) ∈ items ->
     m !! Persistence.channel_key ch = Some (Persistence.saved_series cap)) /\
  (forall ch, ch ∉ items.*1 ->
     m !! Persistence.channel_key ch = acc !! Persistence.channel_key ch).
Proof.
  intros Hnodup. revert acc.
  induction items as [|[ch0 cap0] items IH]; intros acc; cbn zeta.
  - split; [|reflexivity]. intros ch cap Hin. inversion Hin.
  - apply NoDup_cons in Hnodup as [Hfresh Hnodup].
    destruct (IH Hnodup
                (<[Persistence.channel_key ch0 := Persistence.saved_series cap0]> acc))
      as [Hin Hout].
    cbn zeta in Hin, Hout. split.
    + intros ch cap H. apply elem_of_cons in H as [Heq|H].
      * injection Heq as -> ->. cbn [fold_left fst snd].
        rewrite (Hout ch0 Hfresh). apply lookup_insert_eq.
      * apply Hin, H.
    + intros ch Hnot. rewrite fmap_cons, not_elem_of_cons in Hnot.
      destruct Hnot as [Hne Hnot]. cbn [fold_left fst snd]. rewrite (Hout ch Hnot).
      apply lookup_insert_ne. intros Heq. apply channel_key_inj in Heq.
      cbn in Hne. congruence.
Qed.

Section SavedDocument.

Import LaptopDebugAnalyzer Persistence.

Variable np_sqrt : Q -> Q.

(** X24: when channel 0 is captured and no channel holds one to ten
    samples, [save_capture_json] builds its document: the metadata count
    the channels and the samples of channel 0, and every captured
    channel [ch] has, under the key [CH<ch+1>], its statistics and its
    thinned series. *)
Theorem save_capture_json_document (timestamp sample_rate : string)
    (configs : list channel_config) (captured : gmap nat capture) (c0 : capture) :
  captured !! 0%nat = Some c0 ->
  (forall ch cap, captured !! ch = Some cap ->
                  (length (cap_data cap) = 0 \/ 10 < length (cap_data cap))%nat) ->
  exists doc,
    save_capture_json np_sqrt timestamp sample_rate configs captured = Saved doc /\
    md_channels (metadata doc) = size captured /\
    md_samples (metadata doc) = length (cap_data c0) /\
    forall ch cap, captured !! ch = Some cap ->
      data doc !! channel_key ch = Some (saved_series cap) /\
      exists stats,
        measurements doc !! channel_key ch = Some stats /\
        MeasurementEngine.calculate_statistics np_sqrt (cap_data cap) (18 # 10) = Ok stats.
Proof.
  intros H0 Hlen. unfold save_capture_json, sample_count.
  destruct (decide (captured = ∅)) as [->|_].
  { rewrite lookup_empty in H0. discriminate. }
  rewrite H0.
  destruct (saved_measurements_entries np_sqrt (map_to_list captured) ∅)
    as (m & Hm & Hin & _).
  { apply NoDup_fst_map_to_list. }
  { intros ch cap H. apply elem_of_map_to_list in H. apply (Hlen ch cap H). }
  unfold saved_measurements. rewrite Hm.
  eexists. split; [reflexivity|]. cbn [metadata md_channels md_samples data measurements].
  split; [reflexivity|]. split; [reflexivity|].
  intros ch cap Hch. split.
  - unfold saved_data.
    apply (saved_data_entries (map_to_list captured) ∅ (NoDup_fst_map_to_list captured)).
    apply elem_of_map_to_list, Hch.
  - apply Hin. apply elem_of_map_to_list, Hch.
Qed.

End SavedDocument.

Lemma save_capture_json_without_channel0_witness :
  Persistence.save_capture_json Samples.sqrt6 "t" "1 MHz" SavedSamples.no_configs
    {[1%nat := Samples.three_samples]} = Persistence.Failed (Persistence.KeyError 0).
Proof.
  apply (save_capture_json_without_channel0 Samples.sqrt6).
  - apply (insert_non_empty (M:=gmap nat)).
  - apply lookup_singleton_ne. discriminate.
Defined.

Lemma save_capture_json_short_channel_witness :
  Persistence.save_capture_json Samples.sqrt6 "t" "1 MHz" SavedSamples.no_configs
    (<[1%nat := Samples.three_samples]> {[0%nat := SavedSamples.clock17]}) =
  Persistence.Failed (Persistence.Raised (UnboundLocalError "rising_edges")).
Proof.
  apply (save_capture_json_short_channel Samples.sqrt6 _ _ _ _
           SavedSamples.clock17 1%nat Samples.three_samples).
  - reflexivity.
  - reflexivity.
  - simpl. lia.
Defined.

Lemma save_capture_json_document_witness :
  exists doc,
    Persistence.save_capture_json Samples.sqrt6 "t" "1 MHz" SavedSamples.no_configs
      {[0%nat := SavedSamples.clock17]} = Persistence.Saved doc /\
    Persistence.md_channels (Persistence.metadata doc) = 1%nat /\
    Persistence.md_samples (Persistence.metadata doc) = 17%nat.
Proof.
  destruct (save_capture_json_document Samples.sqrt6 "t" "1 MHz" SavedSamples.no_configs
              {[0%nat := SavedSamples.clock17]} SavedSamples.clock17)
    as (doc & Hdoc & Hch & Hn & _).
  - reflexivity.
  - intros ch cap H. apply lookup_singleton_Some in H as [_ <-]. right. simpl. lia.
  - exists doc. split; [exact Hdoc|]. split; [rewrite Hch; reflexivity|exact Hn].
Defined.

(** ** The signal simulator *)

Section SliceAssignment.

Import HardwareSimulation.

Lemma length_set_slice (data : list Q) (a b : Z) (value : Q) :
  length (set_slice data a b value) = length data.
Proof. unfold set_slice. apply length_imap. Qed.

Lemma slice_bound_nonneg (n : nat) (i : Z) :
  (0 <= i)%Z -> slice_bound n i = Nat.min (Z.to_nat i) n.
Proof.
  intros H. unfold slice_bound. destruct (i <? 0)%Z eqn:E; [|reflexivity].
  apply Z.ltb_lt in E. lia.
Qed.

(** Inside the array, a slice with non-negative bounds covers exactly
    the indices from [a] up to [b]. *)
Lemma in_slice (n : nat) (a b : Z) (k : nat) :
  (0 <= a)%Z -> (0 <= b)%Z -> (k < n)%nat ->
  (slice_bound n a <=? k)%nat && (k <? slice_bound n b)%nat =
  (Z.to_nat a <=? k)%nat && (k <? Z.to_nat b)%nat.
Proof.
  intros Ha Hb Hk. rewrite !slice_bound_nonneg by assumption.
  destruct (Z.to_nat a <=? k)%nat eqn:E1, (k <? Z.to_nat b)%nat eqn:E2;
    destruct (Nat.min (Z.to_nat a) n <=? k)%nat eqn:E3,
             (k <? Nat.min (Z.to_nat b) n)%nat eqn:E4; try reflexivity;
    repeat match goal with
           | H : (_ <=? _)%nat = true |- _ => apply Nat.leb_le in H
           | H : (_ <=? _)%nat = false |- _ => apply Nat.leb_gt in H
           | H : (_ <? _)%nat = true |- _ => apply Nat.ltb_lt in H
           | H : (_ <? _)%nat = false |- _ => apply Nat.ltb_ge in H
           end; lia.
Qed.

Lemma set_slice_lookup (data : list Q) (a b : Z) (value : Q) (k : nat) :
  (0 <= a)%Z -> (0 <= b)%Z ->
  set_slice data a b value !! k =
  (fun x => if (Z.to_nat a <=? k)%nat && (k <? Z.to_nat b)%nat then value else x)
    <$> data !! k.
Proof.
  intros Ha Hb. unfold set_slice. rewrite list_lookup_imap.
  destruct (data !! k) as [x|] eqn:E; [|reflexivity].
  cbn -[slice_bound Nat.leb Nat.ltb].
  rewrite in_slice; [reflexivity|assumption|assumption|].
  apply lookup_lt_Some in E. exact E.
Qed.

Lemma set_slice_array_lookup (data values : list Q) (a b : Z) :
  (0 <= a)%Z -> (b <= Z.of_nat (length data))%Z ->
  (b - a = Z.of_nat (length values))%Z ->
  exists data',
    set_slice_array data a b values = Ok data' /\
    length data' = length data /\
    forall k,
      data' !! k =
      (fun x => if (Z.to_nat a <=? k)%nat && (k <? Z.to_nat b)%nat
                then nth (k - Z.to_nat a) values 0 else x) <$> data !! k.
Proof.
  intros Ha Hb Hlen. unfold set_slice_array.
  rewrite !slice_bound_nonneg by lia.
  replace (Nat.min (Z.to_nat a) (length data)) with (Z.to_nat a) by lia.
  replace (Nat.min (Z.to_nat b) (length data)) with (Z.to_nat b) by lia.
  replace (length values =? Z.to_nat b - Z.to_nat a)%nat with true
    by (symmetry; apply Nat.eqb_eq; lia).
  eexists. split; [reflexivity|]. split; [apply length_imap|].
  intros k. rewrite list_lookup_imap. reflexivity.
Qed.

Lemma ones_high_lookup (n k : nat) :
  (k < n)%nat -> ones_high n !! k = Some (33 # 10).
Proof.
  unfold ones_high. revert k.
  induction n as [|n IH]; intros [|k] H; try lia; [reflexivity|].
  apply (IH k). lia.
Qed.

Lemma length_ones_high (n : nat) : length (ones_high n) = n.
Proof. unfold ones_high. rewrite length_map. apply repeat_length. Qed.

End SliceAssignment.

Ltac nat_cases :=
  repeat (match goal with
          | |- context [(?a <? ?b)%nat] => destruct (Nat.ltb_spec a b)
          | |- context [(?a <=? ?b)%nat] => destruct (Nat.leb_spec a b)
          end; try (exfalso; lia)).

Lemma nth_map_seq {A} (f : nat -> A) (d : A) (len j : nat) :
  (j < len)%nat -> nth j (map f (seq 0 len)) d = f j.
Proof.
  intros H. rewrite (nth_indep _ d (f 0%nat)) by (rewrite length_map, length_seq; exact H).
  rewrite (map_nth f (seq 0 len) 0%nat j), seq_nth by exact H. reflexivity.
Qed.

Section I2cLine.

Import HardwareSimulation.

Variable env : environment.

Local Abbreviation frame_sample i r :=
  (if (r <? 20)%nat then 0
   else if (r <? 40)%nat then level (choice_i2c env i (r - 20))
   else if (r <? 60)%nat then 0
   else 33 # 10).

(** One frame: when more than 80 samples are left after [j], the
    samples [j .. j+79] are rewritten and nothing else is. *)
Lemma i2c_frame_lookup (data : list Q) (j : nat) :
  exists data',
    i2c_frame env (len data) data (Z.of_nat j) = Ok data' /\
    length data' = length data /\
    forall k,
      data' !! k =
      (fun x => if (j + 80 <? length data)%nat && (j <=? k)%nat && (k <? j + 80)%nat
                then frame_sample j (k - j) else x) <$> data !! k.
Proof.
  unfold i2c_frame, len.
  destruct (Z.of_nat j + 80 <? Z.of_nat (length data))%Z eqn:G.
  - apply Z.ltb_lt in G.
    destruct (set_slice_array_lookup
                (set_slice data (Z.of_nat j) (Z.of_nat j + 20) 0)
                (map (fun r => level (choice_i2c env (Z.to_nat (Z.of_nat j)) r)) (seq 0 20))
                (Z.of_nat j + 20) (Z.of_nat j + 40)) as (d2 & E2 & L2 & Hd2).
    { lia. }
    { rewrite length_set_slice. lia. }
    { rewrite length_map, length_seq. lia. }
    unfold mbind, result_bind, rbind. rewrite E2.
    eexists. split; [reflexivity|]. split.
    { rewrite !length_set_slice, L2, length_set_slice. reflexivity. }
    intros k. rewrite !set_slice_lookup by lia. rewrite Hd2, set_slice_lookup by lia.
    destruct (data !! k) as [x|]; [|reflexivity].
    cbn [fmap option_fmap option_map]. f_equal.
    replace (Z.to_nat (Z.of_nat j + 20)) with (j + 20)%nat by lia.
    replace (Z.to_nat (Z.of_nat j + 40)) with (j + 40)%nat by lia.
    replace (Z.to_nat (Z.of_nat j + 60)) with (j + 60)%nat by lia.
    replace (Z.to_nat (Z.of_nat j + 80)) with (j + 80)%nat by lia.
    rewrite !Nat2Z.id.
    destruct (Nat.ltb_spec (j + 80) (length data)) as [_|?]; [|lia].
    cbn [andb].
    destruct (Nat.leb_spec j k), (Nat.ltb_spec k (j + 80)); cbn [andb].
    + destruct (Nat.ltb_spec (k - j) 20).
      { nat_cases; reflexivity. }
      destruct (Nat.ltb_spec (k - j) 40).
      { nat_cases; cbn [andb].
        rewrite nth_map_seq by lia. do 2 f_equal. lia. }
      destruct (Nat.ltb_spec (k - j) 60); nat_cases; reflexivity.
    + nat_cases; reflexivity.
    + nat_cases; reflexivity.
    + nat_cases; reflexivity.
  - apply Z.ltb_ge in G. eexists. split; [reflexivity|]. split; [reflexivity|].
    intros k. destruct (Nat.ltb_spec (j + 80) (length data)) as [?|_]; [lia|].
    cbn [andb]. destruct (data !! k); reflexivity.
Qed.

(** After the first [m] frames. *)
Lemma i2c_frames_lookup (n m : nat) :
  exists data',
    for_each (map (fun j : nat => (0 + Z.of_nat j * 100)%Z) (seq 0 m)) (ones_high n)
             (i2c_frame env (Z.of_nat n)) = Ok data' /\
    length data' = n /\
    forall k, (k < n)%nat ->
      data' !! k =
      Some (if (k <? 100 * m)%nat && (100 * (k / 100) + 80 <? n)%nat
            then frame_sample (100 * (k / 100))%nat (k mod 100) else 33 # 10).
Proof.
  induction m as [|m (data & Hloop & Hlen & Hdata)].
  - exists (ones_high n). split; [reflexivity|]. split; [apply length_ones_high|].
    intros k Hk. rewrite Nat.mul_0_r. cbn [Nat.ltb Nat.leb andb]. apply ones_high_lookup, Hk.
  - rewrite seq_S, map_app, for_each_app, Hloop. cbn [map for_each plus].
    replace (0 + Z.of_nat m * 100)%Z with (Z.of_nat (100 * m)) by lia.
    destruct (i2c_frame_lookup data (100 * m)) as (data' & Hframe & Hlen' & Hdata').
    unfold len in Hframe. rewrite Hlen in Hframe, Hlen', Hdata'. rewrite Hframe.
    exists data'. split; [reflexivity|]. split; [exact Hlen'|].
    intros k Hk. rewrite Hdata', (Hdata k Hk). cbn [fmap option_fmap option_map]. f_equal.
    pose proof (Nat.div_mod_eq k 100) as Hdiv.
    pose proof (Nat.mod_upper_bound k 100 ltac:(lia)) as Hmod.
    set (q := (k / 100)%nat) in *. set (r := (k mod 100)%nat) in *.
    destruct (Nat.lt_ge_cases k (100 * m)) as [Hbefore|Hfrom].
    { nat_cases; reflexivity. }
    destruct (Nat.lt_ge_cases k (100 * m + 100)) as [Hin|Hafter].
    { assert (q = m) as -> by lia.
      replace (k - 100 * m)%nat with r by lia.
      nat_cases; reflexivity. }
    nat_cases; reflexivity.
Qed.

(** [generate_i2c_like] returns, with one sample per instant. *)
Lemma generate_i2c_like_length (time_data : list Q) (freq : Z) :
  freq <> 0%Z ->
  exists data,
    generate_i2c_like env time_data freq = Returns data /\
    length data = length time_data.
Proof.
  intros Hfreq. unfold generate_i2c_like.
  destruct (freq =? 0)%Z eqn:E; [apply Z.eqb_eq in E; contradiction|].
  unfold py_range, len.
  destruct (i2c_frames_lookup (length time_data)
              (Z.to_nat ((Z.of_nat (length time_data) - 0 + 100 - 1) / 100)))
    as (data & Hloop & Hlen & _).
  rewrite Hloop. exists data. split; [reflexivity|exact Hlen].
Qed.

(** X25: [generate_i2c_like] raises only for a zero frequency.  Otherwise
    it returns as many samples as the time base has, laid out in frames
    of 100: a frame with more than 80 samples left after its start reads
    20 low, 20 drawn, 20 low and 40 high samples; a frame without reads
    high throughout. *)
Theorem generate_i2c_like_frames (time_data : list Q) (freq : Z) :
  freq <> 0%Z ->
  exists data,
    generate_i2c_like env time_data freq = Returns data /\
    length data = length time_data /\
    forall k, (k < length time_data)%nat ->
      let i := (100 * (k / 100))%nat in
      let r := (k mod 100)%nat in
      data !! k =
      Some (if (i + 80 <? length time_data)%nat
            then if (r <? 20)%nat then 0
                 else if (r <? 40)%nat then level (choice_i2c env i (r - 20))
                 else if (r <? 60)%nat then 0
                 else 33 # 10
            else 33 # 10).
Proof.
  intros Hfreq. unfold generate_i2c_like.
  destruct (freq =? 0)%Z eqn:E; [apply Z.eqb_eq in E; contradiction|].
  unfold py_range, len.
  set (n := length time_data).
  set (m := Z.to_nat ((Z.of_nat n - 0 + 100 - 1) / 100)).
  destruct (i2c_frames_lookup n m) as (data & Hloop & Hlen & Hdata).
  rewrite Hloop. exists data. split; [reflexivity|]. split; [exact Hlen|].
  intros k Hk. cbn zeta. rewrite (Hdata k Hk).
  assert (Hm : (n <= 100 * m)%nat).
  { subst m. pose proof (Z.div_mod (Z.of_nat n - 0 + 100 - 1) 100 ltac:(lia)) as Hd.
    pose proof (Z.mod_pos_bound (Z.of_nat n - 0 + 100 - 1) 100 ltac:(lia)). lia. }
  destruct (Nat.ltb_spec k (100 * m)); [reflexivity|lia].
Qed.

End I2cLine.

Section SpiLine.

Import HardwareSimulation.

Variable env : environment.

Lemma spi_block_lookup (data : list Q) (j : nat) :
  length (spi_block env (len data) data (Z.of_nat j)) = length data /\
  forall k,
    spi_block env (len data) data (Z.of_nat j) !! k =
    (fun x => if (j <=? k)%nat && (k <? j + 25)%nat
              then level (choice_spi env j) else x) <$> data !! k.
Proof.
  unfold spi_block, len.
  destruct (Z.of_nat j <? Z.of_nat (length data))%Z eqn:G.
  - split; [apply length_set_slice|]. intros k.
    rewrite set_slice_lookup by lia.
    replace (Z.to_nat (Z.of_nat j + 25)) with (j + 25)%nat by lia.
    rewrite !Nat2Z.id. reflexivity.
  - apply Z.ltb_ge in G. split; [reflexivity|]. intros k.
    destruct (data !! k) as [x|] eqn:E; [|reflexivity].
    apply lookup_lt_Some in E. cbn [fmap option_fmap option_map]. f_equal.
    nat_cases; reflexivity.
Qed.

(** After the first [m] blocks. *)
Lemma spi_blocks_lookup (n m : nat) :
  let data := fold_left (spi_block env (Z.of_nat n))
                        (map (fun j : nat => (0 + Z.of_nat j * 50)%Z) (seq 0 m))
                        (ones_high n) in
  length data = n /\
  forall k, (k < n)%nat ->
    data !! k =
    Some (if (k <? 50 * m)%nat && (k mod 50 <? 25)%nat
          then level (choice_spi env (50 * (k / 50))) else 33 # 10).
Proof.
  cbn zeta. induction m as [|m [Hlen Hdata]].
  - split; [apply length_ones_high|].
    intros k Hk. rewrite Nat.mul_0_r. cbn [Nat.ltb Nat.leb andb]. apply ones_high_lookup, Hk.
  - rewrite seq_S, map_app, fold_left_app. cbn [map fold_left plus].
    set (data := fold_left _ _ _) in *.
    replace (0 + Z.of_nat m * 50)%Z with (Z.of_nat (50 * m)) by lia.
    destruct (spi_block_lookup data (50 * m)) as [Hlen' Hdata'].
    unfold len in Hlen', Hdata'. rewrite Hlen in Hlen', Hdata'.
    split; [exact Hlen'|].
    intros k Hk. rewrite Hdata', (Hdata k Hk). cbn [fmap option_fmap option_map]. f_equal.
    pose proof (Nat.div_mod_eq k 50) as Hdiv.
    pose proof (Nat.mod_upper_bound k 50 ltac:(lia)) as Hmod.
    set (q := (k / 50)%nat) in *. set (r := (k mod 50)%nat) in *.
    destruct (Nat.lt_ge_cases k (50 * m)) as [Hbefore|Hfrom].
    { nat_cases; reflexivity. }
    destruct (Nat.lt_ge_cases k (50 * m + 50)) as [Hin|Hafter].
    { assert (q = m) as -> by lia. nat_cases; reflexivity. }
    nat_cases; reflexivity.
Qed.

Variable np_sin : Q -> Q.
Variable np_pi : Q.

(** [generate_spi_like] returns one sample per instant. *)
Lemma generate_spi_like_length (time_data : list Q) (freq : Z) :
  length (generate_spi_like np_sin np_pi env time_data freq) = length time_data.
Proof.
  unfold generate_spi_like, square_wave, np_minimum, py_range, len.
  destruct (spi_blocks_lookup (length time_data)
              (Z.to_nat ((Z.of_nat (length time_data) - 0 + 50 - 1) / 50))) as [Hlen _].
  cbn zeta in Hlen. rewrite length_zip_with, Hlen, length_map. lia.
Qed.

(** X26: [generate_spi_like] returns one sample per instant of the time
    base.  In every block of 50 samples the first 25 carry one drawn
    level and the last 25 are high, and the whole is gated by the clock
    of the channel, which is high exactly where numpy's sine of
    [2 * pi * freq * t] is positive: each sample is the minimum of the
    two, so the line is never above the clock. *)
Theorem generate_spi_like_gated (time_data : list Q) (freq : Z) :
  let data := generate_spi_like np_sin np_pi env time_data freq in
  length data = length time_data /\
  forall k t, time_data !! k = Some t ->
    data !! k =
    Some (Qminb (if (k mod 50 <? 25)%nat
                 then level (choice_spi env (50 * (k / 50))) else 33 # 10)
                (if Qgtb (np_sin (2 * np_pi * inject_Z freq * t)) 0
                 then 33 # 10 else 0)).
Proof.
  cbn zeta. unfold generate_spi_like, square_wave, np_minimum, py_range, len.
  set (n := length time_data).
  set (m := Z.to_nat ((Z.of_nat n - 0 + 50 - 1) / 50)).
  destruct (spi_blocks_lookup n m) as [Hlen Hdata]. cbn zeta in Hlen, Hdata.
  split.
  - rewrite length_zip_with, Hlen, length_map. fold n. lia.
  - intros k t Hk. pose proof (lookup_lt_Some _ _ _ Hk) as Hlt. fold n in Hlt.
    rewrite lookup_zip_with, (Hdata k Hlt), list_lookup_fmap, Hk.
    cbn [mbind option_bind fmap option_fmap option_map]. f_equal.
    assert (Hm : (n <= 50 * m)%nat).
    { subst m. pose proof (Z.div_mod (Z.of_nat n - 0 + 50 - 1) 50 ltac:(lia)) as Hd.
      pose proof (Z.mod_pos_bound (Z.of_nat n - 0 + 50 - 1) 50 ltac:(lia)). lia. }
    destruct (Nat.ltb_spec k (50 * m)); [reflexivity|lia].
Qed.

End SpiLine.

Section UartLine.

Import HardwareSimulation.

Variable env : environment.

Lemma length_uart_byte (n samples_per_bit : Z) (data : list Q) (byte_start : Z) :
  length (uart_byte env n samples_per_bit data byte_start) = length data.
Proof.
  unfold uart_byte.
  assert (Hbits : forall bits d,
             length (fold_left (uart_bit env n samples_per_bit byte_start) bits d) = length d).
  { induction bits as [|bit bits IH]; intros d; [reflexivity|].
    cbn [fold_left]. rewrite IH. unfold uart_bit.
    destruct (_ <? n)%Z; [apply length_set_slice|reflexivity]. }
  destruct (_ + _ <? n)%Z; [rewrite length_set_slice|]; rewrite Hbits;
    destruct (byte_start <? n)%Z; try apply length_set_slice; reflexivity.
Qed.

Lemma length_uart_bytes (n samples_per_bit : Z) (starts : list Z) (data : list Q) :
  length (fold_left (uart_byte env n samples_per_bit) starts data) = length data.
Proof.
  revert data. induction starts as [|i starts IH]; intros data; [reflexivity|].
  cbn [fold_left]. rewrite IH. apply length_uart_byte.
Qed.

(** A quotient of absolute value below one truncates to zero. *)
Lemma py_int_small (a b : Q) : Qabs a < Qabs b -> py_int (a / b) = 0%Z.
Proof.
  intros H.
  assert (Hb : ~ b == 0).
  { intros E. rewrite E in H. change (Qabs 0) with 0 in H.
    pose proof (Qabs_nonneg a). lra. }
  assert (Hq : Qabs (a / b) < 1).
  { destruct (Qlt_le_dec (Qabs (a / b)) 1) as [?|Hge]; [assumption|exfalso].
    assert (E : a == (a / b) * b) by (field; exact Hb).
    rewrite E, Qabs_Qmult in H.
    pose proof (Qabs_nonneg b). nra. }
  apply Qabs_Qlt_condition in Hq. destruct Hq as [Hlo Hhi].
  unfold py_int, Qltb.
  destruct (Qle_bool 0 (a / b)) eqn:E; cbn [negb].
  - apply Qle_bool_iff in E.
    pose proof (Qfloor_le (a / b)). pose proof (Qlt_floor (a / b)).
    assert (inject_Z (Qfloor (a / b)) < inject_Z 1) by (change (inject_Z 1) with 1; lra).
    assert (inject_Z 0 < inject_Z (Qfloor (a / b) + 1)) by (change (inject_Z 0) with 0; lra).
    rewrite <- Zlt_Qlt in *. lia.
  - apply Qle_bool_false in E.
    pose proof (Qle_ceiling (a / b)). pose proof (Qceiling_lt (a / b)).
    assert (inject_Z (Qceiling (a / b) - 1) < inject_Z 0) by (change (inject_Z 0) with 0; lra).
    assert (inject_Z (-1) < inject_Z (Qceiling (a / b)))
      by (change (inject_Z (-1)) with (-1); lra).
    rewrite <- Zlt_Qlt in *. lia.
Qed.

(** A quotient of absolute value at least one does not. *)
Lemma py_int_large (a b : Q) :
  ~ b == 0 -> Qabs b <= Qabs a -> py_int (a / b) <> 0%Z.
Proof.
  intros Hb H.
  assert (Hq : 1 <= Qabs (a / b)).
  { destruct (Qlt_le_dec (Qabs (a / b)) 1) as [Hlt|?]; [exfalso|assumption].
    assert (E : a == (a / b) * b) by (field; exact Hb).
    rewrite E, Qabs_Qmult in H.
    assert (0 < Qabs b).
    { apply Qabs_case; intros Hsign.
      - destruct (Qlt_le_dec 0 b); [assumption|exfalso; apply Hb; lra].
      - destruct (Qlt_le_dec 0 (- b)); [assumption|exfalso; apply Hb; lra]. }
    pose proof (Qabs_nonneg (a / b)). nra. }
  unfold py_int, Qltb.
  destruct (Qle_bool 0 (a / b)) eqn:E; cbn [negb].
  - apply Qle_bool_iff in E. rewrite Qabs_pos in Hq by assumption.
    pose proof (Qlt_floor (a / b)).
    assert (inject_Z 0 < inject_Z (Qfloor (a / b) + 1)) by (change (inject_Z 0) with 0; lra).
    assert (inject_Z 1 <= a / b) by (change (inject_Z 1) with 1; lra).
    pose proof (Qfloor_resp_le _ _ H2) as Hf. rewrite Qfloor_Z in Hf. lia.
  - apply Qle_bool_false in E. rewrite Qabs_neg in Hq by lra.
    assert (a / b <= inject_Z (-1)) by (change (inject_Z (-1)) with (-1); lra).
    pose proof (Qceiling_resp_le _ _ H0) as Hc. rewrite Qceiling_Z in Hc. lia.
Qed.

(** Less than one sample per bit: the byte loop has a zero step. *)
Lemma uart_coarse (t0 t1 : Q) (rest : list Q) (baud_rate : Z) :
  baud_rate <> 0%Z ->
  Qabs (1 / inject_Z baud_rate) < Qabs (t1 - t0) ->
  generate_uart_like env (t0 :: t1 :: rest) baud_rate =
  Throws (Raised (ValueError "range() arg 3 must not be zero")).
Proof.
  intros Hbaud Hcoarse. unfold generate_uart_like.
  destruct (baud_rate =? 0)%Z eqn:E; [apply Z.eqb_eq in E; contradiction|].
  rewrite !getitem_nonneg by lia.
  change (Z.to_nat 1) with 1%nat. change (Z.to_nat 0) with 0%nat.
  cbn [nth_error lift mbind outcome_bind obind].
  destruct (Qeq_bool (t1 - t0) 0) eqn:Ez.
  { apply Qeq_bool_iff in Ez. rewrite Ez in Hcoarse. change (Qabs 0) with 0 in Hcoarse.
    pose proof (Qabs_nonneg (1 / inject_Z baud_rate)). lra. }
  rewrite py_int_small by exact Hcoarse. reflexivity.
Qed.

(** On a time base with at least one sample per bit the call returns,
    and it returns as many samples as the time base has. *)
Lemma generate_uart_like_returns (t0 t1 : Q) (rest : list Q) (baud_rate : Z) :
  baud_rate <> 0%Z ->
  ~ t1 - t0 == 0 ->
  Qabs (t1 - t0) <= Qabs (1 / inject_Z baud_rate) ->
  exists data,
    generate_uart_like env (t0 :: t1 :: rest) baud_rate = Returns data /\
    length data = length (t0 :: t1 :: rest).
Proof.
  intros Hbaud Hdt Hfine. unfold generate_uart_like.
  destruct (baud_rate =? 0)%Z eqn:E; [apply Z.eqb_eq in E; contradiction|].
  rewrite !getitem_nonneg by lia.
  change (Z.to_nat 1) with 1%nat. change (Z.to_nat 0) with 0%nat.
  cbn [nth_error lift mbind outcome_bind obind].
  destruct (Qeq_bool (t1 - t0) 0) eqn:Ez; [apply Qeq_bool_iff in Ez; contradiction|].
  pose proof (py_int_large _ _ Hdt Hfine) as Hspb.
  destruct (py_int (1 / inject_Z baud_rate / (t1 - t0)) * 10 =? 0)%Z eqn:Es;
    [apply Z.eqb_eq in Es; lia|].
  eexists. split; [reflexivity|].
  rewrite length_uart_bytes. apply length_ones_high.
Qed.


End UartLine.

Lemma for_each_outcome_app {A S : Type} (l1 l2 : list A) (s : S)
    (body : S -> A -> HardwareSimulation.outcome S) :
  HardwareSimulation.for_each_outcome (l1 ++ l2) s body =
  match HardwareSimulation.for_each_outcome l1 s body with
  | HardwareSimulation.Returns s' => HardwareSimulation.for_each_outcome l2 s' body
  | HardwareSimulation.Throws e => HardwareSimulation.Throws e
  end.
Proof.
  revert s. induction l1 as [|x l1 IH]; intros s; simpl; [reflexivity|].
  destruct (body s x); [apply IH | reflexivity].
Qed.

Lemma clip_between (x : Q) : 0 <= np.clip x 0 (36 # 10) <= 36 # 10.
Proof.
  unfold np.clip, Qminb, Qmaxb. qle_cases; split; try lra; try discriminate.
Qed.

Lemma linspace_length (start stop : Q) (num : nat) :
  length (np.linspace start stop num) = num.
Proof. unfold np.linspace. rewrite length_map. apply length_seq. Qed.

(** The first two instants of the 1 ms window are [0.001 / (n - 1)]
    apart. *)
Lemma linspace_window (n : nat) :
  (2 <= n)%nat ->
  exists t0 t1 rest,
    np.linspace 0 (1 # 1000) n = t0 :: t1 :: rest /\
    t1 - t0 == (1 # 1000) / inject_Z (Z.of_nat (n - 1)).
Proof.
  intros H. destruct n as [|[|n]]; try lia.
  unfold np.linspace. cbn [seq map]. do 3 eexists. split; [reflexivity|].
  set (N := inject_Z (Z.of_nat (S (S n) - 1))).
  assert (HN : ~ N == 0).
  { subst N. intros E. apply (Qeq_bool_iff _ 0) in E.
    replace (S (S n) - 1)%nat with (S n) in E by lia.
    rewrite Nat2Z.inj_succ in E. unfold Qeq_bool, inject_Z in E. cbn in E.
    apply Z.eqb_eq in E. lia. }
  change (inject_Z (Z.of_nat 1)) with 1. change (inject_Z (Z.of_nat 0)) with 0.
  field. exact HN.
Qed.

(** Where the sign of the sine follows the phase of [freq * t], the
    thresholded sine is the closed form used for the clock of
    channel 0. *)
Lemma square_wave_closed_form (np_sin : Q -> Q) (np_pi : Q) (freq : Z)
    (time_data : list Q) :
  Forall (fun t =>
            let x := inject_Z freq * t in
            let phase := x - inject_Z (Qfloor x) in
            Qgtb (np_sin (2 * np_pi * inject_Z freq * t)) 0 =
            Qltb 0 phase && Qltb phase (1 # 2)) time_data ->
  HardwareSimulation.square_wave np_sin np_pi freq time_data =
  map (HardwareInterface.clock_level (inject_Z freq)) time_data.
Proof.
  intros H. unfold HardwareSimulation.square_wave.
  induction H as [|t rest Ht _ IH]; [reflexivity|].
  cbn [map]. rewrite IH. f_equal.
  unfold HardwareInterface.clock_level. cbn zeta in Ht. rewrite Ht. reflexivity.
Qed.

Section ReadSamples.

Import LaptopDebugAnalyzer HardwareSimulation.

Variable np_sin : Q -> Q.
Variable np_pi : Q.
Variable env : environment.

Lemma add_noise_length (ch : nat) (data : list Q) :
  length (add_noise env ch data) = length data.
Proof.
  unfold add_noise. rewrite length_zip_with, length_map, length_seq. lia.
Qed.

Lemma add_noise_between (ch : nat) (data : list Q) :
  Forall (fun v => 0 <= v <= 36 # 10) (add_noise env ch data).
Proof.
  unfold add_noise. apply Forall_lookup_2. intros k v Hk.
  rewrite lookup_zip_with in Hk.
  destruct (data !! k) as [d|]; [|discriminate]. cbn in Hk.
  destruct (_ !! k) as [e|]; [|discriminate]. cbn in Hk.
  injection Hk as <-. apply clip_between.
Qed.

(** Every channel but the UART one returns a signal, whatever the time
    base. *)
Lemma channel_signal_returns (time_data : list Q) (ch : nat) :
  ch <> 5%nat ->
  exists data,
    channel_signal np_sin np_pi env time_data ch = Returns data /\
    length data = length time_data.
Proof.
  intros Hch.
  destruct ch as [|[|[|[|[|[|ch]]]]]]; try contradiction; unfold channel_signal.
  - eexists. split; [reflexivity|]. unfold square_wave. apply length_map.
  - eexists. split; [reflexivity|]. rewrite length_zip_with, length_map. lia.
  - eexists. split; [reflexivity|]. apply length_map.
  - apply generate_i2c_like_length. discriminate.
  - eexists. split; [reflexivity|]. apply generate_spi_like_length.
  - eexists. split; [reflexivity|]. rewrite length_map. apply length_seq.
Qed.

(** The UART channel on the 1 ms window of [n] samples. *)
Lemma uart_window (n : nat) :
  generate_uart_like env (np.linspace 0 (1 # 1000) n) 9600 =
  (if (n <? 2)%nat then Throws (Raised IndexError)
   else if (n <? 11)%nat then Throws (Raised (ValueError "range() arg 3 must not be zero"))
   else generate_uart_like env (np.linspace 0 (1 # 1000) n) 9600) /\
  ((11 <= n)%nat ->
   exists data,
     generate_uart_like env (np.linspace 0 (1 # 1000) n) 9600 = Returns data /\
     length data = n).
Proof.
  destruct (Nat.ltb_spec n 2) as [Hlt|Hge].
  { split; [|lia]. destruct n as [|[|n]]; [reflexivity|reflexivity|lia]. }
  destruct (linspace_window n Hge) as (t0 & t1 & rest & Hwin & Hdt).
  pose proof (linspace_length 0 (1 # 1000) n) as Hlen.
  rewrite Hwin in *.
  set (N := inject_Z (Z.of_nat (n - 1))) in *.
  assert (HN : 1 <= N).
  { subst N. change 1 with (inject_Z 1). rewrite <- Zle_Qle. lia. }
  change (1 / inject_Z 9600) with (1 # 9600) in *.
  destruct (Nat.ltb_spec n 11) as [Hshort|Hlong].
  - split; [|lia]. apply uart_coarse; [discriminate|].
    change (1 / inject_Z 9600) with (1 # 9600).
    assert (HN9 : N <= 9).
    { subst N. change 9 with (inject_Z 9). rewrite <- Zle_Qle. lia. }
    rewrite Hdt. rewrite (Qabs_pos (1 # 9600)) by discriminate.
    assert (Hpos : (1 # 9600) < (1 # 1000) / N).
    { apply Qlt_shift_div_l; lra. }
    rewrite Qabs_pos by lra. exact Hpos.
  - split; [reflexivity|]. intros _.
    assert (HN10 : 10 <= N).
    { subst N. change 10 with (inject_Z 10). rewrite <- Zle_Qle. lia. }
    assert (Hpos : 0 < (1 # 1000) / N) by (apply Qlt_shift_div_l; lra).
    assert (Hfine : (1 # 1000) / N <= 1 # 9600) by (apply Qle_shift_div_r; lra).
    destruct (generate_uart_like_returns env t0 t1 rest 9600) as (data & E & Hdata).
    + discriminate.
    + rewrite Hdt. lra.
    + change (1 / inject_Z 9600) with (1 # 9600).
      rewrite Hdt, (Qabs_pos (1 # 9600)) by discriminate.
      rewrite Qabs_pos by lra. exact Hfine.
    + exists data. split; [exact E|]. rewrite Hdata. exact Hlen.
Qed.

Variable hw : hardware.

Local Abbreviation enabled ch := (channels_enabled hw !! ch = Some true).

(** The channel loop over channels whose signal is returned. *)
Lemma simulate_channels (time_data : list Q) (chans : list nat)
    (acc : list (nat * capture)) :
  Forall (fun ch => (ch < length (channels_enabled hw))%nat) chans ->
  Forall (fun ch => enabled ch ->
                    exists data,
                      channel_signal np_sin np_pi env time_data ch = Returns data /\
                      length data = length time_data) chans ->
  exists entries,
    for_each_outcome (map Z.of_nat chans) acc
                     (simulate_channel np_sin np_pi env hw time_data)
    = Returns (acc ++ entries) /\
    entries.*1 = filter (fun ch => enabled ch) chans /\
    Forall (fun entry : nat * capture =>
              cap_time entry.2 = time_data /\
              length (cap_data entry.2) = length time_data /\
              Forall (fun v => 0 <= v <= 36 # 10) (cap_data entry.2)) entries.
Proof.
  intros Hbound Hsignal. revert acc.
  induction chans as [|ch chans IH]; intros acc.
  - exists []. rewrite app_nil_r. split; [reflexivity|]. split; [reflexivity|constructor].
  - apply Forall_cons in Hbound as [Hch Hbound].
    apply Forall_cons in Hsignal as [Hsig Hsignal].
    specialize (IH Hbound Hsignal).
    cbn [map for_each_outcome]. unfold simulate_channel at 1.
    rewrite getitem_nonneg by lia. rewrite Nat2Z.id.
    destruct (nth_error (channels_enabled hw) ch) as [flag|] eqn:E;
      [|apply nth_error_None in E; lia].
    assert (Hlookup : channels_enabled hw !! ch = Some flag).
    { rewrite <- E. clear. revert ch.
      induction (channels_enabled hw) as [|x l IHl]; intros [|ch]; try reflexivity.
      apply IHl. }
    cbn [lift mbind outcome_bind obind].
    destruct flag.
    + destruct (Hsig Hlookup) as (data & Edata & Hlen). rewrite Edata.
      cbn [mbind outcome_bind obind].
      destruct (IH (acc ++ [(ch, {| cap_time := time_data;
                                    cap_data := add_noise env ch data;
                                    cap_timestamp := time_time env ch |})]))
        as (entries & Hloop & Hkeys & Hok).
      rewrite Hloop. eexists. split; [rewrite <- app_assoc; reflexivity|].
      split.
      * cbn [app fmap list_fmap fst]. rewrite filter_cons_True by exact Hlookup.
        f_equal. exact Hkeys.
      * constructor; [|exact Hok]. cbn [snd cap_time cap_data].
        split; [reflexivity|]. split; [rewrite add_noise_length; exact Hlen|].
        apply add_noise_between.
    + destruct (IH acc) as (entries & Hloop & Hkeys & Hok).
      rewrite Hloop. exists entries. split; [reflexivity|]. split; [|exact Hok].
      rewrite filter_cons_False by (rewrite Hlookup; discriminate). exact Hkeys.
Qed.

End ReadSamples.

Section ReadSamplesShape.

Import LaptopDebugAnalyzer HardwareSimulation.

Variable np_sin : Q -> Q.
Variable np_pi : Q.
Variable env : environment.
Variable hw : hardware.

Lemma read_samples_is_simulated (num_samples : nat) :
  read_samples np_sin np_pi env hw num_samples =
  generate_simulated_samples np_sin np_pi env hw num_samples.
Proof. unfold read_samples. destruct (negb _ || _); reflexivity. Qed.

(** With the UART channel enabled, a window of fewer than 11 samples
    makes the channel loop stop at channel 5. *)
Lemma simulated_short_window (num_samples : nat) :
  channels_enabled hw !! 5%nat = Some true ->
  (num_samples <= 10)%nat ->
  generate_simulated_samples np_sin np_pi env hw num_samples =
  Throws (Raised (if (num_samples <? 2)%nat then IndexError
                  else ValueError "range() arg 3 must not be zero")).
Proof.
  intros H5 Hn. unfold generate_simulated_samples.
  change (py_range 0 8 1)
    with (map Z.of_nat [0; 1; 2; 3; 4]%nat ++ map Z.of_nat [5; 6; 7]%nat).
  rewrite for_each_outcome_app.
  pose proof (lookup_lt_Some _ _ _ H5) as Hlen.
  destruct (simulate_channels np_sin np_pi env hw (np.linspace 0 (1 # 1000) num_samples)
              [0; 1; 2; 3; 4]%nat []) as (entries & -> & _).
  { repeat constructor; lia. }
  { repeat constructor; intros _; apply channel_signal_returns; discriminate. }
  cbn [map for_each_outcome]. unfold simulate_channel at 1.
  rewrite getitem_nonneg by lia. change (Z.to_nat (Z.of_nat 5)) with 5%nat.
  assert (E : nth_error (channels_enabled hw) 5 = Some true).
  { rewrite <- H5. clear. generalize 5%nat. 
    induction (channels_enabled hw) as [|x l IHl]; intros [|ch]; try reflexivity.
    apply IHl. }
  rewrite E. cbn [lift mbind outcome_bind obind].
  unfold channel_signal.
  destruct (uart_window env num_samples) as [-> _].
  destruct (Nat.ltb_spec num_samples 2); [reflexivity|].
  destruct (Nat.ltb_spec num_samples 11); [reflexivity|lia].
Qed.

(** X28: with channel 5 enabled, [read_samples] cannot deliver fewer than
    11 samples: it raises [IndexError] for a window of 0 or 1 samples
    and [ValueError] for 2 to 10, where the UART generator has less than
    one sample per bit. *)
Theorem read_samples_short_window (num_samples : nat) :
  channels_enabled hw !! 5%nat = Some true ->
  (num_samples <= 10)%nat ->
  read_samples np_sin np_pi env hw num_samples =
  Throws (Raised (if (num_samples <? 2)%nat then IndexError
                  else ValueError "range() arg 3 must not be zero")).
Proof.
  intros H5 Hn. rewrite read_samples_is_simulated.
  apply simulated_short_window; assumption.
Qed.

(** With eight channel flags, a window of at least 11 samples or a
    disabled UART channel lets every enabled channel return. *)
Lemma simulated_batch (num_samples : nat) :
  length (channels_enabled hw) = 8%nat ->
  (11 <= num_samples)%nat \/ channels_enabled hw !! 5%nat = Some false ->
  exists channel_data,
    generate_simulated_samples np_sin np_pi env hw num_samples = Returns channel_data /\
    channel_data.*1 = filter (fun ch => channels_enabled hw !! ch = Some true) (seq 0 8) /\
    Forall (fun entry : nat * capture =>
              cap_time entry.2 = np.linspace 0 (1 # 1000) num_samples /\
              length (cap_data entry.2) = num_samples /\
              Forall (fun v => 0 <= v <= 36 # 10) (cap_data entry.2)) channel_data.
Proof.
  intros Hlen Hok. unfold generate_simulated_samples.
  change (py_range 0 8 1) with (map Z.of_nat (seq 0 8)).
  destruct (simulate_channels np_sin np_pi env hw (np.linspace 0 (1 # 1000) num_samples)
              (seq 0 8) []) as (entries & Hloop & Hkeys & Hentries).
  { apply Forall_forall. intros ch Hch. apply elem_of_seq in Hch. lia. }
  { apply Forall_forall. intros ch _ Hen.
    destruct (decide (ch = 5%nat)) as [->|Hne].
    - destruct Hok as [Hn|Hoff]; [|congruence].
      destruct (uart_window env num_samples) as [_ Hret].
      destruct (Hret Hn) as (data & E & Hdata).
      exists data. split; [exact E|]. rewrite linspace_length. exact Hdata.
    - apply channel_signal_returns, Hne. }
  exists entries. split; [exact Hloop|]. split; [exact Hkeys|].
  eapply Forall_impl; [exact Hentries|].
  intros entry (Ht & Hl & Hv). rewrite linspace_length in Hl. auto.
Qed.

(** X29: with eight channel flags and either at least 11 samples or the
    UART channel disabled, [read_samples] returns one entry for each
    enabled channel and none for the others, in channel order; every
    entry carries the same 1 ms time base and one sample per instant,
    each between 0 V and 3.6 V. *)
Theorem read_samples_batch (num_samples : nat) :
  length (channels_enabled hw) = 8%nat ->
  (11 <= num_samples)%nat \/ channels_enabled hw !! 5%nat = Some false ->
  exists channel_data,
    read_samples np_sin np_pi env hw num_samples = Returns channel_data /\
    channel_data.*1 = filter (fun ch => channels_enabled hw !! ch = Some true) (seq 0 8) /\
    Forall (fun entry : nat * capture =>
              cap_time entry.2 = np.linspace 0 (1 # 1000) num_samples /\
              length (cap_data entry.2) = num_samples /\
              Forall (fun v => 0 <= v <= 36 # 10) (cap_data entry.2)) channel_data.
Proof.
  intros Hlen Hok. rewrite read_samples_is_simulated.
  apply simulated_batch; assumption.
Qed.

End ReadSamplesShape.

Section SimulatedTick.

Import LaptopDebugAnalyzer HardwareSimulation.

Variable np_hanning_at : nat -> nat -> Q.
Variable np_fft_bin : list Q -> nat -> Q * Q.
Variable np_abs : Q * Q -> Q.
Variable np_log10 : Q -> Q.
Variable np_sin : Q -> Q.
Variable np_pi : Q.

Local Abbreviation tick :=
  (Session.update_capture np_hanning_at np_fft_bin np_abs np_log10 np_sin np_pi).

(** X30: one tick of a capturing analyzer on the simulator.  A channel
    that is enabled in the hardware and checked in the window then holds
    1000 fresh samples between 0 V and 3.6 V over the 1 ms time base; a
    channel that is not enabled in the hardware keeps whatever buffer it
    had, checked or not. *)
Theorem update_capture_simulated (env : environment) (hw : hardware) (ui : ui_inputs)
    (st : analyzer) (ch : nat) :
  is_capturing st = true ->
  length (channels_enabled hw) = 8%nat ->
  (channels_enabled hw !! ch = Some true ->
   channel_checked ui !! ch = Some true ->
   exists cap,
     capture_data (tick env hw ui st) !! ch = Some cap /\
     cap_time cap = np.linspace 0 (1 # 1000) 1000 /\
     length (cap_data cap) = 1000%nat /\
     Forall (fun v => 0 <= v <= 36 # 10) (cap_data cap)) /\
  (channels_enabled hw !! ch <> Some true ->
   capture_data (tick env hw ui st) !! ch = capture_data st !! ch).
Proof.
  intros Hcap Hlen. unfold Session.update_capture. rewrite Hcap. cbn [negb].
  rewrite read_samples_is_simulated.
  destruct (simulated_batch np_sin np_pi env hw 1000 Hlen) as (batch & -> & Hkeys & Hentries).
  { left. lia. }
  rewrite update_capture_capture_data by exact Hcap.
  assert (Hdistinct : NoDup batch.*1).
  { rewrite Hkeys. apply NoDup_filter, NoDup_seq. }
  split.
  - intros Hen Hchecked.
    assert (Hin : ch ∈ batch.*1).
    { rewrite Hkeys. apply list_elem_of_filter. split; [exact Hen|].
      apply elem_of_seq. apply lookup_lt_Some in Hen. lia. }
    apply list_elem_of_fmap in Hin as ([ch' cap] & Heq & Hin). cbn in Heq. subst ch'.
    exists cap. split.
    + apply store_batch_entry.
      * apply NoDup_ListNoDup. exact Hdistinct.
      * apply list_elem_of_In. exact Hin.
      * exact Hchecked.
    + rewrite Forall_forall in Hentries. apply (Hentries _ Hin).
  - intros Hoff. apply store_batch_other. intros Hin.
    apply list_elem_of_In in Hin.
    change (ch ∈ batch.*1) in Hin. rewrite Hkeys in Hin.
    apply list_elem_of_filter in Hin as [Hen _]. contradiction.
Qed.

End SimulatedTick.

(** ** The simulator on concrete inputs *)

Lemma generate_i2c_like_frames_witness :
  exists data,
    HardwareSimulation.generate_i2c_like HardwareSimulation.quiet [0; 0; 0] 4000
    = HardwareSimulation.Returns data /\
    length data = 3%nat.
Proof.
  destruct (generate_i2c_like_frames HardwareSimulation.quiet [0; 0; 0] 4000)
    as (data & E & Hlen & _).
  - discriminate.
  - exists data. split; [exact E|exact Hlen].
Defined.

Lemma generate_spi_like_gated_witness :
  let time_data := [0; 1 # 20000; 1 # 10000; 3 # 20000] in
  let data := HardwareSimulation.generate_spi_like HardwareSimulation.arc_sine
                HardwareSimulation.three HardwareSimulation.quiet time_data 5000 in
  data !! 1%nat = Some (33 # 10) /\ data !! 3%nat = Some 0.
Proof.
  cbn zeta.
  destruct (generate_spi_like_gated HardwareSimulation.quiet HardwareSimulation.arc_sine
              HardwareSimulation.three [0; 1 # 20000; 1 # 10000; 3 # 20000] 5000)
    as [_ H].
  split.
  - rewrite (H 1%nat (1 # 20000)); reflexivity.
  - rewrite (H 3%nat (3 # 20000)); reflexivity.
Defined.


Lemma read_samples_short_window_witness :
  HardwareSimulation.read_samples HardwareSimulation.flat_sine HardwareSimulation.three
    HardwareSimulation.quiet HardwareSimulation.init 5 =
  HardwareSimulation.Throws
    (HardwareSimulation.Raised (ValueError "range() arg 3 must not be zero")).
Proof.
  apply (read_samples_short_window HardwareSimulation.flat_sine HardwareSimulation.three
           HardwareSimulation.quiet HardwareSimulation.init 5).
  - reflexivity.
  - lia.
Defined.

Lemma read_samples_batch_witness :
  exists channel_data,
    HardwareSimulation.read_samples HardwareSimulation.flat_sine HardwareSimulation.three
      HardwareSimulation.quiet HardwareSimulation.init 11
    = HardwareSimulation.Returns channel_data /\
    channel_data.*1 = [0; 1; 2; 3; 4; 5; 6; 7]%nat.
Proof.
  destruct (read_samples_batch HardwareSimulation.flat_sine HardwareSimulation.three
              HardwareSimulation.quiet HardwareSimulation.init 11)
    as (channel_data & E & Hkeys & _).
  - reflexivity.
  - left. lia.
  - exists channel_data. split; [exact E|]. rewrite Hkeys. reflexivity.
Defined.

Lemma update_capture_simulated_witness :
  exists cap,
    LaptopDebugAnalyzer.capture_data
      (Session.update_capture Samples.flat_window Samples.sample_bins Samples.norm1
         Samples.linear_log HardwareSimulation.flat_sine HardwareSimulation.three
         HardwareSimulation.quiet HardwareSimulation.init Samples.ui
         (LaptopDebugAnalyzer.start_capture Samples.ui LaptopDebugAnalyzer.initial))
      !! 0%nat = Some cap /\
    length (LaptopDebugAnalyzer.cap_data cap) = 1000%nat.
Proof.
  destruct (update_capture_simulated Samples.flat_window Samples.sample_bins Samples.norm1
              Samples.linear_log HardwareSimulation.flat_sine HardwareSimulation.three
              HardwareSimulation.quiet HardwareSimulation.init Samples.ui
              (LaptopDebugAnalyzer.start_capture Samples.ui LaptopDebugAnalyzer.initial)
              0%nat) as [H _].
  - reflexivity.
  - reflexivity.
  - destruct H as (cap & E & _ & Hlen & _).
    + reflexivity.
    + reflexivity.
    + exists cap. split; [exact E|exact Hlen].
Defined.
